(** * Thermal receipt printer service: a shallow embedding of
    [printer_service.py] and the properties of its print pipeline.

  The Python program is embedded as follows.
  - JSON request data is the inductive type [value]; every operation the
    source applies to it ([data.get], [data[k]], [in], iteration, [len],
    slicing, truthiness, f-string formatting) is a function on [value]
    that returns an [outcome]: a result or a raised exception.
  - A Python [float] is an IEEE-754 binary64 number ([spec_float] with
    precision 53 and maximal exponent 1024), a Python [int] is a [Z].
  - A Python [str] is a [string]; one character stands for one code point.
  - The outside world (USB bus, printer, barcode and QR libraries, process
    environment) is a record [world] of oracles; the calls the program
    makes are recorded, in order, in a trace of [event]s that is threaded
    through a state-and-exception monad [M]. *)

From Stdlib Require Import ZArith List String Ascii Bool Lia.
From Stdlib Require Import DecimalString HexadecimalString.
From Stdlib Require Import Floats.SpecFloat.
Import ListNotations.

Set Warnings "-register-all".

Local Open Scope string_scope.
Local Open Scope Z_scope.

(* ===================================================================== *)
(** * Python strings *)
(* ===================================================================== *)

Module PyStr.

(** [c * n] for a one-character string. *)
Fixpoint replicate (n : nat) (c : ascii) : string :=
  match n with
  | O => EmptyString
  | S n' => String c (replicate n' c)
  end.

(** [format(s, '<w')]: pad with spaces on the right up to width [w];
    a longer string is left as it is. *)
Definition ljust (w : nat) (s : string) : string :=
  s ++ replicate (w - String.length s) " ".

(** [format(s, '>w')]: pad with spaces on the left up to width [w]. *)
Definition rjust (w : nat) (s : string) : string :=
  replicate (w - String.length s) " " ++ s.

(** [format(s, '0w')] on the digits of a non-negative number. *)
Definition zfill (w : nat) (s : string) : string :=
  replicate (w - String.length s) "0" ++ s.

(** [s[i:i+n]] for [0 <= i]. *)
Definition slice (i n : nat) (s : string) : string := substring i n s.

(** [s * n]. *)
Fixpoint repeat_str (n : nat) (s : string) : string :=
  match n with
  | O => EmptyString
  | S n' => s ++ repeat_str n' s
  end.

(** The characters of [s], each as a one-character string
    (what [for c in s] yields). *)
Fixpoint chars (s : string) : list string :=
  match s with
  | EmptyString => []
  | String c s' => String c EmptyString :: chars s'
  end.

(** [sub in s] for a non-empty [sub]. *)
Fixpoint contains (sub s : string) : bool :=
  prefix sub s ||
  match s with
  | EmptyString => false
  | String _ s' => contains sub s'
  end.

Definition newline : string := String (ascii_of_nat 10) EmptyString.

(** Decimal digits of a natural number, as [str(n)] prints them. *)
Definition of_N (n : N) : string :=
  DecimalString.NilZero.string_of_uint (N.to_uint n).

(** [str(z)] for an [int]. *)
Definition of_Z (z : Z) : string :=
  match z with
  | Z0 => "0"
  | Zpos p => of_N (Npos p)
  | Zneg p => "-" ++ of_N (Npos p)
  end.

(** A decimal digit, and a string of exactly two of them. *)
Definition is_digit (c : ascii) : bool :=
  (48 <=? nat_of_ascii c)%nat && (nat_of_ascii c <=? 57)%nat.

Definition two_digits (s : string) : bool :=
  match s with
  | String a (String b EmptyString) => is_digit a && is_digit b
  | _ => false
  end.

(** [format(n, 'x')] for [0 <= n]: lower-case hexadecimal digits. *)
Definition hex_of_N (n : N) : string :=
  HexadecimalString.NilZero.string_of_uint (N.to_hex_uint n).

End PyStr.

(* ===================================================================== *)
(** * Python numbers: [int] and binary64 [float] *)
(* ===================================================================== *)

Module PyNum.

Definition prec : Z := 53.
Definition emax : Z := 1024.

(** The double nearest to [m * 2^e] (ties to even). *)
Definition float_of (m e : Z) : spec_float := binary_normalize prec emax m e false.

(** [float(z)] for an [int]: [None] stands for [OverflowError]. *)
Definition float_of_int (z : Z) : option spec_float :=
  match float_of z 0 with
  | S754_infinity _ => None
  | f => Some f
  end.

(** [x * y] on two floats. *)
Definition fmul (x y : spec_float) : spec_float := SFmul prec emax x y.

(** [round(m * 2^e * 100)] to the nearest integer, ties to even, for a
    positive mantissa: the digits [format(x, '.2f')] prints. *)
Definition hundredths (m : positive) (e : Z) : Z :=
  let num := Zpos m * 100 in
  if 0 <=? e then num * 2 ^ e
  else
    let den := 2 ^ (- e) in
    let q := num / den in
    let r := num mod den in
    match 2 * r ?= den with
    | Lt => q
    | Gt => q + 1
    | Eq => if Z.even q then q else q + 1
    end.

(** The digits of [h] hundredths, as [<integer part>.<two digits>]. *)
Definition fixed2 (h : Z) : string :=
  PyStr.of_Z (h / 100) ++ "." ++ PyStr.zfill 2 (PyStr.of_Z (h mod 100)).

Definition sign_str (s : bool) : string := if s then "-" else "".

(** [format(x, '.2f')] for a float. *)
Definition format_2f (x : spec_float) : string :=
  match x with
  | S754_zero s => sign_str s ++ "0.00"
  | S754_infinity s => sign_str s ++ "inf"
  | S754_nan => "nan"
  | S754_finite s m e => sign_str s ++ fixed2 (hundredths m e)
  end.

(** [bool(x)] for a float: everything but the two zeros is true. *)
Definition float_truth (x : spec_float) : bool :=
  match x with
  | S754_zero _ => false
  | _ => true
  end.

End PyNum.


(* ===================================================================== *)
(** * Python values, exceptions and the operations the program uses *)
(* ===================================================================== *)

(** What [request.get_json()] can return: the Python image of a JSON text.
    A [VDict] is an association list read by its first matching key. *)
Inductive value : Type :=
| VNone
| VBool (b : bool)
| VInt (z : Z)
| VFloat (x : spec_float)
| VStr (s : string)
| VList (l : list value)
| VDict (kvs : list (string * value)).

(** The exception classes that occur. All of them derive from [Exception];
    [USBNotFoundError] is the one class [detect_printer] and the first
    handler of [print_invoice] name. [LibraryError] stands for every other
    class a library may raise (a USB permission or busy error, an encoder
    error, a transport error). *)
Inductive exn_class : Type :=
| USBNotFoundError
| KeyError
| TypeError
| ValueError
| AttributeError
| OverflowError
| LibraryError.

(** An exception object: its class and what [str(e)] returns. *)
Record exn : Type := Exn { exn_class_of : exn_class; exn_str : string }.

Inductive outcome (A : Type) : Type :=
| Return (a : A)
| Raise (e : exn).

Arguments Return {A} a.
Arguments Raise {A} e.

Definition is_USBNotFoundError (e : exn) : bool :=
  match exn_class_of e with
  | USBNotFoundError => true
  | _ => false
  end.

(** [except Exception] catches every class above. *)
Definition is_Exception (e : exn) : bool := true.

Module Py.

(** [type(v).__name__] *)
Definition type_name (v : value) : string :=
  match v with
  | VNone => "NoneType"
  | VBool _ => "bool"
  | VInt _ => "int"
  | VFloat _ => "float"
  | VStr _ => "str"
  | VList _ => "list"
  | VDict _ => "dict"
  end.

Definition quote (s : string) : string := "'" ++ s ++ "'".

(** The texts of the interpreter's own errors follow CPython 3.11. *)
Definition key_error (k : string) : exn := Exn KeyError (quote k).

Definition not_subscriptable (v : value) : exn :=
  Exn TypeError (quote (type_name v) ++ " object is not subscriptable").

Definition not_iterable (v : value) : exn :=
  Exn TypeError (quote (type_name v) ++ " object is not iterable").

Definition bad_format (v : value) : exn :=
  Exn TypeError
    ("unsupported format string passed to " ++ type_name v ++ ".__format__").

Definition int_too_large : exn :=
  Exn OverflowError "int too large to convert to float".

(** [d[k]] on the pairs of a dict. *)
Fixpoint lookup (k : string) (kvs : list (string * value)) : option value :=
  match kvs with
  | [] => None
  | (k', v) :: rest => if String.eqb k k' then Some v else lookup k rest
  end.

(** The keys of a dict, each once, in insertion order. *)
Fixpoint keys_from (seen : list string) (kvs : list (string * value))
  : list string :=
  match kvs with
  | [] => []
  | (k, _) :: rest =>
      if existsb (String.eqb k) seen then keys_from seen rest
      else k :: keys_from (k :: seen) rest
  end.

Definition keys (kvs : list (string * value)) : list string := keys_from [] kvs.

(** [data.get(k, default)] *)
Definition get (data : value) (k : string) (default : value) : outcome value :=
  match data with
  | VDict kvs =>
      match lookup k kvs with
      | Some v => Return v
      | None => Return default
      end
  | _ => Raise (Exn AttributeError
                  (quote (type_name data) ++ " object has no attribute 'get'"))
  end.

(** [data[k]] for a string [k] *)
Definition getitem (data : value) (k : string) : outcome value :=
  match data with
  | VDict kvs =>
      match lookup k kvs with
      | Some v => Return v
      | None => Raise (key_error k)
      end
  | VList _ =>
      Raise (Exn TypeError "list indices must be integers or slices, not str")
  | VStr _ => Raise (Exn TypeError "string indices must be integers, not 'str'")
  | _ => Raise (not_subscriptable data)
  end.

(** [k in data] for a string [k] *)
Definition contains (k : string) (data : value) : outcome bool :=
  match data with
  | VDict kvs =>
      Return (match lookup k kvs with Some _ => true | None => false end)
  | VList l =>
      Return (existsb (fun v => match v with
                                | VStr s => String.eqb s k
                                | _ => false
                                end) l)
  | VStr s => Return (PyStr.contains k s)
  | _ => Raise (Exn TypeError
                  ("argument of type " ++ quote (type_name data)
                   ++ " is not iterable"))
  end.

(** [bool(v)] *)
Definition truth (v : value) : bool :=
  match v with
  | VNone => false
  | VBool b => b
  | VInt z => negb (z =? 0)
  | VFloat x => PyNum.float_truth x
  | VStr s => negb (String.eqb s "")
  | VList l => match l with [] => false | _ => true end
  | VDict kvs => match kvs with [] => false | _ => true end
  end.

(** What [for x in v] yields. *)
Definition iter (v : value) : outcome (list value) :=
  match v with
  | VList l => Return l
  | VStr s => Return (map VStr (PyStr.chars s))
  | VDict kvs => Return (map VStr (keys kvs))
  | _ => Raise (not_iterable v)
  end.

(** [len(v)] *)
Definition len (v : value) : outcome nat :=
  match v with
  | VStr s => Return (String.length s)
  | VList l => Return (List.length l)
  | VDict kvs => Return (List.length (keys kvs))
  | _ => Raise (Exn TypeError
                  ("object of type " ++ quote (type_name v) ++ " has no len()"))
  end.

(** [v[i:i+n]] for [0 <= i] *)
Definition slice (v : value) (i n : nat) : outcome value :=
  match v with
  | VStr s => Return (VStr (PyStr.slice i n s))
  | VList l => Return (VList (firstn n (skipn i l)))
  | VDict _ => Raise (Exn TypeError "unhashable type: 'slice'")
  | _ => Raise (not_subscriptable v)
  end.

(** [range(0, n, step)] for [0 < step], with [fuel] bounding the number of
    elements. *)
Fixpoint range_from (fuel start n step : nat) : list nat :=
  match fuel with
  | O => []
  | S fuel' =>
      if (start <? n)%nat then start :: range_from fuel' (start + step) n step
      else []
  end.

Definition range_step (n step : nat) : list nat := range_from n 0 n step.

(** [enumerate(l)] *)
Fixpoint enumerate_from {A : Type} (i : nat) (l : list A) : list (nat * A) :=
  match l with
  | [] => []
  | x :: rest => (i, x) :: enumerate_from (S i) rest
  end.

Definition enumerate {A : Type} (l : list A) : list (nat * A) :=
  enumerate_from 0 l.

(** [str(v)], which is also [format(v, '')]. The interpreter's [repr] of
    floats, lists and dicts is passed in as [repr]. *)
Definition str (repr : value -> string) (v : value) : string :=
  match v with
  | VStr s => s
  | VNone => "None"
  | VBool b => if b then "True" else "False"
  | VInt z => PyStr.of_Z z
  | _ => repr v
  end.

(** [format(v, '<w')] *)
Definition format_ljust (repr : value -> string) (w : nat) (v : value)
  : outcome string :=
  match v with
  | VStr s => Return (PyStr.ljust w s)
  | VBool b => Return (PyStr.ljust w (PyStr.of_Z (if b then 1 else 0)))
  | VInt z => Return (PyStr.ljust w (PyStr.of_Z z))
  | VFloat _ => Return (PyStr.ljust w (repr v))
  | VNone | VList _ | VDict _ => Raise (bad_format v)
  end.

(** The float a number is printed as by a [f] format: [int] and [bool] are
    converted, anything that is not a number is refused. *)
Definition float_for_format (v : value) : outcome spec_float :=
  match v with
  | VFloat x => Return x
  | VInt z =>
      match PyNum.float_of_int z with
      | Some x => Return x
      | None => Raise int_too_large
      end
  | VBool b => Return (PyNum.float_of (if b then 1 else 0) 0)
  | VStr _ =>
      Raise (Exn ValueError "Unknown format code 'f' for object of type 'str'")
  | _ => Raise (bad_format v)
  end.

(** [format(v, '>w.2f')] *)
Definition format_f2 (w : nat) (v : value) : outcome string :=
  match float_for_format v with
  | Return x => Return (PyStr.rjust w (PyNum.format_2f x))
  | Raise e => Raise e
  end.

Definition as_int (v : value) : option Z :=
  match v with
  | VInt z => Some z
  | VBool b => Some (if b then 1 else 0)
  | _ => None
  end.

Definition cannot_multiply (a b : value) : exn :=
  Exn TypeError ("unsupported operand type(s) for *: " ++ quote (type_name a)
                 ++ " and " ++ quote (type_name b)).

(** [a * b] where one side is a float. *)
Definition mul_float (x : spec_float) (other : value) (float_first : bool)
  (a b : value) : outcome value :=
  match other with
  | VFloat y =>
      Return (VFloat (if float_first then PyNum.fmul x y else PyNum.fmul y x))
  | VInt _ | VBool _ =>
      match float_for_format other with
      | Return y =>
          Return (VFloat (if float_first then PyNum.fmul x y
                          else PyNum.fmul y x))
      | Raise e => Raise e
      end
  | VStr _ | VList _ =>
      Raise (Exn TypeError "can't multiply sequence by non-int of type 'float'")
  | _ => Raise (cannot_multiply a b)
  end.

(** A sequence repeated [n] times. *)
Definition repeat_seq (s : value) (n : Z) : option value :=
  match s with
  | VStr s => Some (VStr (PyStr.repeat_str (Z.to_nat n) s))
  | VList l => Some (VList (List.concat (List.repeat l (Z.to_nat n))))
  | _ => None
  end.

(** [a * b] *)
Definition mul (a b : value) : outcome value :=
  match a, b with
  | VFloat x, _ => mul_float x b true a b
  | _, VFloat y => mul_float y a false a b
  | _, _ =>
      match as_int a, as_int b with
      | Some x, Some y => Return (VInt (x * y))
      | Some n, None =>
          match repeat_seq b n with
          | Some v => Return v
          | None => Raise (cannot_multiply a b)
          end
      | None, Some n =>
          match repeat_seq a n with
          | Some v => Return v
          | None => Raise (cannot_multiply a b)
          end
      | None, None => Raise (cannot_multiply a b)
      end
  end.

(** [format(z, '04x')] *)
Definition format_04x (z : Z) : string :=
  match z with
  | Zneg p => "-" ++ PyStr.zfill 3 (PyStr.hex_of_N (Npos p))
  | _ => PyStr.zfill 4 (PyStr.hex_of_N (Z.to_N z))
  end.

End Py.

(* ===================================================================== *)
(** * The outside world and the trace of calls *)
(* ===================================================================== *)

(** An [escpos.printer.Usb] object, known by the identity it was opened
    with. *)
Record usb_printer : Type := UsbPrinter { usb_idVendor : Z; usb_idProduct : Z }.

(** A [PIL.Image] read from the bytes of an image file. *)
Inductive image : Type := PILImage (file : string).

Inductive alignment : Type := AlignLeft | AlignCenter | AlignRight.

(** The methods the program calls on a printer, with the keyword arguments
    it passes ([None]: the keyword is not passed). *)
Inductive call : Type :=
| CallSet (align : option alignment) (bold : option bool)
| CallText (txt : string)
| CallImage (img : image)          (* [impl="bitImageColumn"] *)
| CallCut
| CallClose.

Inductive level : Type := DEBUG | INFO | WARNING | ERROR.

(** What the program does to the outside world, in the order it does it. *)
Inductive event : Type :=
| EvUsb (idVendor idProduct : Z)              (* [Usb(idVendor, idProduct)] *)
| EvPrinter (p : usb_printer) (c : call)      (* a method call on [p] *)
| EvLog (lv : level) (msg : string).          (* a call of [logger] *)

(** The behaviour of everything outside the program. The oracles of the
    USB bus and of the printer see the trace so far, so that a device may
    answer differently from one call to the next; [None] means that the call
    returns normally. *)
Record world : Type := World {
  (** [os.getenv('AUTH_TOKEN')] when the module is loaded *)
  getenv_AUTH_TOKEN : option string;
  (** [repr] of floats, lists and dicts *)
  py_repr : value -> string;
  (** [str(USBNotFoundError(msg))] *)
  USBNotFoundError_str : string -> string;
  (** [Usb(idVendor, idProduct)] *)
  Usb_init : list event -> Z -> Z -> option exn;
  (** a method call on an open printer *)
  printer_method : list event -> usb_printer -> call -> option exn;
  (** [barcode.get('code128', v, writer=ImageWriter())] written to a buffer *)
  barcode_code128 : value -> outcome string;
  (** [qrcode.QRCode(version=1, error_correction=ERROR_CORRECT_L, box_size=4,
      border=2)], [add_data(v)], [make(fit=True)], [make_image] black on
      white, saved as PNG to a buffer *)
  qrcode_png : value -> outcome string;
  (** [Image.open(buffer)] *)
  Image_open : string -> outcome image
}.

(** ** The monad: a trace that is threaded through, and exceptions *)

Definition M (A : Type) : Type := list event -> outcome A * list event.

Definition ret {A : Type} (a : A) : M A := fun t => (Return a, t).

Definition raise {A : Type} (e : exn) : M A := fun t => (Raise e, t).

Definition bind {A B : Type} (m : M A) (k : A -> M B) : M B :=
  fun t =>
    match m t with
    | (Return a, t') => k a t'
    | (Raise e, t') => (Raise e, t')
    end.

(** A computation that touches nothing outside. *)
Definition lift {A : Type} (o : outcome A) : M A := fun t => (o, t).

Declare Scope py_scope.
Delimit Scope py_scope with py.

Notation "x <- m ;; k" := (bind m (fun x => k))
  (at level 61, m at next level, right associativity) : py_scope.
Notation "m ;; k" := (bind m (fun _ => k))
  (at level 61, right associativity) : py_scope.

Local Open Scope py_scope.

(** [try: m  except <class> as e: handler e] *)
Definition try_except {A : Type} (m : M A) (catches : exn -> bool)
  (handler : exn -> M A) : M A :=
  fun t =>
    match m t with
    | (Return a, t') => (Return a, t')
    | (Raise e, t') => if catches e then handler e t' else (Raise e, t')
    end.

(** [try: m  finally: cleanup]. The clean-up runs on every way out of [m];
    when it raises, its exception replaces the outcome of [m]. *)
Definition try_finally {A : Type} (m : M A) (cleanup : M unit) : M A :=
  fun t =>
    match m t with
    | (r, t') =>
        match cleanup t' with
        | (Return _, t'') => (r, t'')
        | (Raise e, t'') => (Raise e, t'')
        end
    end.

(** [for x in l: body x] *)
Fixpoint for_each {A : Type} (l : list A) (body : A -> M unit) : M unit :=
  match l with
  | [] => ret tt
  | x :: rest => body x ;; for_each rest body
  end.

(** [[f x for x in l]] *)
Fixpoint comprehension {A B : Type} (l : list A) (f : A -> M B) : M (list B) :=
  match l with
  | [] => ret []
  | x :: rest => y <- f x ;; ys <- comprehension rest f ;; ret (y :: ys)
  end.

Definition logger (lv : level) (msg : string) : M unit :=
  fun t => (Return tt, (t ++ [EvLog lv msg])%list).

(** [Usb(idVendor, idProduct)] *)
Definition Usb (w : world) (idVendor idProduct : Z) : M usb_printer :=
  fun t =>
    match Usb_init w t idVendor idProduct with
    | None =>
        (Return (UsbPrinter idVendor idProduct),
         (t ++ [EvUsb idVendor idProduct])%list)
    | Some e => (Raise e, (t ++ [EvUsb idVendor idProduct])%list)
    end.

(** [printer.<method>(...)] *)
Definition method (w : world) (printer : usb_printer) (c : call) : M unit :=
  fun t =>
    match printer_method w t printer c with
    | None => (Return tt, (t ++ [EvPrinter printer c])%list)
    | Some e => (Raise e, (t ++ [EvPrinter printer c])%list)
    end.

(* ===================================================================== *)
(** * [printer_service.py] *)
(* ===================================================================== *)

Record vendor : Type := Vendor { idVendor : Z; idProduct : Z }.

Record company : Type := Company {
  name : string;
  phones : list string;
  address : string;
  gstin : string;
  website : string
}.

Record config : Type := Config {
  auth_token : string;
  printer_vendors : list vendor;
  default_company : company
}.

(** [CONFIG] (its ['port'] entry is only read by [start_service]). *)
Definition CONFIG (w : world) : config :=
  {| auth_token :=
       match getenv_AUTH_TOKEN w with
       | Some s => s
       | None => "your-secret-token-here"
       end;
     printer_vendors :=
       [ Vendor 0x0483 0x5743;    (* Bixolon *)
         Vendor 0x04b8 0x0202;    (* Epson *)
         Vendor 0x067b 0x2305 ];  (* Prolific *)
     default_company :=
       {| name := "STAGMENFASHION";
          phones := ["+917736444674"; "+918943888200"];
          address := "Kondotty";
          gstin := "32MMRPS3804DIZS";
          website := "https://stagmenfashion.com" |} |}.

(** An incoming HTTP request, as far as the handlers look at it. *)
Record request : Type := Request {
  (** [request.headers.get('Authorization')] *)
  headers_Authorization : option string;
  (** [request.is_json] *)
  is_json : bool;
  (** [request.get_json()] *)
  get_json : outcome value
}.

(** [jsonify({"success": s, "message": m}), status] *)
Record response : Type := Response {
  success : bool;
  message : string;
  status_code : Z
}.

Definition str_opt (o : option string) : string :=
  match o with
  | Some s => s
  | None => "None"
  end.

Definition validate_token (w : world) (req : request) : M bool :=
  let auth_header := headers_Authorization req in
  let expected_token := "Bearer " ++ auth_token (CONFIG w) in
  logger DEBUG ("Expected token: " ++ expected_token) ;;
  logger DEBUG ("Received token: " ++ str_opt auth_header) ;;
  match auth_header with
  | Some h =>
      if String.eqb h "" || negb (String.eqb h expected_token) then
        logger WARNING ("Unauthorized access attempt. Expected: "
                        ++ expected_token ++ ", Got: " ++ str_opt auth_header) ;;
        ret false
      else ret true
  | None =>
      logger WARNING ("Unauthorized access attempt. Expected: "
                      ++ expected_token ++ ", Got: " ++ str_opt auth_header) ;;
      ret false
  end.

(** The loop of [detect_printer] over the vendors that are left. *)
Fixpoint detect_printer_from (w : world) (vendors : list vendor)
  : M usb_printer :=
  match vendors with
  | [] =>
      let msg := "No supported USB printer found" in
      raise (Exn USBNotFoundError (USBNotFoundError_str w msg))
  | vendor :: rest =>
      try_except
        (printer <- Usb w (idVendor vendor) (idProduct vendor) ;;
         logger INFO ("Found printer with vendor "
                      ++ Py.format_04x (idVendor vendor) ++ ", product "
                      ++ Py.format_04x (idProduct vendor)) ;;
         ret printer)
        is_USBNotFoundError
        (fun _ => detect_printer_from w rest)
  end.

Definition detect_printer (w : world) : M usb_printer :=
  detect_printer_from w (printer_vendors (CONFIG w)).

Definition generate_barcode (w : world) (invoice_number : value) : M image :=
  buffer <- lift (barcode_code128 w invoice_number) ;;
  lift (Image_open w buffer).

Definition generate_qr_code (w : world) (url : value) : M image :=
  buffer <- lift (qrcode_png w url) ;;
  lift (Image_open w buffer).

(** ** The body of [print_invoice], block by block *)

Section Receipt.

Variable w : world.
Variable printer : usb_printer.
Variable data : value.

Let str := Py.str (py_repr w).
Let default := default_company (CONFIG w).

Definition text (s : string) : M unit := method w printer (CallText s).

Definition divider : string := PyStr.repeat_str 32 "-" ++ PyStr.newline.

(** Print header (centered and bold) *)
Definition print_header : M unit :=
  method w printer (CallSet (Some AlignCenter) (Some true)) ;;
  company_name <- lift (Py.get data "company_name" (VStr (name default))) ;;
  text (str company_name ++ PyStr.newline) ;;
  method w printer (CallSet None (Some false)).

(** Print contact information *)
Definition print_contact : M unit :=
  numbers <- lift (Py.get data "phone_numbers"
                     (VList (map VStr (phones default)))) ;;
  numbers <- lift (Py.iter numbers) ;;
  for_each numbers (fun number => text (str number ++ PyStr.newline)).

(** Print address and GSTIN *)
Definition print_address : M unit :=
  a <- lift (Py.get data "address" (VStr (address default))) ;;
  text (str a ++ PyStr.newline) ;;
  g <- lift (Py.get data "gstin" (VStr (gstin default))) ;;
  text ("GSTIN: " ++ str g ++ PyStr.newline).

(** Print invoice info *)
Definition print_invoice_info : M unit :=
  method w printer (CallSet (Some AlignLeft) None) ;;
  n <- lift (Py.getitem data "invoice_number") ;;
  text ("Invoice #: " ++ str n ++ PyStr.newline) ;;
  d <- lift (Py.getitem data "invoice_date") ;;
  text ("Date: " ++ str d ++ PyStr.newline) ;;
  t <- lift (Py.get data "invoice_time" VNone) ;;
  (if Py.truth t then
     t <- lift (Py.getitem data "invoice_time") ;;
     text ("Time: " ++ str t ++ PyStr.newline)
   else ret tt) ;;
  c <- lift (Py.getitem data "customer_name") ;;
  text ("Customer: " ++ str c ++ PyStr.newline).

(** Print items table header *)
Definition print_table_header : M unit :=
  text (PyStr.ljust 20 "Item" ++ PyStr.rjust 4 "Qty" ++ PyStr.rjust 8 "Price"
        ++ PyStr.rjust 8 "Total" ++ PyStr.newline).

(** [[item['name'][i:i+20] for i in range(0, len(item['name']), 20)]] *)
Definition name_parts (item : value) : M (list value) :=
  item_name <- lift (Py.getitem item "name") ;;
  n <- lift (Py.len item_name) ;;
  comprehension (Py.range_step n 20)
    (fun i =>
       item_name <- lift (Py.getitem item "name") ;;
       lift (Py.slice item_name i 20)).

(** One turn of the loop over the parts of a name. *)
Definition print_part (item : value) (ip : nat * value) : M unit :=
  let (i, part) := ip in
  if (i =? 0)%nat then
    s_part <- lift (Py.format_ljust (py_repr w) 20 part) ;;
    quantity <- lift (Py.getitem item "quantity") ;;
    s_quantity <- lift (Py.format_f2 4 quantity) ;;
    price <- lift (Py.getitem item "price") ;;
    s_price <- lift (Py.format_f2 8 price) ;;
    quantity <- lift (Py.getitem item "quantity") ;;
    price <- lift (Py.getitem item "price") ;;
    total <- lift (Py.mul quantity price) ;;
    s_total <- lift (Py.format_f2 8 total) ;;
    text (s_part ++ s_quantity ++ s_price ++ s_total ++ PyStr.newline)
  else
    s_part <- lift (Py.format_ljust (py_repr w) 20 part) ;;
    text (s_part ++ PyStr.newline).

(** One turn of the loop over the items. *)
Definition print_item (item : value) : M unit :=
  parts <- name_parts item ;;
  for_each (Py.enumerate parts) (print_part item).

(** Print items *)
Definition print_items : M unit :=
  items <- lift (Py.getitem data "items") ;;
  items <- lift (Py.iter items) ;;
  for_each items print_item.

(** Print totals *)
Definition print_totals : M unit :=
  subtotal <- lift (Py.getitem data "subtotal") ;;
  s_subtotal <- lift (Py.format_f2 12 subtotal) ;;
  text (PyStr.ljust 20 "Subtotal:" ++ s_subtotal ++ PyStr.newline) ;;
  discount <- lift (Py.get data "discount" (VFloat (S754_zero false))) ;;
  s_discount <- lift (Py.format_f2 12 discount) ;;
  text (PyStr.ljust 20 "Discount:" ++ s_discount ++ PyStr.newline) ;;
  method w printer (CallSet None (Some true)) ;;
  total <- lift (Py.getitem data "total") ;;
  s_total <- lift (Py.format_f2 12 total) ;;
  text (PyStr.ljust 20 "GRAND TOTAL:" ++ s_total ++ PyStr.newline) ;;
  method w printer (CallSet None (Some false)).

Definition terms : list string :=
  [ "* NO REFUND.";
    "* Returns accepted within 7 days with receipt.";
    "* No Product Will Be Replaced Without Bill.";
    "* Please Check Your Bill Before Leaving The Shop." ].

(** Print terms and conditions *)
Definition print_terms : M unit :=
  for_each terms (fun term => text (term ++ PyStr.newline)).

(** Print invoice number again *)
Definition print_invoice_number : M unit :=
  method w printer (CallSet (Some AlignCenter) None) ;;
  n <- lift (Py.getitem data "invoice_number") ;;
  text (str n ++ PyStr.newline).

(** Generate and print barcode *)
Definition print_barcode : M unit :=
  n <- lift (Py.getitem data "invoice_number") ;;
  barcode_img <- generate_barcode w n ;;
  method w printer (CallImage barcode_img) ;;
  text PyStr.newline.

(** Generate and print QR code *)
Definition print_qr_code : M unit :=
  url <- lift (Py.get data "website_url" (VStr (website default))) ;;
  qr_img <- generate_qr_code w url ;;
  method w printer (CallImage qr_img) ;;
  text PyStr.newline.

(** Print footer message *)
Definition print_footer : M unit :=
  method w printer (CallSet (Some AlignCenter) None) ;;
  text ("ENJOY FROM EVERYWHERE" ++ PyStr.newline) ;;
  text ("THANK YOU FOR WATCHING!" ++ PyStr.newline).

(** The second [try] block of [print_invoice], up to its [return]. *)
Definition print_receipt : M (bool * string) :=
  print_header ;;
  print_contact ;;
  print_address ;;
  text divider ;;
  print_invoice_info ;;
  text divider ;;
  print_table_header ;;
  print_items ;;
  text divider ;;
  print_totals ;;
  text divider ;;
  print_terms ;;
  text divider ;;
  print_invoice_number ;;
  text divider ;;
  print_barcode ;;
  print_qr_code ;;
  print_footer ;;
  method w printer CallCut ;;
  ret (true, "Invoice printed successfully").

End Receipt.

(** The second [try] block with its [except Exception] handler: what the
    job has come to when the [finally] clause is entered. *)
Definition print_phase (w : world) (printer : usb_printer) (data : value)
  : M (bool * string) :=
  try_except
    (print_receipt w printer data)
    is_Exception
    (fun e =>
       logger ERROR ("Printing failed: " ++ exn_str e) ;;
       ret (false, exn_str e)).

Definition print_invoice (w : world) (data : value) : M (bool * string) :=
  located <-
    try_except
      (printer <- detect_printer w ;; ret (inl printer))
      is_USBNotFoundError
      (fun e =>
         logger ERROR ("Printer detection failed: " ++ exn_str e) ;;
         ret (inr (false, exn_str e))) ;;
  match located with
  | inr result => ret result
  | inl printer =>
      try_finally (print_phase w printer data) (method w printer CallClose)
  end.

Definition required_fields : list string :=
  [ "invoice_number"; "invoice_date"; "customer_name";
    "items"; "subtotal"; "total" ].

(** The loop of [handle_print] over the required fields that are left:
    the response of the first missing one, or [None] when none is missing. *)
Fixpoint check_required (data : value) (fields : list string)
  : M (option response) :=
  match fields with
  | [] => ret None
  | field :: rest =>
      present <- lift (Py.contains field data) ;;
      if negb present then
        ret (Some (Response false ("Missing required field: " ++ field) 400))
      else check_required data rest
  end.

Definition handle_print (w : world) (req : request) : M response :=
  authorized <- validate_token w req ;;
  if negb authorized then ret (Response false "Unauthorized" 401)
  else if negb (is_json req) then ret (Response false "Request must be JSON" 400)
  else
    data <- lift (get_json req) ;;
    missing <- check_required data required_fields ;;
    match missing with
    | Some r => ret r
    | None =>
        result <- print_invoice w data ;;
        let (success, message) := result in
        let status_code := if success then 200 else 500 in
        ret (Response success message status_code)
    end.

(* ===================================================================== *)
(** * Observations on traces, and some worlds to run the program in *)
(* ===================================================================== *)

Definition is_close (ev : event) : bool :=
  match ev with
  | EvPrinter _ CallClose => true
  | _ => false
  end.

(** How often a device handle is released in a trace. *)
Definition count_close (t : list event) : nat := List.length (filter is_close t).

(** An event that reaches for a device: an open attempt or a printer call. *)
Definition is_device_event (ev : event) : bool :=
  match ev with
  | EvUsb _ _ => true
  | EvPrinter _ _ => true
  | EvLog _ _ => false
  end.

Definition is_printer_event (ev : event) : bool :=
  match ev with
  | EvPrinter _ _ => true
  | _ => false
  end.

(** The text rows of a trace, in order. *)
Fixpoint text_rows (t : list event) : list string :=
  match t with
  | [] => []
  | EvPrinter _ (CallText s) :: rest => s :: text_rows rest
  | _ :: rest => text_rows rest
  end.

(** The printer [p] answers every call. *)
Definition printer_never_fails (w : world) (p : usb_printer) : Prop :=
  forall t c, printer_method w t p c = None.

(** The computation [m] only adds events to the trace, all of them in [P]. *)
Definition emits {A : Type} (P : event -> Prop) (m : M A) : Prop :=
  forall t, exists evs, snd (m t) = (t ++ evs)%list /\ Forall P evs.

Definition not_found_error : exn :=
  Exn USBNotFoundError
    "USB device not found (Device not found or cable not plugged in.)".

Definition access_denied_error : exn :=
  Exn LibraryError "[Errno 13] Access denied (insufficient permissions)".

Definition transport_error : exn :=
  Exn LibraryError "[Errno 19] No such device (it may have been disconnected)".

(** A world in which the first printer of the table is plugged in and
    everything works. *)
Definition ideal_world : world :=
  {| getenv_AUTH_TOKEN := None;
     py_repr := fun _ => "<repr>";
     USBNotFoundError_str := fun msg => "USB device not found (" ++ msg ++ ")";
     Usb_init := fun _ _ _ => None;
     printer_method := fun _ _ _ => None;
     barcode_code128 := fun v => Return ("code128:" ++ Py.str (fun _ => "") v);
     qrcode_png := fun v => Return ("qr:" ++ Py.str (fun _ => "") v);
     Image_open := fun buffer => Return (PILImage buffer) |}.

(** No printer is plugged in. *)
Definition unplugged_world : world :=
  {| getenv_AUTH_TOKEN := getenv_AUTH_TOKEN ideal_world;
     py_repr := py_repr ideal_world;
     USBNotFoundError_str := USBNotFoundError_str ideal_world;
     Usb_init := fun _ _ _ => Some not_found_error;
     printer_method := printer_method ideal_world;
     barcode_code128 := barcode_code128 ideal_world;
     qrcode_png := qrcode_png ideal_world;
     Image_open := Image_open ideal_world |}.

(** The first printer of the table is absent, the second is plugged in but
    the process may not open it. *)
Definition access_denied_world : world :=
  {| getenv_AUTH_TOKEN := getenv_AUTH_TOKEN ideal_world;
     py_repr := py_repr ideal_world;
     USBNotFoundError_str := USBNotFoundError_str ideal_world;
     Usb_init := fun _ idVendor _ =>
       if idVendor =? 0x0483 then Some not_found_error
       else Some access_denied_error;
     printer_method := printer_method ideal_world;
     barcode_code128 := barcode_code128 ideal_world;
     qrcode_png := qrcode_png ideal_world;
     Image_open := Image_open ideal_world |}.

(** The printer is unplugged while the job runs: every image blit fails. *)
Definition image_fails_world : world :=
  {| getenv_AUTH_TOKEN := getenv_AUTH_TOKEN ideal_world;
     py_repr := py_repr ideal_world;
     USBNotFoundError_str := USBNotFoundError_str ideal_world;
     Usb_init := Usb_init ideal_world;
     printer_method := fun _ _ c =>
       match c with
       | CallImage _ => Some transport_error
       | _ => None
       end;
     barcode_code128 := barcode_code128 ideal_world;
     qrcode_png := qrcode_png ideal_world;
     Image_open := Image_open ideal_world |}.

(** Printing works, releasing the handle does not. *)
Definition close_fails_world : world :=
  {| getenv_AUTH_TOKEN := getenv_AUTH_TOKEN ideal_world;
     py_repr := py_repr ideal_world;
     USBNotFoundError_str := USBNotFoundError_str ideal_world;
     Usb_init := Usb_init ideal_world;
     printer_method := fun _ _ c =>
       match c with
       | CallClose => Some transport_error
       | _ => None
       end;
     barcode_code128 := barcode_code128 ideal_world;
     qrcode_png := qrcode_png ideal_world;
     Image_open := Image_open ideal_world |}.

Definition bixolon : usb_printer := UsbPrinter 0x0483 0x5743.

(** The invoice of the end-to-end example: one shirt, no optional field. *)
Definition shirt_item : value :=
  VDict [ ("name", VStr "Shirt"); ("quantity", VInt 2);
          ("price", VFloat (PyNum.float_of 500 0)) ].

Definition example_fields : list (string * value) :=
  [ ("invoice_number", VStr "INV-1001");
    ("invoice_date", VStr "2024-01-01");
    ("customer_name", VStr "Jane");
    ("items", VList [shirt_item]);
    ("subtotal", VFloat (PyNum.float_of 1000 0));
    ("total", VFloat (PyNum.float_of 1000 0)) ].

Definition example_invoice : value := VDict example_fields.

(** ** Predicates and example data of the statements below *)

Definition open_event (u : vendor) : event := EvUsb (idVendor u) (idProduct u).

(** The device [u] is not plugged in: opening it raises [USBNotFoundError]
    whatever has happened before. *)
Definition not_present (w : world) (u : vendor) : Prop :=
  forall t,
    exists e, Usb_init w t (idVendor u) (idProduct u) = Some e
              /\ is_USBNotFoundError e = true.

Definition no_close (ev : event) : Prop := is_close ev = false.

Definition no_printer_call (ev : event) : Prop := is_printer_event ev = false.

Definition is_log (ev : event) : bool :=
  match ev with
  | EvLog _ _ => true
  | _ => false
  end.

(** Opening a device fails, if at all, with [USBNotFoundError]. *)
Definition open_fails_only_not_found (w : world) : Prop :=
  forall t v pid e, Usb_init w t v pid = Some e -> is_USBNotFoundError e = true.

(** Releasing a handle never raises. *)
Definition close_never_fails (w : world) : Prop :=
  forall t p, printer_method w t p CallClose = None.

Definition authorized_request (body : value) : request :=
  {| headers_Authorization := Some "Bearer your-secret-token-here";
     is_json := true;
     get_json := Return body |}.

(** The example invoice without its [customer_name]. *)
Definition invoice_without_customer : list (string * value) :=
  [ ("invoice_number", VStr "INV-1001");
    ("invoice_date", VStr "2024-01-01");
    ("items", VList [shirt_item]);
    ("subtotal", VFloat (PyNum.float_of 1000 0));
    ("total", VFloat (PyNum.float_of 1000 0)) ].

(** The time line [print_invoice_info] prints for the value that
    [data.get('invoice_time')] returns. *)
Definition time_line (w : world) (time : value) : list call :=
  if Py.truth time
  then [CallText ("Time: " ++ Py.str (py_repr w) time ++ PyStr.newline)]
  else [].

(** The value a company field is printed from: the supplied one, or the
    entry of the default company profile. *)
Definition supplied_or (supplied : option value) (default : value) : value :=
  match supplied with
  | Some v => v
  | None => default
  end.

(** An item whose name wraps over three rows. *)
Definition long_name : string := "Premium Cotton Formal Shirt Slim Fit Navy Blue".

Definition long_item : value :=
  VDict [ ("name", VStr long_name); ("quantity", VInt 2);
          ("price", VFloat (PyNum.float_of 500 0)) ].

(** An item without a name. *)
Definition nameless_item : value :=
  VDict [ ("name", VStr ""); ("quantity", VInt 3);
          ("price", VFloat (PyNum.float_of 250 0)) ].

(** The row the specification writes out for the item of the example:
    17 spaces after the name. *)
Definition claimed_shirt_row : string :=
  "Shirt                 2.00  500.00 1000.00" ++ PyStr.newline.

(** The row it prints: the name padded to 20 columns. *)
Definition shirt_row : string :=
  "Shirt               2.00  500.00 1000.00" ++ PyStr.newline.

(** The printer calls of the example receipt, up to the cut. *)
Definition example_receipt (barcode_img qr_img : image) : list call :=
  [ CallSet (Some AlignCenter) (Some true);
    CallText ("STAGMENFASHION" ++ PyStr.newline);
    CallSet None (Some false);
    CallText ("+917736444674" ++ PyStr.newline);
    CallText ("+918943888200" ++ PyStr.newline);
    CallText ("Kondotty" ++ PyStr.newline);
    CallText ("GSTIN: 32MMRPS3804DIZS" ++ PyStr.newline);
    CallText ("--------------------------------" ++ PyStr.newline);
    CallSet (Some AlignLeft) None;
    CallText ("Invoice #: INV-1001" ++ PyStr.newline);
    CallText ("Date: 2024-01-01" ++ PyStr.newline);
    CallText ("Customer: Jane" ++ PyStr.newline);
    CallText ("--------------------------------" ++ PyStr.newline);
    CallText ("Item                 Qty   Price   Total" ++ PyStr.newline);
    CallText shirt_row;
    CallText ("--------------------------------" ++ PyStr.newline);
    CallText ("Subtotal:                1000.00" ++ PyStr.newline);
    CallText ("Discount:                   0.00" ++ PyStr.newline);
    CallSet None (Some true);
    CallText ("GRAND TOTAL:             1000.00" ++ PyStr.newline);
    CallSet None (Some false);
    CallText ("--------------------------------" ++ PyStr.newline);
    CallText ("* NO REFUND." ++ PyStr.newline);
    CallText ("* Returns accepted within 7 days with receipt." ++ PyStr.newline);
    CallText ("* No Product Will Be Replaced Without Bill." ++ PyStr.newline);
    CallText ("* Please Check Your Bill Before Leaving The Shop."
              ++ PyStr.newline);
    CallText ("--------------------------------" ++ PyStr.newline);
    CallSet (Some AlignCenter) None;
    CallText ("INV-1001" ++ PyStr.newline);
    CallText ("--------------------------------" ++ PyStr.newline);
    CallImage barcode_img;
    CallText PyStr.newline;
    CallImage qr_img;
    CallText PyStr.newline;
    CallSet (Some AlignCenter) None;
    CallText ("ENJOY FROM EVERYWHERE" ++ PyStr.newline);
    CallText ("THANK YOU FOR WATCHING!" ++ PyStr.newline);
    CallCut ].

(** The example invoice with a time, and with an empty time. *)
Definition timed_fields : list (string * value) :=
  ("invoice_time", VStr "10:30") :: example_fields.

Definition empty_time_fields : list (string * value) :=
  ("invoice_time", VStr "") :: example_fields.

(** The example invoice with a GSTIN of its own. *)
Definition own_gstin_fields : list (string * value) :=
  ("gstin", VStr "29ABCDE1234F1Z5") :: example_fields.

(** ** The status endpoint *)

(** What [service_status] answers: the JSON object and the HTTP status. The
    [Unauthorized] answer has no ["system"] and no ["printer"] entry; an
    answer returned without a status is sent with 200. *)
Record status_response : Type := StatusResponse {
  status_success : bool;
  status_message : string;
  status_system : option string;
  status_printer : option string;
  status_http : Z
}.

(** [platform_system] is what [platform.system()] returns. *)
Definition service_status (w : world) (platform_system : string)
  (req : request) : M status_response :=
  (authorized <- validate_token w req ;;
   if negb authorized
   then ret (StatusResponse false "Unauthorized" None None 401)
   else
     try_except
       (printer <- detect_printer w ;;
        method w printer CallClose ;;
        ret (StatusResponse true "Printer service is running"
               (Some platform_system) (Some "Connected") 200))
       is_USBNotFoundError
       (fun e =>
          ret (StatusResponse false (exn_str e)
                 (Some platform_system) (Some "Not connected") 503)))%py.

(** ** Further predicates and data of the statements below *)

(** The header value [validate_token] compares with. *)
Definition expected_token (w : world) : string :=
  "Bearer " ++ auth_token (CONFIG w).

(** The request carries the expected token. *)
Definition has_token (w : world) (req : request) : bool :=
  match headers_Authorization req with
  | Some h => String.eqb h (expected_token w)
  | None => false
  end.

(** The line [validate_token] logs when it refuses a request. *)
Definition unauthorized_warning (w : world) (req : request) : event :=
  EvLog WARNING ("Unauthorized access attempt. Expected: " ++ expected_token w
                 ++ ", Got: " ++ str_opt (headers_Authorization req)).

Definition is_warning (ev : event) : bool :=
  match ev with
  | EvLog WARNING _ => true
  | _ => false
  end.

(** An event of a job that holds the printer [p]: a log line, or a call on
    [p] other than [close]. *)
Definition printed_on (p : usb_printer) (ev : event) : Prop :=
  match ev with
  | EvPrinter q CallClose => False
  | EvPrinter q _ => q = p
  | EvLog _ _ => True
  | EvUsb _ _ => False
  end.

(** An event that is neither an image blit nor a cut. *)
Definition no_image_no_cut (ev : event) : Prop :=
  match ev with
  | EvPrinter _ (CallImage _) => False
  | EvPrinter _ CallCut => False
  | _ => True
  end.

(** The only printer call that [ev] can be is [close]. *)
Definition close_at_most (ev : event) : Prop :=
  match ev with
  | EvPrinter _ c => c = CallClose
  | _ => True
  end.

(** [s[n:]] *)
Fixpoint drop (n : nat) (s : string) : string :=
  match n, s with
  | O, _ => s
  | S n', EmptyString => EmptyString
  | S n', String _ s' => drop n' s'
  end.

(** The strings of a list of [str] values, concatenated. *)
Fixpoint join_parts (parts : list value) : string :=
  match parts with
  | [] => ""
  | VStr s :: rest => s ++ join_parts rest
  | _ :: rest => join_parts rest
  end.

(** The 20-character chunks of a name, in order. *)
Definition chunks_of (nm : string) : list string :=
  map (fun k => PyStr.slice (20 * k) 20 nm)
    (seq 0 ((String.length nm + 19) / 20)).

(** The rows of an item: its name in chunks, the numeric columns on the
    first row. *)
Definition item_rows (nm numbers : string) : list string :=
  match chunks_of nm with
  | [] => []
  | first :: rest =>
      (PyStr.ljust 20 first ++ numbers ++ PyStr.newline)
      :: map (fun chunk => PyStr.ljust 20 chunk ++ PyStr.newline) rest
  end.

(** An item as the item loop needs it: a name that is a string, and a
    quantity, a price and a product that the [f] format accepts. [numbers]
    is the text of its three numeric columns. *)
Definition well_formed_item (item : value) (nm numbers : string) : Prop :=
  exists quantity price total xq xp xt,
    Py.getitem item "name" = Return (VStr nm)
    /\ Py.getitem item "quantity" = Return quantity
    /\ Py.getitem item "price" = Return price
    /\ Py.float_for_format quantity = Return xq
    /\ Py.float_for_format price = Return xp
    /\ Py.mul quantity price = Return total
    /\ Py.float_for_format total = Return xt
    /\ numbers = PyStr.rjust 4 (PyNum.format_2f xq)
                 ++ PyStr.rjust 8 (PyNum.format_2f xp)
                 ++ PyStr.rjust 8 (PyNum.format_2f xt).

(** A body that is no container: [in] is not defined on it. *)
Definition is_scalar (data : value) : bool :=
  match data with
  | VNone | VBool _ | VInt _ | VFloat _ => true
  | _ => false
  end.

(** A short item, and the JSON array of the six field names. *)
Definition scarf_item : value :=
  VDict [ ("name", VStr "Scarf"); ("quantity", VInt 1);
          ("price", VFloat (PyNum.float_of 250 0)) ].

Definition field_name_array : value := VList (map VStr required_fields).

(** The second printer of the table is the one plugged in. *)
Definition epson_world : world :=
  {| getenv_AUTH_TOKEN := getenv_AUTH_TOKEN ideal_world;
     py_repr := py_repr ideal_world;
     USBNotFoundError_str := USBNotFoundError_str ideal_world;
     Usb_init := fun _ idVendor _ =>
       if idVendor =? 0x04b8 then None else Some not_found_error;
     printer_method := printer_method ideal_world;
     barcode_code128 := barcode_code128 ideal_world;
     qrcode_png := qrcode_png ideal_world;
     Image_open := Image_open ideal_world |}.

Definition illegal_character_error : exn :=
  Exn LibraryError "Code128 can only contain ASCII characters".

(** The barcode library refuses every payload. *)
Definition no_barcode_world : world :=
  {| getenv_AUTH_TOKEN := getenv_AUTH_TOKEN ideal_world;
     py_repr := py_repr ideal_world;
     USBNotFoundError_str := USBNotFoundError_str ideal_world;
     Usb_init := Usb_init ideal_world;
     printer_method := printer_method ideal_world;
     barcode_code128 := fun _ => Raise illegal_character_error;
     qrcode_png := qrcode_png ideal_world;
     Image_open := Image_open ideal_world |}.

(** The computation [m] always ends with an exception, after adding only
    events in [P]. *)
Definition aborts {A : Type} (P : event -> Prop) (m : M A) : Prop :=
  forall t, exists e evs, m t = (Raise e, (t ++ evs)%list) /\ Forall P evs.

(** Three items: one that wraps, one that fits, one without a name. *)
Definition three_items : list value := [long_item; scarf_item; nameless_item].

Definition three_items_fields : list (string * value) :=
  ("items", VList three_items) :: example_fields.

(** The example invoice with a discount, and with [null] as its discount. *)
Definition discount_fields : list (string * value) :=
  ("discount", VFloat (PyNum.float_of 1 (-1))) :: example_fields.

(** An item with a name and nothing else. *)
Definition unpriced_item : value := VDict [ ("name", VStr "Scarf") ].

(** ** The receipt as a list of calls *)

(** The calls between the date line and the customer line for the entry
    [invoice_time] of a request: the time line when the entry is there with
    a true value, nothing otherwise. *)
Definition time_slot (w : world) (kvs : list (string * value)) : list call :=
  match Py.lookup "invoice_time" kvs with
  | Some time => time_line w time
  | None => []
  end.

(** The layout of a complete receipt, written out call by call for given
    field values: what the calls of [print_invoice] are compared with.
    [time_calls] are the calls between the date line and the customer line;
    [rows] are the rows of the items; [xs], [xd] and [xt] are the subtotal,
    the discount and the total. *)
Definition receipt (w : world) (company_name : value) (numbers : list value)
  (address_value gstin_value number date : value) (time_calls : list call)
  (customer : value) (rows : list string) (xs xd xt : spec_float)
  (barcode_img qr_img : image) : list call :=
  let str := Py.str (py_repr w) in
  let rule := CallText ("--------------------------------" ++ PyStr.newline) in
  ([ CallSet (Some AlignCenter) (Some true);
     CallText (str company_name ++ PyStr.newline);
     CallSet None (Some false) ]
   ++ map (fun number => CallText (str number ++ PyStr.newline)) numbers
   ++ [ CallText (str address_value ++ PyStr.newline);
        CallText ("GSTIN: " ++ str gstin_value ++ PyStr.newline);
        rule;
        CallSet (Some AlignLeft) None;
        CallText ("Invoice #: " ++ str number ++ PyStr.newline);
        CallText ("Date: " ++ str date ++ PyStr.newline) ]
   ++ time_calls
   ++ [ CallText ("Customer: " ++ str customer ++ PyStr.newline);
        rule;
        CallText ("Item                 Qty   Price   Total" ++ PyStr.newline) ]
   ++ map CallText rows
   ++ [ rule;
        CallText ("Subtotal:           " ++ PyStr.rjust 12 (PyNum.format_2f xs)
                  ++ PyStr.newline);
        CallText ("Discount:           " ++ PyStr.rjust 12 (PyNum.format_2f xd)
                  ++ PyStr.newline);
        CallSet None (Some true);
        CallText ("GRAND TOTAL:        " ++ PyStr.rjust 12 (PyNum.format_2f xt)
                  ++ PyStr.newline);
        CallSet None (Some false);
        rule;
        CallText ("* NO REFUND." ++ PyStr.newline);
        CallText ("* Returns accepted within 7 days with receipt."
                  ++ PyStr.newline);
        CallText ("* No Product Will Be Replaced Without Bill." ++ PyStr.newline);
        CallText ("* Please Check Your Bill Before Leaving The Shop."
                  ++ PyStr.newline);
        rule;
        CallSet (Some AlignCenter) None;
        CallText (str number ++ PyStr.newline);
        rule;
        CallImage barcode_img;
        CallText PyStr.newline;
        CallImage qr_img;
        CallText PyStr.newline;
        CallSet (Some AlignCenter) None;
        CallText ("ENJOY FROM EVERYWHERE" ++ PyStr.newline);
        CallText ("THANK YOU FOR WATCHING!" ++ PyStr.newline);
        CallCut ])%list.

(** The required fields of a request can be printed: the invoice number, the
    date and the customer are there, the subtotal, the discount (or [0.0]
    for a request without one) and the total are numbers the [f] format
    accepts, and the barcode of the invoice number can be made. *)
Definition required_fields_printable (w : world) (kvs : list (string * value))
  (number date customer : value) (xs xd xt : spec_float) (barcode_img : image)
  : Prop :=
  Py.lookup "invoice_number" kvs = Some number
  /\ Py.lookup "invoice_date" kvs = Some date
  /\ Py.lookup "customer_name" kvs = Some customer
  /\ (exists subtotal,
        Py.lookup "subtotal" kvs = Some subtotal
        /\ Py.float_for_format subtotal = Return xs)
  /\ Py.float_for_format
       (supplied_or (Py.lookup "discount" kvs) (VFloat (S754_zero false)))
     = Return xd
  /\ (exists total,
        Py.lookup "total" kvs = Some total
        /\ Py.float_for_format total = Return xt)
  /\ (exists buffer,
        barcode_code128 w number = Return buffer
        /\ Image_open w buffer = Return barcode_img).

(** The phone numbers of a request, or the two of the default profile. *)
Definition phone_numbers_of (kvs : list (string * value)) : value :=
  supplied_or (Py.lookup "phone_numbers" kvs)
    (VList [VStr "+917736444674"; VStr "+918943888200"]).

(** The website of a request, or the one of the default profile. *)
Definition website_of (kvs : list (string * value)) : value :=
  supplied_or (Py.lookup "website_url" kvs) (VStr "https://stagmenfashion.com").

(** A float that prints with digits: not an infinity and not a NaN. *)
Definition is_finite (x : spec_float) : bool :=
  match x with
  | S754_zero _ | S754_finite _ _ _ => true
  | _ => false
  end.

(** What the item loop prints for an item when it gets through it: nothing
    for a name of length 0 (the numbers are not read then), and the rows of
    [item_rows] for a name that is a non-empty string, with numbers the [f]
    format accepts. *)
Definition printed_item (item : value) (rows : list string) : Prop :=
  (exists item_name,
     Py.getitem item "name" = Return item_name
     /\ Py.len item_name = Return 0%nat
     /\ rows = [])
  \/ (exists nm numbers,
        nm <> ""
        /\ well_formed_item item nm numbers
        /\ rows = item_rows nm numbers).

(** The example invoice with two items, the second with a name that wraps. *)
Definition two_items_fields : list (string * value) :=
  ("items", VList [shirt_item; long_item]) :: example_fields.

(** The calls of the receipt of a request that can be printed: the fields
    it is made from, and the receipt made from them. *)
Definition receipt_of (w : world) (kvs : list (string * value))
  (calls : list call) : Prop :=
  exists numbers number date customer items_value items rows xs xd xt
         barcode_img qr_buffer qr_img,
    Py.iter (phone_numbers_of kvs) = Return numbers
    /\ required_fields_printable w kvs number date customer xs xd xt
         barcode_img
    /\ Py.lookup "items" kvs = Some items_value
    /\ Py.iter items_value = Return items
    /\ Forall2 printed_item items rows
    /\ qrcode_png w (website_of kvs) = Return qr_buffer
    /\ Image_open w qr_buffer = Return qr_img
    /\ calls
       = receipt w
           (supplied_or (Py.lookup "company_name" kvs) (VStr "STAGMENFASHION"))
           numbers
           (supplied_or (Py.lookup "address" kvs) (VStr "Kondotty"))
           (supplied_or (Py.lookup "gstin" kvs) (VStr "32MMRPS3804DIZS"))
           number date (time_slot w kvs) customer (List.concat rows)
           xs xd xt barcode_img qr_img.

(* ===================================================================== *)
(** * Properties *)
(* ===================================================================== *)

(** ** Padding and number formatting *)

Lemma replicate_length n c : String.length (PyStr.replicate n c) = n.
Proof. induction n; simpl; congruence. Qed.

Lemma append_length (a b : string) :
  String.length (a ++ b) = (String.length a + String.length b)%nat.
Proof. induction a; simpl; congruence. Qed.

Lemma ljust_length w s :
  String.length (PyStr.ljust w s) = Nat.max w (String.length s).
Proof.
  unfold PyStr.ljust. rewrite append_length, replicate_length. lia.
Qed.

Lemma rjust_length w s :
  String.length (PyStr.rjust w s) = Nat.max w (String.length s).
Proof.
  unfold PyStr.rjust. rewrite append_length, replicate_length. lia.
Qed.

Lemma slice_length_le i n s : (String.length (PyStr.slice i n s) <= n)%nat.
Proof.
  unfold PyStr.slice. revert i n.
  induction s as [| c s IH]; intros [| i] [| n]; simpl; try lia.
  - specialize (IH 0%nat n). lia.
  - specialize (IH i 0%nat). lia.
  - specialize (IH i (S n)). lia.
Qed.

(** A chunk of at most 20 characters, padded, fills exactly 20 columns. *)
Lemma chunk_width i s :
  String.length (PyStr.ljust 20 (PyStr.slice i 20 s)) = 20%nat.
Proof.
  rewrite ljust_length. pose proof (slice_length_le i 20 s). lia.
Qed.

Lemma two_digits_below_100 r :
  0 <= r < 100 -> PyStr.two_digits (PyStr.zfill 2 (PyStr.of_Z r)) = true.
Proof.
  intros Hr.
  assert (Hall : forallb (fun n => PyStr.two_digits
                                     (PyStr.zfill 2 (PyStr.of_Z (Z.of_nat n))))
                   (seq 0 100) = true) by (vm_compute; reflexivity).
  rewrite forallb_forall in Hall.
  specialize (Hall (Z.to_nat r)). rewrite Z2Nat.id in Hall by lia.
  apply Hall. apply in_seq. lia.
Qed.

Lemma hundredths_nonneg m e : 0 <= PyNum.hundredths m e.
Proof.
  unfold PyNum.hundredths. destruct (Z.leb_spec 0 e) as [He | He].
  - apply Z.mul_nonneg_nonneg; [lia | apply Z.pow_nonneg; lia].
  - assert (Hden : 0 < 2 ^ (- e)) by (apply Z.pow_pos_nonneg; lia).
    assert (Hq : 0 <= Z.pos m * 100 / 2 ^ (- e))
      by (apply Z.div_pos; lia).
    destruct (2 * ((Z.pos m * 100) mod 2 ^ (- e)) ?= 2 ^ (- e));
      [destruct (Z.even _) | |]; lia.
Qed.

(** [format(x, '.2f')] of a finite non-zero float is a sign, the digits of
    the integer part, a point and exactly two decimal digits. *)
Lemma format_2f_two_decimals s m e :
  exists int_part frac,
    PyNum.format_2f (S754_finite s m e)
    = PyNum.sign_str s ++ int_part ++ "." ++ frac
    /\ PyStr.two_digits frac = true.
Proof.
  exists (PyStr.of_Z (PyNum.hundredths m e / 100)).
  exists (PyStr.zfill 2 (PyStr.of_Z (PyNum.hundredths m e mod 100))).
  split; [reflexivity |].
  apply two_digits_below_100. apply Z.mod_pos_bound. lia.
Qed.

Example format_2f_two : PyNum.format_2f (PyNum.float_of 2 0) = "2.00".
Proof. reflexivity. Qed.

Example format_2f_half_even_down :
  PyNum.format_2f (PyNum.float_of 1 (-3)) = "0.12".
Proof. reflexivity. Qed.

Example format_2f_half_even_up :
  PyNum.format_2f (PyNum.float_of 3 (-3)) = "0.38".
Proof. reflexivity. Qed.

Example format_2f_negative :
  PyNum.format_2f (PyNum.float_of (-1997) (-2)) = "-499.25".
Proof. reflexivity. Qed.

Example format_f2_huge_int :
  Py.format_f2 4 (VInt (10 ^ 400)) = Raise Py.int_too_large.
Proof. vm_compute. reflexivity. Qed.

(** ** Running the monad *)

Lemma bind_Return {A B : Type} (m : M A) (k : A -> M B) t a t' :
  m t = (Return a, t') -> bind m k t = k a t'.
Proof. intros H. unfold bind. rewrite H. reflexivity. Qed.

Lemma bind_Raise {A B : Type} (m : M A) (k : A -> M B) t e t' :
  m t = (Raise e, t') -> bind m k t = (Raise e, t').
Proof. intros H. unfold bind. rewrite H. reflexivity. Qed.

Lemma bind_lift_Return {A B : Type} (o : outcome A) (k : A -> M B) t a :
  o = Return a -> bind (lift o) k t = k a t.
Proof. intros ->. reflexivity. Qed.

Lemma bind_ext {A B : Type} (m m' : M A) (k k' : A -> M B) :
  (forall t, m t = m' t) -> (forall a t, k a t = k' a t) ->
  forall t, bind m k t = bind m' k' t.
Proof.
  intros Hm Hk t. unfold bind. rewrite Hm.
  destruct (m' t) as [[a | e] t']; [apply Hk | reflexivity].
Qed.

Lemma bind_assoc {A B C : Type} (m : M A) (f : A -> M B) (g : B -> M C) t :
  bind (bind m f) g t = bind m (fun a => bind (f a) g) t.
Proof.
  unfold bind. destruct (m t) as [[a | e] t']; reflexivity.
Qed.

Lemma method_ok w p c t :
  printer_method w t p c = None ->
  method w p c t = (Return tt, (t ++ [EvPrinter p c])%list).
Proof. intros H. unfold method. rewrite H. reflexivity. Qed.

Lemma for_each_app {A : Type} (l1 l2 : list A) (body : A -> M unit) t :
  for_each (l1 ++ l2)%list body t
  = bind (for_each l1 body) (fun _ => for_each l2 body) t.
Proof.
  revert t. induction l1 as [| x l1 IH]; intros t; simpl.
  - reflexivity.
  - rewrite bind_assoc.
    apply bind_ext; [reflexivity | intros _ t'; apply IH].
Qed.

(** ** Locating the device *)

Lemma detect_printer_from_skip w pre rest t :
  (forall u, In u pre -> not_present w u) ->
  detect_printer_from w (pre ++ rest)%list t
  = detect_printer_from w rest (t ++ map open_event pre)%list.
Proof.
  revert t. induction pre as [| u pre IH]; intros t Hpre; simpl.
  - rewrite app_nil_r. reflexivity.
  - destruct (Hpre u (or_introl eq_refl) t) as (e & He & Hnf).
    unfold try_except, bind, Usb. rewrite He. rewrite Hnf.
    rewrite IH by (intros u' Hu'; apply Hpre; right; exact Hu').
    rewrite <- app_assoc. reflexivity.
Qed.

Lemma detect_printer_from_raises w v post e t :
  Usb_init w t (idVendor v) (idProduct v) = Some e ->
  is_USBNotFoundError e = false ->
  detect_printer_from w (v :: post) t = (Raise e, (t ++ [open_event v])%list).
Proof.
  intros He Hnf. simpl. unfold try_except, bind, Usb.
  rewrite He, Hnf. reflexivity.
Qed.

(** C5. When every entry of the vendor table is absent, [detect_printer]
    tries each entry once, in the order of the table, and raises
    [USBNotFoundError("No supported USB printer found")]; [print_invoice]
    then returns [False] with the text of that error, after logging it, and
    calls no printer method. When the entries before [v] are absent and
    opening [v] raises an error of another class, that very error leaves
    [detect_printer] and [print_invoice]: it is not turned into the
    not-found error, and no further entry is tried. *)
Theorem C5_locate_not_found_or_propagate :
  forall (w : world) (data : value) (t : list event) (pre rest : list vendor),
    printer_vendors (CONFIG w) = (pre ++ rest)%list ->
    (forall u, In u pre -> not_present w u) ->
    (rest = [] ->
     let e := Exn USBNotFoundError
                (USBNotFoundError_str w "No supported USB printer found") in
     let pass := [EvUsb 0x0483 0x5743; EvUsb 0x04b8 0x0202; EvUsb 0x067b 0x2305] in
     detect_printer w t = (Raise e, (t ++ pass)%list)
     /\ print_invoice w data t
        = (Return (false, exn_str e),
           (t ++ pass
              ++ [EvLog ERROR ("Printer detection failed: " ++ exn_str e)])%list))
    /\ (forall v post e,
          rest = v :: post ->
          Usb_init w (t ++ map open_event pre)%list (idVendor v) (idProduct v)
          = Some e ->
          is_USBNotFoundError e = false ->
          detect_printer w t
          = (Raise e, (t ++ map open_event pre ++ [open_event v])%list)
          /\ print_invoice w data t
             = (Raise e, (t ++ map open_event pre ++ [open_event v])%list)).
Proof.
  intros w data t pre rest Htable Hpre. split.
  - intros -> e pass. rewrite app_nil_r in Htable.
    assert (Hd : detect_printer w t = (Raise e, (t ++ pass)%list)).
    { unfold detect_printer. rewrite Htable.
      rewrite <- (app_nil_r pre) at 1.
      rewrite detect_printer_from_skip by exact Hpre.
      rewrite <- Htable. reflexivity. }
    split; [exact Hd |].
    unfold print_invoice, try_except, bind at 1 2. rewrite Hd.
    unfold bind, logger, ret. simpl. rewrite <- app_assoc. reflexivity.
  - intros v post e -> He Hnf.
    assert (Hd : detect_printer w t
                 = (Raise e, (t ++ map open_event pre ++ [open_event v])%list)).
    { unfold detect_printer. rewrite Htable.
      rewrite detect_printer_from_skip by exact Hpre.
      rewrite (detect_printer_from_raises _ _ _ _ _ He Hnf).
      rewrite <- app_assoc. reflexivity. }
    split; [exact Hd |].
    unfold print_invoice, try_except, bind at 1 2. rewrite Hd.
    rewrite Hnf. reflexivity.
Qed.

Lemma C5_witness :
  printer_vendors (CONFIG unplugged_world)
  = (printer_vendors (CONFIG unplugged_world) ++ [])%list
  /\ (forall u, In u (printer_vendors (CONFIG unplugged_world)) ->
      not_present unplugged_world u)
  /\ print_invoice unplugged_world example_invoice []
     = (Return (false, "USB device not found (No supported USB printer found)"),
        [EvUsb 0x0483 0x5743; EvUsb 0x04b8 0x0202; EvUsb 0x067b 0x2305;
         EvLog ERROR "Printer detection failed: USB device not found (No supported USB printer found)"]).
Proof.
  assert (Htable : printer_vendors (CONFIG unplugged_world)
                   = (printer_vendors (CONFIG unplugged_world) ++ [])%list)
    by reflexivity.
  assert (Habsent : forall u, In u (printer_vendors (CONFIG unplugged_world)) ->
                              not_present unplugged_world u).
  { intros u _ t. exists not_found_error. split; reflexivity. }
  split; [exact Htable | split; [exact Habsent |]].
  exact (proj2 (proj1 (C5_locate_not_found_or_propagate
                         unplugged_world example_invoice [] _ [] Htable Habsent)
                  eq_refl)).
Defined.

(** ** Computations only add events *)

Lemma emits_ret {A : Type} (P : event -> Prop) (a : A) : emits P (ret a).
Proof. intros t. exists []. simpl. rewrite app_nil_r. auto. Qed.

Lemma emits_raise {A : Type} (P : event -> Prop) (e : exn) :
  emits P (@raise A e).
Proof. intros t. exists []. simpl. rewrite app_nil_r. auto. Qed.

Lemma emits_lift {A : Type} (P : event -> Prop) (o : outcome A) :
  emits P (lift o).
Proof. intros t. exists []. simpl. rewrite app_nil_r. auto. Qed.

Lemma emits_logger (P : event -> Prop) lv msg :
  P (EvLog lv msg) -> emits P (logger lv msg).
Proof. intros H t. exists [EvLog lv msg]. simpl. auto. Qed.

Lemma emits_method (P : event -> Prop) w p c :
  P (EvPrinter p c) -> emits P (method w p c).
Proof.
  intros H t. exists [EvPrinter p c]. unfold method.
  destruct (printer_method w t p c); simpl; auto.
Qed.

Lemma emits_Usb (P : event -> Prop) w v pid :
  P (EvUsb v pid) -> emits P (Usb w v pid).
Proof.
  intros H t. exists [EvUsb v pid]. unfold Usb.
  destruct (Usb_init w t v pid); simpl; auto.
Qed.

Lemma emits_bind {A B : Type} (P : event -> Prop) (m : M A) (k : A -> M B) :
  emits P m -> (forall a, emits P (k a)) -> emits P (bind m k).
Proof.
  intros Hm Hk t. destruct (Hm t) as (evs & E & F). unfold bind.
  destruct (m t) as [[a | e] t']; simpl in E; subst t'.
  - destruct (Hk a (t ++ evs)%list) as (evs' & E' & F').
    exists (evs ++ evs')%list. rewrite E', app_assoc.
    split; [reflexivity | apply Forall_app; auto].
  - exists evs. auto.
Qed.

Lemma emits_try_except {A : Type} (P : event -> Prop) (m : M A) catches handler :
  emits P m -> (forall e, emits P (handler e)) ->
  emits P (try_except m catches handler).
Proof.
  intros Hm Hh t. destruct (Hm t) as (evs & E & F). unfold try_except.
  destruct (m t) as [[a | e] t']; simpl in E; subst t'.
  - exists evs. auto.
  - destruct (catches e); [| exists evs; auto].
    destruct (Hh e (t ++ evs)%list) as (evs' & E' & F').
    exists (evs ++ evs')%list. rewrite E', app_assoc.
    split; [reflexivity | apply Forall_app; auto].
Qed.

Lemma emits_for_each {A : Type} (P : event -> Prop) (l : list A) body :
  (forall x, emits P (body x)) -> emits P (for_each l body).
Proof.
  intros Hb. induction l as [| x l IH]; simpl.
  - apply emits_ret.
  - apply emits_bind; [apply Hb | intros _; exact IH].
Qed.

Lemma emits_comprehension {A B : Type} (P : event -> Prop) (l : list A)
  (f : A -> M B) :
  (forall x, emits P (f x)) -> emits P (comprehension l f).
Proof.
  intros Hf. induction l as [| x l IH]; simpl.
  - apply emits_ret.
  - apply emits_bind; [apply Hf | intros y].
    apply emits_bind; [exact IH | intros ys; apply emits_ret].
Qed.

Ltac emits_step :=
  lazymatch goal with
  | |- emits _ (bind _ _) => apply emits_bind; [| intros ?]
  | |- emits _ (ret _) => apply emits_ret
  | |- emits _ (raise _) => apply emits_raise
  | |- emits _ (lift _) => apply emits_lift
  | |- emits _ (logger _ _) => apply emits_logger; reflexivity
  | |- emits _ (method _ _ _) => apply emits_method; reflexivity
  | |- emits _ (text _ _ _) => apply emits_method; reflexivity
  | |- emits _ (Usb _ _ _) => apply emits_Usb; reflexivity
  | |- emits _ (for_each _ _) => apply emits_for_each; intros ?
  | |- emits _ (comprehension _ _) => apply emits_comprehension; intros ?
  | |- emits _ (try_except _ _ _) => apply emits_try_except; [| intros ?]
  | |- emits _ (if ?b then _ else _) => destruct b
  | |- emits _ (let (_, _) := ?x in _) => destruct x
  end.

Lemma print_receipt_no_close w p data : emits no_close (print_receipt w p data).
Proof.
  unfold print_receipt, print_header, print_contact, print_address,
    print_invoice_info, print_table_header, print_items, print_item,
    name_parts, print_part, print_totals, print_terms, print_invoice_number,
    print_barcode, print_qr_code, print_footer, generate_barcode,
    generate_qr_code.
  repeat emits_step.
Qed.

Lemma detect_printer_from_no_printer_call w vendors :
  emits no_printer_call (detect_printer_from w vendors).
Proof.
  induction vendors as [| u vendors IH]; simpl.
  - apply emits_raise.
  - apply emits_try_except; [repeat emits_step | intros _; exact IH].
Qed.

Lemma count_close_app t1 t2 :
  count_close (t1 ++ t2)%list = (count_close t1 + count_close t2)%nat.
Proof. unfold count_close. rewrite filter_app, length_app. reflexivity. Qed.

Lemma count_close_none evs : Forall no_close evs -> count_close evs = 0%nat.
Proof.
  unfold count_close. induction 1 as [| ev evs H _ IH]; simpl.
  - reflexivity.
  - rewrite H. exact IH.
Qed.

Lemma no_printer_call_no_close evs :
  Forall no_printer_call evs -> Forall no_close evs.
Proof.
  apply Forall_impl. intros [? ? | ? [] | ? ?]; unfold no_printer_call, no_close;
    simpl; congruence.
Qed.

(** ** Releasing the device handle *)

Lemma detect_printer_extends w ti p t0 :
  detect_printer w ti = (Return p, t0) ->
  exists evs, t0 = (ti ++ evs)%list /\ Forall no_close evs.
Proof.
  intros H.
  destruct (detect_printer_from_no_printer_call w (printer_vendors (CONFIG w)) ti)
    as (evs & E & F).
  fold (detect_printer w) in E. rewrite H in E. simpl in E.
  exists evs. split; [exact E | apply no_printer_call_no_close; exact F].
Qed.

Lemma print_invoice_located w data ti p t0 :
  detect_printer w ti = (Return p, t0) ->
  print_invoice w data ti
  = try_finally (print_phase w p data) (method w p CallClose) t0.
Proof.
  intros H. unfold print_invoice, try_except, bind at 1 2. rewrite H.
  reflexivity.
Qed.

(** C2. When the device has been located and a step of the print job raises
    an error (a printer call, the barcode or QR image-blit, or the
    computation of a row), [print_invoice] logs the failure and then calls
    [close] on the located printer; this is the only [close] of the job and
    the last thing the job does, so the handle is released before the caller
    sees the result, which is [(False, str(e))] when [close] returns. *)
Theorem C2_handle_released_exactly_once :
  forall (w : world) (data : value) (p : usb_printer) (ti t0 t1 : list event)
         (e : exn),
    detect_printer w ti = (Return p, t0) ->
    print_receipt w p data t0 = (Raise e, t1) ->
    let logged := (t1 ++ [EvLog ERROR ("Printing failed: " ++ exn_str e)])%list in
    let final := (logged ++ [EvPrinter p CallClose])%list in
    print_invoice w data ti
    = (match printer_method w logged p CallClose with
       | None => Return (false, exn_str e)
       | Some e' => Raise e'
       end, final)
    /\ exists evs, final = (ti ++ evs)%list /\ count_close evs = 1%nat.
Proof.
  intros w data p ti t0 t1 e Hdetect Hreceipt logged final. split.
  - rewrite (print_invoice_located _ _ _ _ _ Hdetect).
    subst final logged.
    unfold try_finally, print_phase, try_except. rewrite Hreceipt.
    cbv beta iota delta [is_Exception bind logger ret method].
    destruct (printer_method w _ p CallClose); reflexivity.
  - destruct (detect_printer_extends _ _ _ _ Hdetect) as (evs0 & E0 & F0).
    destruct (print_receipt_no_close w p data t0) as (evs1 & E1 & F1).
    rewrite Hreceipt in E1. simpl in E1.
    exists (evs0 ++ evs1
            ++ [EvLog ERROR ("Printing failed: " ++ exn_str e);
                EvPrinter p CallClose])%list.
    split.
    + unfold final, logged. rewrite E1, E0.
      repeat rewrite <- app_assoc. reflexivity.
    + rewrite !count_close_app.
      rewrite (count_close_none _ F0), (count_close_none _ F1). reflexivity.
Qed.

Lemma C2_witness :
  detect_printer image_fails_world []
  = (Return bixolon,
     [EvUsb 0x0483 0x5743;
      EvLog INFO "Found printer with vendor 0483, product 5743"])
  /\ fst (print_receipt image_fails_world bixolon example_invoice
            (snd (detect_printer image_fails_world [])))
     = Raise transport_error
  /\ fst (print_invoice image_fails_world example_invoice [])
     = Return (false, exn_str transport_error)
  /\ count_close (snd (print_invoice image_fails_world example_invoice []))
     = 1%nat.
Proof.
  assert (Hd : detect_printer image_fails_world []
               = (Return bixolon,
                  [EvUsb 0x0483 0x5743;
                   EvLog INFO "Found printer with vendor 0483, product 5743"]))
    by reflexivity.
  assert (Hr : print_receipt image_fails_world bixolon example_invoice
                 [EvUsb 0x0483 0x5743;
                  EvLog INFO "Found printer with vendor 0483, product 5743"]
               = (Raise transport_error,
                  snd (print_receipt image_fails_world bixolon example_invoice
                         [EvUsb 0x0483 0x5743;
                          EvLog INFO "Found printer with vendor 0483, product 5743"])))
    by (vm_compute; reflexivity).
  destruct (C2_handle_released_exactly_once
              image_fails_world example_invoice bixolon _ _ _ _ Hd Hr)
    as [Hrun _].
  split; [exact Hd | split; [vm_compute; reflexivity |]].
  rewrite Hrun. split; vm_compute; reflexivity.
Defined.

(** C3 (as the code has it). The [finally] clause calls [close] once the
    print phase has come to its result. When [close] returns, that result is
    what [print_invoice] returns, unchanged. When [close] raises, its
    exception leaves [print_invoice] in place of that result; nothing is
    logged about it: the call of [close] is the last event of the job. *)
Theorem C3_release_error_replaces_outcome :
  forall (w : world) (data : value) (p : usb_printer) (ti t0 t1 : list event)
         (r : outcome (bool * string)),
    detect_printer w ti = (Return p, t0) ->
    print_phase w p data t0 = (r, t1) ->
    print_invoice w data ti
    = (match printer_method w t1 p CallClose with
       | None => r
       | Some e => Raise e
       end, (t1 ++ [EvPrinter p CallClose])%list).
Proof.
  intros w data p ti t0 t1 r Hdetect Hphase.
  rewrite (print_invoice_located _ _ _ _ _ Hdetect).
  unfold try_finally. rewrite Hphase. unfold method.
  destruct (printer_method w t1 p CallClose); reflexivity.
Qed.

Lemma C3_witness :
  fst (print_phase close_fails_world bixolon example_invoice
         (snd (detect_printer close_fails_world [])))
  = Return (true, "Invoice printed successfully")
  /\ fst (print_invoice close_fails_world example_invoice [])
     = Raise transport_error.
Proof.
  assert (Hd : detect_printer close_fails_world []
               = (Return bixolon, snd (detect_printer close_fails_world [])))
    by reflexivity.
  assert (Hp : print_phase close_fails_world bixolon example_invoice
                 (snd (detect_printer close_fails_world []))
               = (Return (true, "Invoice printed successfully"),
                  snd (print_phase close_fails_world bixolon example_invoice
                         (snd (detect_printer close_fails_world [])))))
    by (vm_compute; reflexivity).
  split; [rewrite Hp; reflexivity |].
  rewrite (C3_release_error_replaces_outcome
             close_fails_world example_invoice bixolon _ _ _ _ Hd Hp).
  reflexivity.
Defined.

(** C3 fails as stated: with a printer that prints the whole receipt and
    then fails to close, the print phase has come to
    [(True, "Invoice printed successfully")], yet [print_invoice] raises the
    error of [close] instead of returning that pair, and the only line
    logged is the one of the device detection. *)
Lemma C3_counterexample :
  fst (print_phase close_fails_world bixolon example_invoice
         (snd (detect_printer close_fails_world [])))
  = Return (true, "Invoice printed successfully")
  /\ fst (print_invoice close_fails_world example_invoice [])
     = Raise transport_error
  /\ filter is_log (snd (print_invoice close_fails_world example_invoice []))
     = [EvLog INFO "Found printer with vendor 0483, product 5743"].
Proof. repeat split; vm_compute; reflexivity. Qed.

(** ** What [print_invoice] hands back *)

Lemma detect_printer_from_outcome w vendors t :
  open_fails_only_not_found w ->
  (exists p t', detect_printer_from w vendors t = (Return p, t'))
  \/ (exists e t', detect_printer_from w vendors t = (Raise e, t')
                   /\ is_USBNotFoundError e = true).
Proof.
  intros Hopen. revert t. induction vendors as [| u vendors IH]; intros t; simpl.
  - right. eexists. eexists. split; reflexivity.
  - unfold try_except, bind, Usb.
    destruct (Usb_init w t (idVendor u) (idProduct u)) as [e |] eqn:E.
    + rewrite (Hopen _ _ _ _ E). apply IH.
    + left. eexists. eexists. reflexivity.
Qed.

Lemma print_phase_returns w p data t :
  exists r t', print_phase w p data t = (Return r, t').
Proof.
  unfold print_phase, try_except.
  destruct (print_receipt w p data t) as [[r | e] t'].
  - eexists. eexists. reflexivity.
  - cbv beta iota delta [is_Exception bind logger ret].
    eexists. eexists. reflexivity.
Qed.

(** C4 (as the code has it). In a world where opening a device fails only
    with the not-present error and releasing a handle does not raise,
    [print_invoice] returns a [(success, message)] pair for every invoice,
    whatever else goes wrong while the job runs: no exception leaves it. *)
Theorem C4_returns_pair :
  forall (w : world) (data : value) (t : list event),
    open_fails_only_not_found w ->
    close_never_fails w ->
    exists (ok : bool) (msg : string) (t' : list event),
      print_invoice w data t = (Return (ok, msg), t').
Proof.
  intros w data t Hopen Hclose.
  destruct (detect_printer_from_outcome w (printer_vendors (CONFIG w)) t Hopen)
    as [(p & t0 & Hd) | (e & t0 & Hd & Hnf)]; fold (detect_printer w) in Hd.
  - destruct (print_phase_returns w p data t0) as ([ok msg] & t1 & Hp).
    exists ok, msg. eexists.
    rewrite (print_invoice_located _ _ _ _ _ Hd).
    unfold try_finally. rewrite Hp. unfold method. rewrite Hclose.
    reflexivity.
  - exists false, (exn_str e). eexists.
    unfold print_invoice, try_except, bind at 1 2. rewrite Hd, Hnf.
    reflexivity.
Qed.

Lemma C4_witness :
  open_fails_only_not_found image_fails_world
  /\ close_never_fails image_fails_world
  /\ exists (ok : bool) (msg : string) (t' : list event),
       print_invoice image_fails_world example_invoice [] = (Return (ok, msg), t').
Proof.
  assert (Hopen : open_fails_only_not_found image_fails_world)
    by (intros t v pid e H; discriminate H).
  assert (Hclose : close_never_fails image_fails_world)
    by (intros t p; reflexivity).
  split; [exact Hopen | split; [exact Hclose |]].
  exact (C4_returns_pair image_fails_world example_invoice [] Hopen Hclose).
Defined.

(** C4 fails as stated: the first printer of the table is absent and the
    open of the second is refused for lack of permission; that error is not
    a [USBNotFoundError], so neither [detect_printer] nor the first handler
    of [print_invoice] catches it, and it leaves [print_invoice]. *)
Lemma C4_counterexample :
  print_invoice access_denied_world example_invoice []
  = (Raise access_denied_error, [EvUsb 0x0483 0x5743; EvUsb 0x04b8 0x0202])
  /\ ~ exists (ok : bool) (msg : string) (t' : list event),
         print_invoice access_denied_world example_invoice []
         = (Return (ok, msg), t').
Proof.
  assert (H : print_invoice access_denied_world example_invoice []
              = (Raise access_denied_error,
                 [EvUsb 0x0483 0x5743; EvUsb 0x04b8 0x0202]))
    by (vm_compute; reflexivity).
  split; [exact H |].
  intros (ok & msg & t' & H'). rewrite H in H'. discriminate H'.
Qed.

(** ** Validation of the request *)

Lemma check_required_present kvs g v fields t :
  Py.lookup g kvs = Some v ->
  check_required (VDict kvs) (g :: fields) t
  = check_required (VDict kvs) fields t.
Proof.
  intros H. cbn [check_required]. unfold bind, lift, Py.contains.
  rewrite H. reflexivity.
Qed.

Lemma check_required_absent kvs g fields t :
  Py.lookup g kvs = None ->
  check_required (VDict kvs) (g :: fields) t
  = (Return (Some (Response false ("Missing required field: " ++ g) 400)), t).
Proof.
  intros H. cbn [check_required]. unfold bind, lift, Py.contains.
  rewrite H. reflexivity.
Qed.

Lemma check_required_first_missing kvs fields t :
  (exists f, In f fields /\ Py.lookup f kvs = None) ->
  exists pre f post,
    fields = (pre ++ f :: post)%list
    /\ (forall g, In g pre -> Py.lookup g kvs <> None)
    /\ Py.lookup f kvs = None
    /\ check_required (VDict kvs) fields t
       = (Return (Some (Response false ("Missing required field: " ++ f) 400)), t).
Proof.
  induction fields as [| g fields IH]; intros (f & Hin & Hf).
  - destruct Hin.
  - destruct (Py.lookup g kvs) as [v |] eqn:Eg.
    + destruct Hin as [-> | Hin]; [congruence |].
      destruct (IH (ex_intro _ f (conj Hin Hf)))
        as (pre & f' & post & -> & Hpre & Hf' & Hrun).
      exists (g :: pre), f', post. repeat split; try assumption.
      * intros g' [<- | Hg']; [congruence | auto].
      * rewrite (check_required_present _ _ _ _ _ Eg). exact Hrun.
    + exists [], g, fields. repeat split; try assumption.
      * intros g' [].
      * apply check_required_absent. exact Eg.
Qed.

Lemma validate_token_runs w req t :
  exists ok evs,
    validate_token w req t = (Return ok, (t ++ evs)%list)
    /\ filter is_device_event evs = []
    /\ (headers_Authorization req = Some ("Bearer " ++ auth_token (CONFIG w)) ->
        ok = true).
Proof.
  unfold validate_token. cbv beta iota zeta delta [bind logger ret].
  destruct (headers_Authorization req) as [h |].
  - destruct (String.eqb h "" || negb (String.eqb h ("Bearer " ++ auth_token (CONFIG w))))
      eqn:E.
    + eexists. eexists. repeat rewrite <- app_assoc.
      split; [reflexivity | split; [reflexivity |]].
      intros H. injection H as ->. simpl in E.
      rewrite String.eqb_refl in E. discriminate E.
    + eexists. eexists. repeat rewrite <- app_assoc.
      split; [reflexivity | split; [reflexivity | reflexivity]].
  - eexists. eexists. repeat rewrite <- app_assoc.
    split; [reflexivity | split; [reflexivity |]].
    intros H. discriminate H.
Qed.

(** C6. Take a request whose JSON body is an object in which a required
    field is absent. The handler answers it with a failure response and
    touches no device on the way: it makes no attempt to open a printer and
    calls no printer method, so nothing is rendered; all it does is write log
    lines. When the request carries the expected token, the response is
    [{"success": False, "message": "Missing required field: <f>"}, 400],
    where [<f>] is an absent required field: the first one in the order
    [invoice_number], [invoice_date], [customer_name], [items], [subtotal],
    [total]. *)
Theorem C6_missing_field_rejected :
  forall (w : world) (req : request) (kvs : list (string * value))
         (t : list event),
    is_json req = true ->
    get_json req = Return (VDict kvs) ->
    (exists f, In f required_fields /\ Py.lookup f kvs = None) ->
    exists resp evs,
      handle_print w req t = (Return resp, (t ++ evs)%list)
      /\ filter is_device_event evs = []
      /\ success resp = false
      /\ (headers_Authorization req = Some ("Bearer " ++ auth_token (CONFIG w)) ->
          exists pre f post,
            required_fields = (pre ++ f :: post)%list
            /\ (forall g, In g pre -> Py.lookup g kvs <> None)
            /\ Py.lookup f kvs = None
            /\ resp = Response false ("Missing required field: " ++ f) 400).
Proof.
  intros w req kvs t Hjson Hbody Hmissing.
  destruct (validate_token_runs w req t) as (ok & evs & Hrun & Hquiet & Hauth).
  destruct (check_required_first_missing kvs required_fields (t ++ evs)%list
              Hmissing)
    as (pre & f & post & Hsplit & Hpre & Hf & Hcheck).
  unfold handle_print. rewrite (bind_Return _ _ _ _ _ Hrun).
  destruct ok.
  - rewrite Hjson, Hbody. cbv beta iota delta [negb].
    rewrite (bind_lift_Return _ _ _ _ eq_refl).
    rewrite (bind_Return _ _ _ _ _ Hcheck).
    eexists. exists evs. split; [reflexivity |].
    split; [exact Hquiet | split; [reflexivity |]].
    intros _. exists pre, f, post. repeat split; assumption.
  - cbv beta iota delta [negb].
    eexists. exists evs. split; [reflexivity |].
    split; [exact Hquiet | split; [reflexivity |]].
    intros H. discriminate (Hauth H).
Qed.

Lemma C6_witness :
  get_json (authorized_request (VDict invoice_without_customer))
  = Return (VDict invoice_without_customer)
  /\ (exists f, In f required_fields
                /\ Py.lookup f invoice_without_customer = None)
  /\ exists resp evs,
       handle_print ideal_world
         (authorized_request (VDict invoice_without_customer)) []
       = (Return resp, ([] ++ evs)%list)
       /\ filter is_device_event evs = []
       /\ success resp = false
       /\ (headers_Authorization
             (authorized_request (VDict invoice_without_customer))
           = Some ("Bearer " ++ auth_token (CONFIG ideal_world)) ->
           exists pre f post,
             required_fields = (pre ++ f :: post)%list
             /\ (forall g, In g pre ->
                           Py.lookup g invoice_without_customer <> None)
             /\ Py.lookup f invoice_without_customer = None
             /\ resp = Response false ("Missing required field: " ++ f) 400).
Proof.
  assert (Hmissing : exists f, In f required_fields
                               /\ Py.lookup f invoice_without_customer = None).
  { exists "customer_name". split; [simpl; tauto | reflexivity]. }
  split; [reflexivity | split; [exact Hmissing |]].
  exact (C6_missing_field_rejected ideal_world
           (authorized_request (VDict invoice_without_customer))
           invoice_without_customer [] eq_refl eq_refl Hmissing).
Defined.

Example handle_print_without_token :
  fst (handle_print ideal_world
         (Request None true (Return (VDict invoice_without_customer))) [])
  = Return (Response false "Unauthorized" 401).
Proof. vm_compute. reflexivity. Qed.

Example handle_print_without_customer :
  fst (handle_print ideal_world
         (authorized_request (VDict invoice_without_customer)) [])
  = Return (Response false "Missing required field: customer_name" 400).
Proof. vm_compute. reflexivity. Qed.

(** ** The invoice block and its optional time line *)

Ltac run_printer H :=
  repeat first [ rewrite H | progress cbv beta iota ].

Section InvoiceInfo.

Variable w : world.
Variable p : usb_printer.
Hypothesis Hprinter : printer_never_fails w p.

(** With a printer that answers every call, the invoice block of a request
    that has its required fields is: select left alignment, [Invoice #: <n>],
    [Date: <d>], then the line [Time: <t>] exactly when the field
    [invoice_time] is present with a value that Python takes as true, then
    [Customer: <name>]. *)
Lemma print_invoice_info_layout :
  forall (kvs : list (string * value)) (t : list event) (n d c : value),
    Py.lookup "invoice_number" kvs = Some n ->
    Py.lookup "invoice_date" kvs = Some d ->
    Py.lookup "customer_name" kvs = Some c ->
    print_invoice_info w p (VDict kvs) t
    = (Return tt,
       (t ++ map (EvPrinter p)
               ([ CallSet (Some AlignLeft) None;
                  CallText ("Invoice #: " ++ Py.str (py_repr w) n ++ PyStr.newline);
                  CallText ("Date: " ++ Py.str (py_repr w) d ++ PyStr.newline) ]
                ++ match Py.lookup "invoice_time" kvs with
                   | Some time => time_line w time
                   | None => []
                   end
                ++ [ CallText ("Customer: " ++ Py.str (py_repr w) c
                               ++ PyStr.newline) ]))%list).
Proof.
  intros kvs t n d c Hn Hd Hc.
  cbv beta iota zeta delta
    [print_invoice_info text bind lift ret method Py.getitem Py.get time_line].
  rewrite Hn, Hd, Hc.
  destruct (Py.lookup "invoice_time" kvs) as [time |];
    [destruct (Py.truth time) |]; cbv beta iota delta [Py.truth];
    run_printer Hprinter; repeat rewrite <- app_assoc; reflexivity.
Qed.

End InvoiceInfo.

(** ** Loops that print one row for each element *)

Lemma for_each_rows {A : Type} (p : usb_printer) (l : list A)
  (body : A -> M unit) (row : A -> string) t :
  (forall x t', In x l ->
     body x t' = (Return tt, (t' ++ [EvPrinter p (CallText (row x))])%list)) ->
  for_each l body t
  = (Return tt, (t ++ map (fun x => EvPrinter p (CallText (row x))) l)%list).
Proof.
  revert t. induction l as [| x l IH]; intros t Hbody; simpl.
  - rewrite app_nil_r. reflexivity.
  - rewrite (bind_Return _ _ _ _ _ (Hbody x t (or_introl eq_refl))).
    rewrite IH by (intros y t' Hy; apply Hbody; right; exact Hy).
    rewrite <- app_assoc. reflexivity.
Qed.

Lemma text_ok w p s t :
  printer_never_fails w p ->
  text w p s t = (Return tt, (t ++ [EvPrinter p (CallText s)])%list).
Proof. intros H. apply method_ok, H. Qed.

(** ** The rows of an item *)

Lemma div20_step x :
  (0 < x)%nat -> ((x + 19) / 20 = S ((x - 20 + 19) / 20))%nat.
Proof.
  intros Hx. destruct (Nat.le_gt_cases 20 x) as [H | H].
  - replace (x + 19)%nat with ((x - 20 + 19) + 1 * 20)%nat by lia.
    rewrite Nat.div_add by lia. lia.
  - replace (x - 20 + 19)%nat with 19%nat by lia.
    replace (x + 19)%nat with ((x - 1) + 1 * 20)%nat by lia.
    rewrite Nat.div_add by lia.
    rewrite (Nat.div_small (x - 1) 20) by lia. reflexivity.
Qed.

Lemma range_from_20 fuel start n :
  (n - start <= fuel)%nat ->
  Py.range_from fuel start n 20
  = map (fun k => (start + 20 * k)%nat) (seq 0 ((n - start + 19) / 20)).
Proof.
  revert start. induction fuel as [| fuel IH]; intros start Hfuel.
  - replace (n - start)%nat with 0%nat by lia. reflexivity.
  - cbn [Py.range_from]. destruct (Nat.ltb_spec start n) as [Hlt | Hge].
    + rewrite IH by lia.
      rewrite (div20_step (n - start)) by lia.
      replace (n - (start + 20))%nat with (n - start - 20)%nat by lia.
      cbn [seq map]. rewrite <- seq_shift, map_map.
      f_equal; [lia |]. apply map_ext. intros k. lia.
    + replace (n - start)%nat with 0%nat by lia. reflexivity.
Qed.

Lemma range_step_20 n :
  Py.range_step n 20 = map (fun k => (20 * k)%nat) (seq 0 ((n + 19) / 20)).
Proof.
  unfold Py.range_step. rewrite range_from_20 by lia.
  rewrite Nat.sub_0_r. reflexivity.
Qed.

Lemma enumerate_from_map_seq {A : Type} (g : nat -> A) i c :
  Py.enumerate_from i (map g (seq i c)) = map (fun k => (k, g k)) (seq i c).
Proof.
  revert i. induction c as [| c IH]; intros i; simpl.
  - reflexivity.
  - rewrite IH. reflexivity.
Qed.

Lemma comprehension_pure {A B : Type} (l : list A) (f : A -> M B) (g : A -> B) t :
  (forall x t', f x t' = (Return (g x), t')) ->
  comprehension l f t = (Return (map g l), t).
Proof.
  intros Hf. induction l as [| x l IH]; simpl.
  - reflexivity.
  - rewrite (bind_Return _ _ _ _ _ (Hf x t)).
    rewrite (bind_Return _ _ _ _ _ IH). reflexivity.
Qed.

Lemma name_parts_str item nm t :
  Py.getitem item "name" = Return (VStr nm) ->
  name_parts item t
  = (Return (map (fun k => VStr (PyStr.slice (20 * k) 20 nm))
               (seq 0 ((String.length nm + 19) / 20))), t).
Proof.
  intros Hname. unfold name_parts.
  rewrite (bind_lift_Return _ _ _ _ Hname).
  rewrite (bind_lift_Return _ _ _ _ (eq_refl : Py.len (VStr nm) = Return _)).
  rewrite range_step_20.
  rewrite (comprehension_pure _ _ (fun i => VStr (PyStr.slice i 20 nm))).
  - rewrite map_map. reflexivity.
  - intros i t'. rewrite (bind_lift_Return _ _ _ _ Hname). reflexivity.
Qed.

Lemma ideal_printer_never_fails p : printer_never_fails ideal_world p.
Proof. intros t c. reflexivity. Qed.

Lemma try_finally_ext {A : Type} (m m' : M A) (cleanup : M unit) t :
  m t = m' t -> try_finally m cleanup t = try_finally m' cleanup t.
Proof. intros H. unfold try_finally. rewrite H. reflexivity. Qed.

Lemma try_except_ext {A : Type} (m m' : M A) catches handler t :
  m t = m' t -> try_except m catches handler t = try_except m' catches handler t.
Proof. intros H. unfold try_except. rewrite H. reflexivity. Qed.

Lemma print_item_empty_name w p item t :
  Py.getitem item "name" = Return (VStr "") ->
  print_item w p item t = (Return tt, t).
Proof.
  intros Hname. unfold print_item.
  rewrite (bind_Return _ _ _ _ _ (name_parts_str item "" t Hname)).
  reflexivity.
Qed.

Lemma print_items_list w p kvs items t :
  print_items w p (VDict (("items", VList items) :: kvs)) t
  = for_each items (print_item w p) t.
Proof. reflexivity. Qed.

Lemma print_items_skip_empty_name w p item kvs items1 items2 t :
  Py.getitem item "name" = Return (VStr "") ->
  print_items w p (VDict (("items", VList (items1 ++ item :: items2)%list) :: kvs)) t
  = print_items w p (VDict (("items", VList (items1 ++ items2)%list) :: kvs)) t.
Proof.
  intros Hname. rewrite !print_items_list.
  rewrite !for_each_app. apply bind_ext; [reflexivity | intros _ t'].
  cbn [for_each].
  rewrite (bind_Return _ _ _ _ _ (print_item_empty_name w p item t' Hname)).
  reflexivity.
Qed.

(** C10. An item whose name is the empty string prints nothing: the loop
    over the parts of its name has no turn, so its quantity, price and line
    total are never formatted and no printer method is called for it. The
    job is otherwise unaffected: [print_invoice] returns the same result and
    makes the same calls as for the same request without that item, so a
    job that succeeds without the item also succeeds with it. *)
Theorem C10_empty_name_prints_nothing :
  forall (w : world) (item : value) (kvs : list (string * value))
         (items1 items2 : list value),
    Py.getitem item "name" = Return (VStr "") ->
    (forall p t, print_item w p item t = (Return tt, t))
    /\ (forall t,
          print_invoice w
            (VDict (("items", VList (items1 ++ item :: items2)%list) :: kvs)) t
          = print_invoice w
              (VDict (("items", VList (items1 ++ items2)%list) :: kvs)) t).
Proof.
  intros w item kvs items1 items2 Hname. split.
  - intros p t. apply print_item_empty_name. exact Hname.
  - intros t. unfold print_invoice.
    apply bind_ext; [reflexivity | intros [printer | result] t0];
      [| reflexivity].
    apply try_finally_ext. unfold print_phase. apply try_except_ext.
    unfold print_receipt.
    repeat (apply bind_ext;
            [ intros ?;
              first [ reflexivity
                    | apply print_items_skip_empty_name; exact Hname ]
            | intros _ ? ]).
    reflexivity.
Qed.

Lemma C10_witness :
  Py.getitem nameless_item "name" = Return (VStr "")
  /\ print_invoice ideal_world
       (VDict (("items", VList ([shirt_item] ++ nameless_item :: [])%list)
               :: example_fields)) []
     = print_invoice ideal_world
         (VDict (("items", VList ([shirt_item] ++ [])%list) :: example_fields)) []
  /\ fst (print_invoice ideal_world
            (VDict (("items", VList ([shirt_item] ++ nameless_item :: [])%list)
                    :: example_fields)) [])
     = Return (true, "Invoice printed successfully").
Proof.
  split; [reflexivity |].
  destruct (C10_empty_name_prints_nothing ideal_world nameless_item
              example_fields [shirt_item] [] eq_refl) as [_ Hjob].
  split; [apply Hjob |].
  rewrite Hjob. vm_compute. reflexivity.
Defined.

(** ** The end-to-end example *)

(** C8 (as the code has it). For the example invoice, in a world where a
    printer is located, answers every call, and the barcode of [INV-1001]
    and the QR code of the default website are made, [print_invoice] returns
    [(True, "Invoice printed successfully")] after exactly the calls of
    [example_receipt] followed by [close]. Among them is the item row
    [shirt_row], the name padded to 20 columns (15 spaces after [Shirt]),
    and the last call before the release of the handle is the cut. *)
Theorem C8_example_receipt :
  forall (w : world) (p : usb_printer) (ti t0 : list event)
         (barcode_buffer qr_buffer : string) (barcode_img qr_img : image),
    detect_printer w ti = (Return p, t0) ->
    printer_never_fails w p ->
    barcode_code128 w (VStr "INV-1001") = Return barcode_buffer ->
    Image_open w barcode_buffer = Return barcode_img ->
    qrcode_png w (VStr "https://stagmenfashion.com") = Return qr_buffer ->
    Image_open w qr_buffer = Return qr_img ->
    print_invoice w example_invoice ti
    = (Return (true, "Invoice printed successfully"),
       (t0 ++ map (EvPrinter p)
                (example_receipt barcode_img qr_img ++ [CallClose]))%list)
    /\ In (CallText shirt_row) (example_receipt barcode_img qr_img)
    /\ last (example_receipt barcode_img qr_img) CallClose = CallCut.
Proof.
  intros w p ti t0 barcode_buffer qr_buffer barcode_img qr_img Hdetect
    Hprinter Hbarcode Hbimg Hqr Hqimg.
  split; [| split; [simpl; tauto | reflexivity]].
  rewrite (print_invoice_located _ _ _ _ _ Hdetect).
  cbv -[printer_method barcode_code128 qrcode_png Image_open app].
  run_printer Hprinter. rewrite Hbarcode. cbv beta iota. rewrite Hbimg.
  run_printer Hprinter. rewrite Hqr. cbv beta iota. rewrite Hqimg.
  run_printer Hprinter.
  repeat rewrite <- app_assoc. reflexivity.
Qed.

Lemma C8_witness :
  detect_printer ideal_world []
  = (Return bixolon,
     [EvUsb 0x0483 0x5743;
      EvLog INFO "Found printer with vendor 0483, product 5743"])
  /\ printer_never_fails ideal_world bixolon
  /\ fst (print_invoice ideal_world example_invoice [])
     = Return (true, "Invoice printed successfully")
  /\ In (EvPrinter bixolon (CallText shirt_row))
       (snd (print_invoice ideal_world example_invoice [])).
Proof.
  assert (Hd : detect_printer ideal_world []
               = (Return bixolon,
                  [EvUsb 0x0483 0x5743;
                   EvLog INFO "Found printer with vendor 0483, product 5743"]))
    by reflexivity.
  split; [exact Hd | split; [apply ideal_printer_never_fails |]].
  destruct (C8_example_receipt ideal_world bixolon [] _
              "code128:INV-1001" "qr:https://stagmenfashion.com"
              (PILImage "code128:INV-1001")
              (PILImage "qr:https://stagmenfashion.com")
              Hd (ideal_printer_never_fails bixolon)
              eq_refl eq_refl eq_refl eq_refl)
    as (Hrun & Hrow & _).
  rewrite Hrun. split; [reflexivity |].
  cbn [snd]. apply in_or_app. right.
  apply in_map. apply in_or_app. left. exact Hrow.
Defined.

(** C8 fails as stated: in the ideal world the job succeeds, and no text row
    of the receipt is the claimed one, in which 17 spaces follow [Shirt]:
    the name is padded to 20 columns, which leaves 15. *)
Lemma C8_counterexample :
  fst (print_invoice ideal_world example_invoice [])
  = Return (true, "Invoice printed successfully")
  /\ ~ In claimed_shirt_row
         (text_rows (snd (print_invoice ideal_world example_invoice [])))
  /\ In shirt_row
       (text_rows (snd (print_invoice ideal_world example_invoice []))).
Proof.
  split; [vm_compute; reflexivity | split].
  - intros Hin.
    assert (Hnone : existsb (String.eqb claimed_shirt_row)
                      (text_rows
                         (snd (print_invoice ideal_world example_invoice [])))
                    = false) by (vm_compute; reflexivity).
    assert (Hsome : existsb (String.eqb claimed_shirt_row)
                      (text_rows
                         (snd (print_invoice ideal_world example_invoice [])))
                    = true).
    { apply existsb_exists. exists claimed_shirt_row.
      split; [exact Hin | apply String.eqb_refl]. }
    rewrite Hnone in Hsome. discriminate Hsome.
  - assert (Hsome : existsb (String.eqb shirt_row)
                      (text_rows
                         (snd (print_invoice ideal_world example_invoice [])))
                    = true) by (vm_compute; reflexivity).
    apply existsb_exists in Hsome. destruct Hsome as (s & Hin & Heq).
    apply String.eqb_eq in Heq. subst s. exact Hin.
Qed.

(** C9 fails as stated: the request has the field [invoice_time], with the
    empty string as its value; the job succeeds and prints no row that
    starts with [Time: ]. *)
Lemma C9_counterexample :
  Py.contains "invoice_time" (VDict empty_time_fields) = Return true
  /\ fst (print_invoice ideal_world (VDict empty_time_fields) [])
     = Return (true, "Invoice printed successfully")
  /\ existsb (String.prefix "Time: ")
       (text_rows (snd (print_invoice ideal_world (VDict empty_time_fields) [])))
     = false.
Proof. repeat split; vm_compute; reflexivity. Qed.

(* ===================================================================== *)
(** * Further properties of [printer_service.py] *)
(* ===================================================================== *)

(** ** Reading a run backwards *)

Lemma bind_inv_Return {A B : Type} (m : M A) (k : A -> M B) t b t' :
  bind m k t = (Return b, t') ->
  exists a t1, m t = (Return a, t1) /\ k a t1 = (Return b, t').
Proof.
  unfold bind. destruct (m t) as [[a | e] t1]; intros H.
  - exists a, t1. split; [reflexivity | exact H].
  - discriminate H.
Qed.

Lemma method_trace w p c t r t' :
  method w p c t = (r, t') -> t' = (t ++ [EvPrinter p c])%list.
Proof.
  unfold method. destruct (printer_method w t p c); intros H;
    injection H as _ <-; reflexivity.
Qed.

(** ** The token check *)

Lemma expected_token_not_empty w : String.eqb (expected_token w) "" = false.
Proof. reflexivity. Qed.

(** X1. [validate_token] returns [True] exactly when the [Authorization]
    header is present and equal to ["Bearer " + auth_token]. It only writes
    log lines: two debug lines, and, exactly when it refuses the request, a
    warning that spells out the expected token and the header received. *)
Theorem X1_validate_token_decides :
  forall (w : world) (req : request) (t : list event),
    exists evs,
      validate_token w req t = (Return (has_token w req), (t ++ evs)%list)
      /\ filter is_device_event evs = []
      /\ filter is_warning evs
         = if has_token w req then [] else [unauthorized_warning w req].
Proof.
  intros w req t. unfold validate_token, has_token, unauthorized_warning.
  fold (expected_token w).
  cbv beta iota zeta delta [bind logger ret].
  destruct (headers_Authorization req) as [h |].
  - destruct (String.eqb_spec h (expected_token w)) as [-> | Hne].
    + rewrite expected_token_not_empty. cbv beta iota delta [orb negb].
      eexists. repeat rewrite <- app_assoc.
      split; [reflexivity | split; reflexivity].
    + rewrite orb_true_r.
      eexists. repeat rewrite <- app_assoc.
      split; [reflexivity | split; reflexivity].
  - eexists. repeat rewrite <- app_assoc.
    split; [reflexivity | split; reflexivity].
Qed.

(** ** The first printer that is plugged in *)

(** X2. [detect_printer] returns the first printer of the table that can be
    opened: when the entries before [v] are absent and [v] opens, it returns
    the printer of [v] after one open attempt per entry up to [v], in table
    order, and one info line; the entries after [v] are not tried. *)
Theorem X2_detect_first_available :
  forall (w : world) (t : list event) (pre post : list vendor) (v : vendor),
    printer_vendors (CONFIG w) = (pre ++ v :: post)%list ->
    (forall u, In u pre -> not_present w u) ->
    Usb_init w (t ++ map open_event pre)%list (idVendor v) (idProduct v) = None ->
    detect_printer w t
    = (Return (UsbPrinter (idVendor v) (idProduct v)),
       (t ++ map open_event pre
          ++ [ open_event v;
               EvLog INFO ("Found printer with vendor "
                           ++ Py.format_04x (idVendor v) ++ ", product "
                           ++ Py.format_04x (idProduct v)) ])%list).
Proof.
  intros w t pre post v Htable Hpre Hopen.
  unfold detect_printer. rewrite Htable.
  rewrite detect_printer_from_skip by exact Hpre.
  cbn [detect_printer_from]. unfold try_except, bind, Usb.
  rewrite Hopen. unfold logger, ret.
  repeat rewrite <- app_assoc. reflexivity.
Qed.

Lemma X2_witness :
  printer_vendors (CONFIG epson_world)
  = ([Vendor 0x0483 0x5743] ++ Vendor 0x04b8 0x0202 :: [Vendor 0x067b 0x2305])%list
  /\ detect_printer epson_world []
     = (Return (UsbPrinter 0x04b8 0x0202),
        [ EvUsb 0x0483 0x5743; EvUsb 0x04b8 0x0202;
          EvLog INFO "Found printer with vendor 04b8, product 0202" ]).
Proof.
  split; [reflexivity |].
  apply (X2_detect_first_available epson_world []
           [Vendor 0x0483 0x5743] [Vendor 0x067b 0x2305] (Vendor 0x04b8 0x0202)).
  - reflexivity.
  - intros u [<- | []] t. exists not_found_error. split; reflexivity.
  - reflexivity.
Defined.

(** ** The gates of [handle_print] *)

Lemma validate_token_result w req t :
  exists evs,
    validate_token w req t = (Return (has_token w req), (t ++ evs)%list)
    /\ filter is_device_event evs = [].
Proof.
  unfold validate_token, has_token. fold (expected_token w).
  cbv beta iota zeta delta [bind logger ret].
  destruct (headers_Authorization req) as [h |].
  - destruct (String.eqb_spec h (expected_token w)) as [-> | Hne].
    + rewrite expected_token_not_empty. cbv beta iota delta [orb negb].
      eexists. repeat rewrite <- app_assoc. split; reflexivity.
    + rewrite orb_true_r.
      eexists. repeat rewrite <- app_assoc. split; reflexivity.
  - eexists. repeat rewrite <- app_assoc. split; reflexivity.
Qed.

(** X3. A request without the expected token is answered
    [{"success": False, "message": "Unauthorized"}, 401], whatever its body
    is and whether it is JSON or not: the body is not read, no device is
    opened and no printer method is called. *)
Theorem X3_unauthorized_request :
  forall (w : world) (req : request) (t : list event),
    has_token w req = false ->
    exists evs,
      handle_print w req t
      = (Return (Response false "Unauthorized" 401), (t ++ evs)%list)
      /\ filter is_device_event evs = [].
Proof.
  intros w req t Hno.
  destruct (validate_token_result w req t) as (evs & Hrun & Hquiet).
  exists evs. split; [| exact Hquiet].
  unfold handle_print. rewrite (bind_Return _ _ _ _ _ Hrun), Hno. reflexivity.
Qed.

Lemma X3_witness :
  has_token ideal_world (Request (Some "Bearer guess") true (Return example_invoice))
  = false
  /\ exists evs,
       handle_print ideal_world
         (Request (Some "Bearer guess") true (Return example_invoice)) []
       = (Return (Response false "Unauthorized" 401), ([] ++ evs)%list)
       /\ filter is_device_event evs = [].
Proof.
  split; [reflexivity |].
  exact (X3_unauthorized_request ideal_world
           (Request (Some "Bearer guess") true (Return example_invoice)) []
           eq_refl).
Defined.

(** X4. A request with the expected token that is not JSON is answered
    [{"success": False, "message": "Request must be JSON"}, 400]; its body
    is not parsed, so even a body whose parsing would raise gets this
    answer, and no device is touched. *)
Theorem X4_not_json_request :
  forall (w : world) (req : request) (t : list event),
    has_token w req = true ->
    is_json req = false ->
    exists evs,
      handle_print w req t
      = (Return (Response false "Request must be JSON" 400), (t ++ evs)%list)
      /\ filter is_device_event evs = [].
Proof.
  intros w req t Hyes Hjson.
  destruct (validate_token_result w req t) as (evs & Hrun & Hquiet).
  exists evs. split; [| exact Hquiet].
  unfold handle_print. rewrite (bind_Return _ _ _ _ _ Hrun), Hyes, Hjson.
  reflexivity.
Qed.

Lemma X4_witness :
  has_token ideal_world
    (Request (Some "Bearer your-secret-token-here") false
       (Raise (Exn LibraryError "400 Bad Request")))
  = true
  /\ exists evs,
       handle_print ideal_world
         (Request (Some "Bearer your-secret-token-here") false
            (Raise (Exn LibraryError "400 Bad Request"))) []
       = (Return (Response false "Request must be JSON" 400), ([] ++ evs)%list)
       /\ filter is_device_event evs = [].
Proof.
  split; [reflexivity |].
  exact (X4_not_json_request ideal_world
           (Request (Some "Bearer your-secret-token-here") false
              (Raise (Exn LibraryError "400 Bad Request"))) []
           eq_refl eq_refl).
Defined.

Lemma check_required_all_present kvs fields t :
  (forall f, In f fields -> Py.lookup f kvs <> None) ->
  check_required (VDict kvs) fields t = (Return None, t).
Proof.
  induction fields as [| g fields IH]; intros Hall.
  - reflexivity.
  - destruct (Py.lookup g kvs) as [v |] eqn:Eg.
    + rewrite (check_required_present _ _ _ _ _ Eg).
      apply IH. intros f Hf. apply Hall. right. exact Hf.
    + exfalso. apply (Hall g (or_introl eq_refl)). exact Eg.
Qed.

(** X5. A request with the expected token and a JSON object that has the six
    required fields is handed to [print_invoice], and the answer mirrors its
    result: the same success flag and message, with status 200 for a
    success and 500 for a failure. An exception that leaves [print_invoice]
    leaves the handler as well. *)
Theorem X5_validated_request_is_printed :
  forall (w : world) (req : request) (kvs : list (string * value))
         (t t1 : list event),
    validate_token w req t = (Return true, t1) ->
    is_json req = true ->
    get_json req = Return (VDict kvs) ->
    (forall f, In f required_fields -> Py.lookup f kvs <> None) ->
    handle_print w req t
    = match print_invoice w (VDict kvs) t1 with
      | (Return (ok, msg), t') =>
          (Return (Response ok msg (if ok then 200 else 500)), t')
      | (Raise e, t') => (Raise e, t')
      end.
Proof.
  intros w req kvs t t1 Htoken Hjson Hbody Hall.
  unfold handle_print. rewrite (bind_Return _ _ _ _ _ Htoken).
  rewrite Hjson, Hbody. cbv beta iota delta [negb].
  rewrite (bind_lift_Return _ _ _ _ eq_refl).
  rewrite (bind_Return _ _ _ _ _
             (check_required_all_present kvs required_fields t1 Hall)).
  unfold bind. destruct (print_invoice w (VDict kvs) t1) as [[[ok msg] | e] t'];
    reflexivity.
Qed.

Lemma X5_witness :
  (forall f, In f required_fields -> Py.lookup f example_fields <> None)
  /\ fst (handle_print ideal_world (authorized_request example_invoice) [])
     = Return (Response true "Invoice printed successfully" 200)
  /\ fst (handle_print unplugged_world (authorized_request example_invoice) [])
     = Return (Response false
                 "USB device not found (No supported USB printer found)" 500).
Proof.
  assert (Hall : forall f, In f required_fields ->
                           Py.lookup f example_fields <> None).
  { intros f Hf. simpl in Hf.
    repeat (destruct Hf as [<- | Hf]; [discriminate |]). destruct Hf. }
  split; [exact Hall |]. split.
  - rewrite (X5_validated_request_is_printed ideal_world
               (authorized_request example_invoice) example_fields [] _
               eq_refl eq_refl eq_refl Hall).
    vm_compute. reflexivity.
  - rewrite (X5_validated_request_is_printed unplugged_world
               (authorized_request example_invoice) example_fields [] _
               eq_refl eq_refl eq_refl Hall).
    vm_compute. reflexivity.
Defined.

(** X6. A JSON body that is no container ([null], a boolean, a number) has
    no membership test: for a request with the expected token the handler
    raises the [TypeError] of [field not in data] at the first required
    field instead of answering, and touches no device. *)
Theorem X6_scalar_body_raises :
  forall (w : world) (req : request) (data : value) (t : list event),
    has_token w req = true ->
    is_json req = true ->
    get_json req = Return data ->
    is_scalar data = true ->
    exists evs,
      handle_print w req t
      = (Raise (Exn TypeError ("argument of type "
                               ++ Py.quote (Py.type_name data)
                               ++ " is not iterable")),
         (t ++ evs)%list)
      /\ filter is_device_event evs = [].
Proof.
  intros w req data t Hyes Hjson Hbody Hscalar.
  destruct (validate_token_result w req t) as (evs & Hrun & Hquiet).
  exists evs. split; [| exact Hquiet].
  unfold handle_print. rewrite (bind_Return _ _ _ _ _ Hrun), Hyes, Hjson, Hbody.
  destruct data; try discriminate Hscalar; reflexivity.
Qed.

Lemma X6_witness :
  is_scalar VNone = true
  /\ exists evs,
       handle_print ideal_world (authorized_request VNone) []
       = (Raise (Exn TypeError "argument of type 'NoneType' is not iterable"),
          ([] ++ evs)%list)
       /\ filter is_device_event evs = [].
Proof.
  split; [reflexivity |].
  exact (X6_scalar_body_raises ideal_world (authorized_request VNone) VNone []
           eq_refl eq_refl eq_refl eq_refl).
Defined.

(** ** What a job does to the device *)

Ltac emits_with tac :=
  lazymatch goal with
  | |- emits _ (bind _ _) => apply emits_bind; [| intros ?]
  | |- emits _ (ret _) => apply emits_ret
  | |- emits _ (raise _) => apply emits_raise
  | |- emits _ (lift _) => apply emits_lift
  | |- emits _ (logger _ _) => apply emits_logger; tac
  | |- emits _ (method _ _ _) => apply emits_method; tac
  | |- emits _ (text _ _ _) => apply emits_method; tac
  | |- emits _ (Usb _ _ _) => apply emits_Usb; tac
  | |- emits _ (for_each _ _) => apply emits_for_each; intros ?
  | |- emits _ (comprehension _ _) => apply emits_comprehension; intros ?
  | |- emits _ (try_except _ _ _) => apply emits_try_except; [| intros ?]
  | |- emits _ (if ?b then _ else _) => destruct b
  | |- emits _ (let (_, _) := ?x in _) => destruct x
  end.

Ltac unfold_receipt :=
  unfold print_receipt, print_header, print_contact, print_address,
    print_invoice_info, print_table_header, print_items, print_item,
    name_parts, print_part, print_totals, print_terms, print_invoice_number,
    print_barcode, print_qr_code, print_footer, generate_barcode,
    generate_qr_code.

Lemma print_phase_printed_on w p data :
  emits (printed_on p) (print_phase w p data).
Proof.
  unfold print_phase. unfold_receipt.
  repeat emits_with ltac:(simpl; auto).
Qed.

(** X7. Once a printer [p] has been located, everything the job does up to
    its last step is a log line or a call on [p] that is not [close]: the
    job opens no further device and calls no other printer. Its last step,
    on success and on every failure alike, is the one call of [close] on
    [p]. *)
Theorem X7_located_job_uses_one_handle :
  forall (w : world) (data : value) (p : usb_printer) (ti t0 : list event),
    detect_printer w ti = (Return p, t0) ->
    exists evs,
      snd (print_invoice w data ti)
      = (t0 ++ evs ++ [EvPrinter p CallClose])%list
      /\ Forall (printed_on p) evs.
Proof.
  intros w data p ti t0 Hdetect.
  rewrite (print_invoice_located _ _ _ _ _ Hdetect). unfold try_finally.
  destruct (print_phase_printed_on w p data t0) as (evs & E & F).
  destruct (print_phase w p data t0) as [r t1]. simpl in E. subst t1.
  exists evs. split; [| exact F].
  destruct (method w p CallClose (t0 ++ evs)%list) as [[[] | e] t2] eqn:Hclose;
    apply method_trace in Hclose; subst t2; simpl;
    rewrite <- app_assoc; reflexivity.
Qed.

Lemma X7_witness :
  detect_printer image_fails_world []
  = (Return bixolon, snd (detect_printer image_fails_world []))
  /\ exists evs,
       snd (print_invoice image_fails_world example_invoice [])
       = (snd (detect_printer image_fails_world []) ++ evs
            ++ [EvPrinter bixolon CallClose])%list
       /\ Forall (printed_on bixolon) evs.
Proof.
  split; [reflexivity |].
  exact (X7_located_job_uses_one_handle image_fails_world example_invoice
           bixolon [] _ eq_refl).
Defined.

Lemma detect_printer_no_printer_call w t :
  exists evs,
    snd (detect_printer w t) = (t ++ evs)%list
    /\ filter is_printer_event evs = [].
Proof.
  destruct (detect_printer_from_no_printer_call w (printer_vendors (CONFIG w)) t)
    as (evs & E & F).
  exists evs. split; [exact E |].
  clear E. induction F as [| ev evs H _ IH]; simpl.
  - reflexivity.
  - unfold no_printer_call in H. rewrite H. exact IH.
Qed.

(** ** What a refusal of the validation looks like *)

Lemma check_required_refusal data fields t r t' :
  check_required data fields t = (Return (Some r), t') ->
  success r = false /\ status_code r = 400.
Proof.
  revert t. induction fields as [| g fields IH]; intros t H.
  - discriminate H.
  - cbn [check_required] in H.
    apply bind_inv_Return in H. destruct H as (present & t1 & _ & H).
    destruct present; cbv beta iota delta [negb] in H.
    + exact (IH _ H).
    + unfold ret in H. injection H as <- _. split; reflexivity.
Qed.

(** ** Wrapping a name loses nothing *)

Lemma drop_length n s : String.length (drop n s) = (String.length s - n)%nat.
Proof.
  revert s. induction n as [| n IH]; intros [| c s]; simpl; try lia.
  apply IH.
Qed.

Lemma substring_of_empty i n : substring i n "" = "".
Proof. destruct i, n; reflexivity. Qed.

Lemma substring_drop n i m s :
  substring (n + i) m s = substring i m (drop n s).
Proof.
  revert s. induction n as [| n IH]; intros s; simpl.
  - reflexivity.
  - destruct s as [| c s]; [| apply IH].
    rewrite !substring_of_empty. reflexivity.
Qed.

Lemma take_drop n s : substring 0 n s ++ drop n s = s.
Proof.
  revert s. induction n as [| n IH]; intros [| c s]; simpl; try reflexivity.
  rewrite IH. reflexivity.
Qed.

Lemma slice_length i n s :
  String.length (PyStr.slice i n s) = Nat.min n (String.length s - i).
Proof.
  unfold PyStr.slice. revert i n.
  induction s as [| c s IH]; intros [| i] [| n]; simpl; try reflexivity.
  - rewrite (IH 0%nat n). rewrite Nat.sub_0_r. reflexivity.
  - rewrite (IH i 0%nat). reflexivity.
  - rewrite (IH i (S n)). reflexivity.
Qed.

Lemma join_chunks c s :
  (String.length s <= 20 * c)%nat ->
  join_parts (map (fun k => VStr (PyStr.slice (20 * k) 20 s)) (seq 0 c)) = s.
Proof.
  revert s. induction c as [| c IH]; intros s Hlen.
  - destruct s; [reflexivity | simpl in Hlen; lia].
  - cbn [seq map join_parts]. rewrite <- seq_shift, map_map.
    rewrite (map_ext _ (fun k => VStr (PyStr.slice (20 * k) 20 (drop 20 s)))).
    + rewrite IH by (rewrite drop_length; lia).
      apply (take_drop 20 s).
    + intros k. unfold PyStr.slice.
      replace (20 * S k)%nat with (20 + 20 * k)%nat by lia.
      rewrite substring_drop. reflexivity.
Qed.

Lemma chunk_count_covers L : (L <= 20 * ((L + 19) / 20))%nat.
Proof.
  pose proof (Nat.mul_succ_div_gt (L + 19) 20). lia.
Qed.

Lemma chunk_starts_inside L k :
  (k < (L + 19) / 20)%nat -> (20 * k < L)%nat.
Proof.
  intros Hk. pose proof (Nat.Div0.mul_div_le (L + 19) 20). lia.
Qed.

(** X10. The parts [print_item] cuts a name into are a partition of the
    name: put together again in order they give the name back, character
    for character; there are [ceil(L/20)] of them, none is empty and none is
    longer than 20 characters. Computing them touches nothing outside. *)
Theorem X10_name_parts_partition :
  forall (item : value) (nm : string) (t : list event),
    Py.getitem item "name" = Return (VStr nm) ->
    exists parts,
      name_parts item t = (Return parts, t)
      /\ join_parts parts = nm
      /\ List.length parts = ((String.length nm + 19) / 20)%nat
      /\ (forall part, In part parts ->
            exists s, part = VStr s
                      /\ (1 <= String.length s <= 20)%nat).
Proof.
  intros item nm t Hname.
  exists (map (fun k => VStr (PyStr.slice (20 * k) 20 nm))
            (seq 0 ((String.length nm + 19) / 20))).
  split; [apply name_parts_str; exact Hname |].
  split; [apply join_chunks, chunk_count_covers |].
  split; [rewrite length_map, length_seq; reflexivity |].
  intros part Hin. apply in_map_iff in Hin. destruct Hin as (k & <- & Hk).
  apply in_seq in Hk. eexists. split; [reflexivity |].
  rewrite slice_length.
  pose proof (chunk_starts_inside (String.length nm) k). lia.
Qed.

Lemma X10_witness :
  Py.getitem long_item "name" = Return (VStr long_name)
  /\ exists parts,
       name_parts long_item [] = (Return parts, [])
       /\ join_parts parts = long_name
       /\ List.length parts = ((String.length long_name + 19) / 20)%nat
       /\ (forall part, In part parts ->
             exists s, part = VStr s /\ (1 <= String.length s <= 20)%nat).
Proof.
  split; [reflexivity |].
  exact (X10_name_parts_partition long_item long_name [] eq_refl).
Defined.

(** ** The item block as a whole *)

Lemma string_app_assoc (a b c : string) : (a ++ b) ++ c = a ++ b ++ c.
Proof. induction a; simpl; congruence. Qed.

Lemma item_rows_count nm numbers :
  List.length (item_rows nm numbers) = ((String.length nm + 19) / 20)%nat.
Proof.
  unfold item_rows, chunks_of.
  destruct ((String.length nm + 19) / 20)%nat as [| c]; simpl.
  - reflexivity.
  - rewrite !length_map, length_seq. reflexivity.
Qed.

Lemma print_item_rows w p item nm numbers t :
  printer_never_fails w p ->
  well_formed_item item nm numbers ->
  print_item w p item t
  = (Return tt,
     (t ++ map (fun row => EvPrinter p (CallText row)) (item_rows nm numbers))%list).
Proof.
  intros Hprinter (quantity & price & total & xq & xp & xt
                   & Hname & Hq & Hp & Hxq & Hxp & Hmul & Hxt & ->).
  unfold print_item.
  rewrite (bind_Return _ _ _ _ _ (name_parts_str item nm t Hname)).
  unfold Py.enumerate. rewrite enumerate_from_map_seq.
  set (numbers := PyStr.rjust 4 (PyNum.format_2f xq)
                  ++ PyStr.rjust 8 (PyNum.format_2f xp)
                  ++ PyStr.rjust 8 (PyNum.format_2f xt)).
  set (row := fun ip : nat * value =>
         match ip with
         | (k, VStr s) =>
             if (k =? 0)%nat
             then PyStr.ljust 20 s ++ numbers ++ PyStr.newline
             else PyStr.ljust 20 s ++ PyStr.newline
         | _ => ""
         end).
  rewrite (for_each_rows p _ _ row).
  - f_equal. f_equal. unfold item_rows, chunks_of.
    destruct ((String.length nm + 19) / 20)%nat as [| c]; [reflexivity |].
    cbn [seq map]. f_equal. rewrite !map_map.
    apply map_ext_in. intros k Hk. apply in_seq in Hk. unfold row.
    destruct (Nat.eqb_spec k 0); [lia | reflexivity].
  - intros [k part] t' Hin. apply in_map_iff in Hin.
    destruct Hin as (k' & Heq & _). inversion Heq; subst k' part.
    unfold row, print_part.
    destruct (Nat.eqb_spec k 0) as [-> | Hk].
    + cbn [Py.format_ljust].
      rewrite (bind_lift_Return _ _ _ _ eq_refl).
      rewrite (bind_lift_Return _ _ _ _ Hq).
      unfold Py.format_f2. rewrite Hxq.
      rewrite (bind_lift_Return _ _ _ _ eq_refl).
      rewrite (bind_lift_Return _ _ _ _ Hp). rewrite Hxp.
      rewrite (bind_lift_Return _ _ _ _ eq_refl).
      rewrite (bind_lift_Return _ _ _ _ Hq).
      rewrite (bind_lift_Return _ _ _ _ Hp).
      rewrite (bind_lift_Return _ _ _ _ Hmul). rewrite Hxt.
      rewrite (bind_lift_Return _ _ _ _ eq_refl).
      rewrite (text_ok _ _ _ _ Hprinter). unfold numbers.
      rewrite !string_app_assoc. reflexivity.
    + cbn [Py.format_ljust].
      rewrite (bind_lift_Return _ _ _ _ eq_refl).
      apply text_ok. exact Hprinter.
Qed.

Lemma for_each_items_rows w p items descs t :
  printer_never_fails w p ->
  Forall2 (fun item d => well_formed_item item (fst d) (snd d)) items descs ->
  for_each items (print_item w p) t
  = (Return tt,
     (t ++ map (fun row => EvPrinter p (CallText row))
             (flat_map (fun d => item_rows (fst d) (snd d)) descs))%list).
Proof.
  intros Hprinter Hall. revert t.
  induction Hall as [| item d items descs Hitem _ IH]; intros t.
  - simpl. rewrite app_nil_r. reflexivity.
  - cbn [for_each flat_map].
    rewrite (bind_Return _ _ _ _ _
               (print_item_rows w p item _ _ t Hprinter Hitem)).
    rewrite IH. rewrite map_app, app_assoc. reflexivity.
Qed.

(** X11. With a printer that answers every call and items that all have a
    string name and numbers the [f] format accepts, the item block prints
    the rows of the items one item after the other, in the order of the
    request: for each item its name in 20-character chunks, the numeric
    columns on the first chunk's row. The block has
    [ceil(L1/20) + ... + ceil(Ln/20)] rows; an item with a name of at most 20
    characters has one row, an item with an empty name none. *)
Theorem X11_item_block_in_order :
  forall (w : world) (p : usb_printer) (kvs : list (string * value))
         (items : list value) (descs : list (string * string))
         (t : list event),
    printer_never_fails w p ->
    Py.lookup "items" kvs = Some (VList items) ->
    Forall2 (fun item d => well_formed_item item (fst d) (snd d)) items descs ->
    print_items w p (VDict kvs) t
    = (Return tt,
       (t ++ map (fun row => EvPrinter p (CallText row))
               (flat_map (fun d => item_rows (fst d) (snd d)) descs))%list)
    /\ List.length (flat_map (fun d => item_rows (fst d) (snd d)) descs)
       = list_sum (map (fun d => ((String.length (fst d) + 19) / 20)%nat) descs).
Proof.
  intros w p kvs items descs t Hprinter Hitems Hall. split.
  - unfold print_items, Py.getitem. rewrite Hitems.
    rewrite (bind_lift_Return _ _ _ _ eq_refl).
    rewrite (bind_lift_Return _ _ _ _ (eq_refl : Py.iter (VList items) = _)).
    apply for_each_items_rows; assumption.
  - clear. induction descs as [| d descs IH]; simpl.
    + reflexivity.
    + rewrite length_app, item_rows_count, IH. reflexivity.
Qed.

Lemma X11_witness :
  printer_never_fails ideal_world bixolon
  /\ Forall2 (fun item d => well_formed_item item (fst d) (snd d)) three_items
       [ (long_name, "2.00  500.00 1000.00");
         ("Scarf", "1.00  250.00  250.00");
         ("", "3.00  250.00  750.00") ]
  /\ print_items ideal_world bixolon (VDict three_items_fields) []
     = (Return tt,
        map (fun row => EvPrinter bixolon (CallText row))
          [ "Premium Cotton Forma2.00  500.00 1000.00" ++ PyStr.newline;
            "l Shirt Slim Fit Nav" ++ PyStr.newline;
            "y Blue              " ++ PyStr.newline;
            "Scarf               1.00  250.00  250.00" ++ PyStr.newline ]).
Proof.
  assert (Hall : Forall2 (fun item d => well_formed_item item (fst d) (snd d))
                   three_items
                   [ (long_name, "2.00  500.00 1000.00");
                     ("Scarf", "1.00  250.00  250.00");
                     ("", "3.00  250.00  750.00") ]).
  { repeat constructor;
      (do 6 eexists; repeat split; try reflexivity; vm_compute; reflexivity). }
  split; [apply ideal_printer_never_fails | split; [exact Hall |]].
  destruct (X11_item_block_in_order ideal_world bixolon three_items_fields
              three_items _ [] (ideal_printer_never_fails bixolon) eq_refl Hall)
    as [Hrun _].
  rewrite Hrun. vm_compute. reflexivity.
Defined.

(** ** The totals block *)

(** X12. With a printer that answers every call and a subtotal, a discount
    and a total that the [f] format accepts, the totals block prints three
    rows, each a label padded to 20 columns followed by the amount with two
    decimals right-aligned in 12 columns: [Subtotal:], [Discount:], and,
    between switching bold on and off again, [GRAND TOTAL:]. The discount
    is the one of the request or, when the request has none, [0.0], which
    prints as [0.00]. *)
Theorem X12_totals_block :
  forall (w : world) (p : usb_printer) (kvs : list (string * value))
         (t : list event) (subtotal total : value) (xs xd xt : spec_float),
    printer_never_fails w p ->
    Py.lookup "subtotal" kvs = Some subtotal ->
    Py.lookup "total" kvs = Some total ->
    Py.float_for_format subtotal = Return xs ->
    Py.float_for_format
      (supplied_or (Py.lookup "discount" kvs) (VFloat (S754_zero false)))
    = Return xd ->
    Py.float_for_format total = Return xt ->
    print_totals w p (VDict kvs) t
    = (Return tt,
       (t ++ map (EvPrinter p)
               [ CallText ("Subtotal:           "
                           ++ PyStr.rjust 12 (PyNum.format_2f xs)
                           ++ PyStr.newline);
                 CallText ("Discount:           "
                           ++ PyStr.rjust 12 (PyNum.format_2f xd)
                           ++ PyStr.newline);
                 CallSet None (Some true);
                 CallText ("GRAND TOTAL:        "
                           ++ PyStr.rjust 12 (PyNum.format_2f xt)
                           ++ PyStr.newline);
                 CallSet None (Some false) ])%list)
    /\ (Py.lookup "discount" kvs = None ->
        PyStr.rjust 12 (PyNum.format_2f xd) = "        0.00").
Proof.
  intros w p kvs t subtotal total xs xd xt Hprinter Hsub Htot Hxs Hxd Hxt.
  split.
  - unfold print_totals, Py.getitem. rewrite Hsub, Htot.
    rewrite (bind_lift_Return _ _ _ _ eq_refl).
    unfold Py.format_f2 at 1. rewrite Hxs.
    rewrite (bind_lift_Return _ _ _ _ eq_refl).
    rewrite (bind_Return _ _ _ _ _ (text_ok _ _ _ _ Hprinter)).
    assert (Hget : Py.get (VDict kvs) "discount" (VFloat (S754_zero false))
                   = Return (supplied_or (Py.lookup "discount" kvs)
                               (VFloat (S754_zero false)))).
    { unfold Py.get, supplied_or.
      destruct (Py.lookup "discount" kvs); reflexivity. }
    rewrite (bind_lift_Return _ _ _ _ Hget).
    unfold Py.format_f2 at 1. rewrite Hxd.
    rewrite (bind_lift_Return _ _ _ _ eq_refl).
    rewrite (bind_Return _ _ _ _ _ (text_ok _ _ _ _ Hprinter)).
    rewrite (bind_Return _ _ _ _ _ (method_ok _ _ _ _ (Hprinter _ _))).
    rewrite (bind_lift_Return _ _ _ _ eq_refl).
    unfold Py.format_f2 at 1. rewrite Hxt.
    rewrite (bind_lift_Return _ _ _ _ eq_refl).
    rewrite (bind_Return _ _ _ _ _ (text_ok _ _ _ _ Hprinter)).
    rewrite (method_ok _ _ _ _ (Hprinter _ _)).
    repeat rewrite <- app_assoc. reflexivity.
  - intros Hnone. rewrite Hnone in Hxd. simpl in Hxd.
    injection Hxd as <-. reflexivity.
Qed.

Lemma X12_witness :
  printer_never_fails ideal_world bixolon
  /\ text_rows (snd (print_totals ideal_world bixolon (VDict example_fields) []))
     = [ "Subtotal:                1000.00" ++ PyStr.newline;
         "Discount:                   0.00" ++ PyStr.newline;
         "GRAND TOTAL:             1000.00" ++ PyStr.newline ]
  /\ text_rows (snd (print_totals ideal_world bixolon (VDict discount_fields) []))
     = [ "Subtotal:                1000.00" ++ PyStr.newline;
         "Discount:                   0.50" ++ PyStr.newline;
         "GRAND TOTAL:             1000.00" ++ PyStr.newline ].
Proof.
  split; [apply ideal_printer_never_fails |]. split.
  - destruct (X12_totals_block ideal_world bixolon example_fields [] _ _ _ _ _
                (ideal_printer_never_fails bixolon)
                eq_refl eq_refl eq_refl eq_refl eq_refl) as [Hrun _].
    rewrite Hrun. vm_compute. reflexivity.
  - destruct (X12_totals_block ideal_world bixolon discount_fields [] _ _ _ _ _
                (ideal_printer_never_fails bixolon)
                eq_refl eq_refl eq_refl eq_refl eq_refl) as [Hrun _].
    rewrite Hrun. vm_compute. reflexivity.
Defined.

(** ** A barcode that cannot be made *)

Lemma aborts_bind_left {A B : Type} (P : event -> Prop) (m : M A)
  (k : A -> M B) :
  aborts P m -> aborts P (bind m k).
Proof.
  intros Hm t. destruct (Hm t) as (e & evs & E & F).
  exists e, evs. split; [| exact F]. unfold bind. rewrite E. reflexivity.
Qed.

Lemma aborts_bind_right {A B : Type} (P : event -> Prop) (m : M A)
  (k : A -> M B) :
  emits P m -> (forall a, aborts P (k a)) -> aborts P (bind m k).
Proof.
  intros Hm Hk t. destruct (Hm t) as (evs & E & F). unfold bind.
  destruct (m t) as [[a | e] t1]; simpl in E; subst t1.
  - destruct (Hk a (t ++ evs)%list) as (e & evs' & E' & F').
    exists e, (evs ++ evs')%list. rewrite E', app_assoc.
    split; [reflexivity | apply Forall_app; auto].
  - exists e, evs. auto.
Qed.

Lemma print_barcode_aborts w p data n e :
  Py.getitem data "invoice_number" = Return n ->
  barcode_code128 w n = Raise e ->
  aborts no_image_no_cut (print_barcode w p data).
Proof.
  intros Hn He t. exists e, []. split; [| constructor].
  unfold print_barcode, generate_barcode.
  rewrite (bind_lift_Return _ _ _ _ Hn). unfold bind, lift. rewrite He.
  rewrite app_nil_r. reflexivity.
Qed.

(** X13. When the barcode library refuses the invoice number, the receipt
    cannot be completed in any world: the print job always ends with an
    exception before or at the barcode step, so it sends no image, neither
    the barcode nor the QR code, and never cuts the paper; whatever text
    came before is already with the printer. *)
Theorem X13_barcode_refused :
  forall (w : world) (p : usb_printer) (data n : value) (e : exn)
         (t : list event),
    Py.getitem data "invoice_number" = Return n ->
    barcode_code128 w n = Raise e ->
    exists e' evs,
      print_receipt w p data t = (Raise e', (t ++ evs)%list)
      /\ Forall no_image_no_cut evs.
Proof.
  intros w p data n e t Hn He. revert t.
  change (aborts no_image_no_cut (print_receipt w p data)).
  unfold print_receipt.
  do 15 (apply aborts_bind_right;
         [ unfold print_header, print_contact, print_address,
             print_invoice_info, print_table_header, print_items, print_item,
             name_parts, print_part, print_totals, print_terms,
             print_invoice_number;
           repeat emits_with ltac:(exact I)
         | intros _ ]).
  apply aborts_bind_left.
  exact (print_barcode_aborts w p data n e Hn He).
Qed.

Lemma X13_witness :
  barcode_code128 no_barcode_world (VStr "INV-1001")
  = Raise illegal_character_error
  /\ fst (print_invoice no_barcode_world example_invoice [])
     = Return (false, "Code128 can only contain ASCII characters")
  /\ exists e' evs,
       print_receipt no_barcode_world bixolon example_invoice []
       = (Raise e', ([] ++ evs)%list)
       /\ Forall no_image_no_cut evs.
Proof.
  split; [reflexivity |]. split; [vm_compute; reflexivity |].
  exact (X13_barcode_refused no_barcode_world bixolon example_invoice
           (VStr "INV-1001") illegal_character_error [] eq_refl eq_refl).
Defined.

(** ** The status endpoint *)

Lemma filter_printer_event_app evs1 evs2 :
  filter is_printer_event (evs1 ++ evs2)%list
  = (filter is_printer_event evs1 ++ filter is_printer_event evs2)%list.
Proof. apply filter_app. Qed.

Lemma device_quiet_no_printer_call evs :
  filter is_device_event evs = [] -> filter is_printer_event evs = [].
Proof.
  induction evs as [| ev evs IH]; simpl; [reflexivity |].
  destruct ev as [v pid | q c | lv msg]; simpl; try discriminate.
  exact IH.
Qed.

(** X14. A status request never prints. In every world and for every
    request, the printer calls it makes are none at all, or a single
    [close]; and when it answers with [success], that one [close] has been
    made and the answer is
    [{"success": True, "message": "Printer service is running",
      "system": <platform>, "printer": "Connected"}] with status 200. *)
Theorem X14_status_never_prints :
  forall (w : world) (platform_system : string) (req : request)
         (t : list event),
    exists evs,
      snd (service_status w platform_system req t) = (t ++ evs)%list
      /\ (filter is_printer_event evs = []
          \/ exists p, filter is_printer_event evs = [EvPrinter p CallClose])
      /\ (forall resp,
            fst (service_status w platform_system req t) = Return resp ->
            status_success resp = true ->
            resp = StatusResponse true "Printer service is running"
                     (Some platform_system) (Some "Connected") 200
            /\ exists p, filter is_printer_event evs = [EvPrinter p CallClose]).
Proof.
  intros w platform_system req t. unfold service_status.
  destruct (validate_token_result w req t) as (evs0 & Hrun & Hquiet0).
  apply device_quiet_no_printer_call in Hquiet0.
  rewrite (bind_Return _ _ _ _ _ Hrun).
  destruct (has_token w req); cbv beta iota delta [negb].
  - unfold try_except, bind, method, ret.
    destruct (detect_printer_no_printer_call w (t ++ evs0)%list)
      as (evs1 & E1 & Hquiet1).
    destruct (detect_printer w (t ++ evs0)%list) as [[p | e] t1];
      simpl in E1; subst t1.
    + destruct (printer_method w ((t ++ evs0) ++ evs1)%list p CallClose)
        as [e |].
      * exists (evs0 ++ evs1 ++ [EvPrinter p CallClose])%list.
        destruct (is_USBNotFoundError e); cbv beta iota delta [fst snd ret];
          (split; [repeat rewrite <- app_assoc; reflexivity |]);
          (split; [right; exists p;
                   rewrite !filter_printer_event_app, Hquiet0, Hquiet1;
                   reflexivity |]);
          intros resp Hresp Hs; [| discriminate Hresp].
        injection Hresp as <-. discriminate Hs.
      * exists (evs0 ++ evs1 ++ [EvPrinter p CallClose])%list.
        cbn [fst snd].
        split; [repeat rewrite <- app_assoc; reflexivity |].
        assert (Hcalls : filter is_printer_event
                           (evs0 ++ evs1 ++ [EvPrinter p CallClose])%list
                         = [EvPrinter p CallClose])
          by (rewrite !filter_printer_event_app, Hquiet0, Hquiet1; reflexivity).
        split; [right; exists p; exact Hcalls |].
        intros resp Hresp _. injection Hresp as <-.
        split; [reflexivity | exists p; exact Hcalls].
    + exists (evs0 ++ evs1)%list.
      destruct (is_USBNotFoundError e); cbv beta iota delta [fst snd ret];
        (split; [repeat rewrite <- app_assoc; reflexivity |]);
        (split; [left; rewrite filter_printer_event_app, Hquiet0, Hquiet1;
                 reflexivity |]);
        intros resp Hresp Hs; [| discriminate Hresp].
      injection Hresp as <-. discriminate Hs.
  - exists evs0. cbn [fst snd]. split; [reflexivity |].
    split; [left; exact Hquiet0 |].
    intros resp Hresp Hs. injection Hresp as <-. discriminate Hs.
Qed.

(** X15. When every printer of the table is absent, a status request with
    the expected token is answered with status 503:
    [{"success": False, "message": str(e), "system": <platform>,
      "printer": "Not connected"}], where [e] is the not-found error of
    [detect_printer]; each entry has been tried once and no printer method
    has been called. *)
Theorem X15_status_not_connected :
  forall (w : world) (platform_system : string) (req : request)
         (t t1 : list event),
    validate_token w req t = (Return true, t1) ->
    (forall u, In u (printer_vendors (CONFIG w)) -> not_present w u) ->
    service_status w platform_system req t
    = (Return (StatusResponse false
                 (USBNotFoundError_str w "No supported USB printer found")
                 (Some platform_system) (Some "Not connected") 503),
       (t1 ++ [EvUsb 0x0483 0x5743; EvUsb 0x04b8 0x0202; EvUsb 0x067b 0x2305])%list).
Proof.
  intros w platform_system req t t1 Htoken Habsent.
  unfold service_status. rewrite (bind_Return _ _ _ _ _ Htoken).
  cbv beta iota delta [negb].
  assert (Hd : detect_printer w t1
               = (Raise (Exn USBNotFoundError
                           (USBNotFoundError_str w "No supported USB printer found")),
                  (t1 ++ [EvUsb 0x0483 0x5743; EvUsb 0x04b8 0x0202;
                          EvUsb 0x067b 0x2305])%list)).
  { unfold detect_printer.
    rewrite <- (app_nil_r (printer_vendors (CONFIG w))).
    rewrite detect_printer_from_skip by exact Habsent. reflexivity. }
  unfold try_except, bind at 1. rewrite Hd. reflexivity.
Qed.

Lemma X15_witness :
  (forall u, In u (printer_vendors (CONFIG unplugged_world)) ->
             not_present unplugged_world u)
  /\ fst (service_status unplugged_world "Linux"
            (authorized_request VNone) [])
     = Return (StatusResponse false
                 "USB device not found (No supported USB printer found)"
                 (Some "Linux") (Some "Not connected") 503).
Proof.
  assert (Habsent : forall u, In u (printer_vendors (CONFIG unplugged_world)) ->
                              not_present unplugged_world u).
  { intros u _ t. exists not_found_error. split; reflexivity. }
  split; [exact Habsent |].
  rewrite (X15_status_not_connected unplugged_world "Linux"
             (authorized_request VNone) [] _ eq_refl Habsent).
  reflexivity.
Defined.

(** ** A body that is an array *)

Lemma check_required_list l fields t :
  (forall f, In f fields -> In (VStr f) l) ->
  check_required (VList l) fields t = (Return None, t).
Proof.
  induction fields as [| g fields IH]; intros Hall.
  - reflexivity.
  - cbn [check_required]. unfold bind, lift, Py.contains.
    assert (Hg : existsb (fun v => match v with
                                   | VStr s => String.eqb s g
                                   | _ => false
                                   end) l = true).
    { apply existsb_exists. exists (VStr g).
      split; [apply Hall; left; reflexivity | apply String.eqb_refl]. }
    rewrite Hg. cbv beta iota delta [negb].
    apply IH. intros f Hf. apply Hall. right. exact Hf.
Qed.

(** X16. The handler tests only that the six field names are members of the
    body, not that the body is an object. A JSON array that contains the six
    names as strings passes the validation: the handler locates a printer,
    selects centered bold, and only then fails on [data.get]; it logs the
    failure, releases the handle and answers with status 500 and the text of
    the [AttributeError]. *)
Theorem X16_array_body_passes_validation :
  forall (w : world) (req : request) (l : list value) (p : usb_printer)
         (t t1 t2 : list event),
    validate_token w req t = (Return true, t1) ->
    is_json req = true ->
    get_json req = Return (VList l) ->
    (forall f, In f required_fields -> In (VStr f) l) ->
    detect_printer w t1 = (Return p, t2) ->
    printer_never_fails w p ->
    handle_print w req t
    = (Return (Response false "'list' object has no attribute 'get'" 500),
       (t2 ++ [ EvPrinter p (CallSet (Some AlignCenter) (Some true));
                EvLog ERROR "Printing failed: 'list' object has no attribute 'get'";
                EvPrinter p CallClose ])%list).
Proof.
  intros w req l p t t1 t2 Htoken Hjson Hbody Hall Hdetect Hprinter.
  unfold handle_print. rewrite (bind_Return _ _ _ _ _ Htoken).
  rewrite Hjson, Hbody. cbv beta iota delta [negb].
  rewrite (bind_lift_Return _ _ _ _ eq_refl).
  rewrite (bind_Return _ _ _ _ _ (check_required_list l required_fields t1 Hall)).
  unfold bind at 1. rewrite (print_invoice_located _ _ _ _ _ Hdetect).
  unfold try_finally, print_phase, try_except, print_receipt, print_header.
  cbv beta iota zeta delta [bind lift method text logger ret Py.get is_Exception].
  run_printer Hprinter. repeat rewrite <- app_assoc. reflexivity.
Qed.

Lemma X16_witness :
  (forall f, In f required_fields -> In (VStr f) (map VStr required_fields))
  /\ printer_never_fails ideal_world bixolon
  /\ fst (handle_print ideal_world (authorized_request field_name_array) [])
     = Return (Response false "'list' object has no attribute 'get'" 500).
Proof.
  assert (Hall : forall f, In f required_fields ->
                           In (VStr f) (map VStr required_fields))
    by (intros f Hf; apply in_map; exact Hf).
  split; [exact Hall | split; [apply ideal_printer_never_fails |]].
  rewrite (X16_array_body_passes_validation ideal_world
             (authorized_request field_name_array) (map VStr required_fields)
             bixolon [] _ _ eq_refl eq_refl eq_refl Hall eq_refl
             (ideal_printer_never_fails bixolon)).
  reflexivity.
Defined.

(** X17. A status request without the expected token is answered
    [{"success": False, "message": "Unauthorized"}, 401], an object without
    ["system"] and ["printer"] entries, and looks for no printer. *)
Theorem X17_status_unauthorized :
  forall (w : world) (platform_system : string) (req : request)
         (t : list event),
    has_token w req = false ->
    exists evs,
      service_status w platform_system req t
      = (Return (StatusResponse false "Unauthorized" None None 401),
         (t ++ evs)%list)
      /\ filter is_device_event evs = [].
Proof.
  intros w platform_system req t Hno.
  destruct (validate_token_result w req t) as (evs & Hrun & Hquiet).
  exists evs. split; [| exact Hquiet].
  unfold service_status. rewrite (bind_Return _ _ _ _ _ Hrun), Hno.
  reflexivity.
Qed.

Lemma X17_witness :
  has_token ideal_world (Request None false (Return VNone)) = false
  /\ exists evs,
       service_status ideal_world "Linux" (Request None false (Return VNone)) []
       = (Return (StatusResponse false "Unauthorized" None None 401),
          ([] ++ evs)%list)
       /\ filter is_device_event evs = [].
Proof.
  split; [reflexivity |].
  exact (X17_status_unauthorized ideal_world "Linux"
           (Request None false (Return VNone)) [] eq_refl).
Defined.

(** ** An item without its numbers *)

Lemma name_parts_first item nm t :
  Py.getitem item "name" = Return (VStr nm) ->
  nm <> "" ->
  exists rest,
    name_parts item t = (Return (VStr (PyStr.slice 0 20 nm) :: rest), t).
Proof.
  intros Hname Hnm. rewrite (name_parts_str item nm t Hname).
  destruct nm as [| c nm]; [congruence |].
  cbn [String.length]. rewrite (div20_step (S (String.length nm))) by lia.
  cbn [seq map]. eexists. reflexivity.
Qed.

(** X18. The item loop reads the quantity and the price only when it prints
    the first row of a name. For an item whose name is a non-empty string,
    a missing [quantity] ends the loop with [KeyError('quantity')], and a
    missing [price], once the quantity has been formatted, with
    [KeyError('price')]; in both cases before any row of the item is sent to
    the printer. *)
Theorem X18_item_without_numbers :
  forall (w : world) (p : usb_printer) (ikvs : list (string * value))
         (nm : string) (t : list event),
    Py.lookup "name" ikvs = Some (VStr nm) ->
    nm <> "" ->
    (Py.lookup "quantity" ikvs = None ->
     print_item w p (VDict ikvs) t = (Raise (Exn KeyError "'quantity'"), t))
    /\ (forall quantity xq,
          Py.lookup "quantity" ikvs = Some quantity ->
          Py.float_for_format quantity = Return xq ->
          Py.lookup "price" ikvs = None ->
          print_item w p (VDict ikvs) t = (Raise (Exn KeyError "'price'"), t)).
Proof.
  intros w p ikvs nm t Hname Hnm.
  assert (Hget : Py.getitem (VDict ikvs) "name" = Return (VStr nm))
    by (unfold Py.getitem; rewrite Hname; reflexivity).
  destruct (name_parts_first (VDict ikvs) nm t Hget Hnm) as (rest & Hparts).
  split.
  - intros Hq. unfold print_item.
    rewrite (bind_Return _ _ _ _ _ Hparts).
    cbn [Py.enumerate Py.enumerate_from for_each print_part Nat.eqb
         Py.format_ljust].
    rewrite (bind_assoc _ _ _ t).
    rewrite (bind_lift_Return _ _ _ _ eq_refl).
    unfold bind, lift, Py.getitem. rewrite Hq. reflexivity.
  - intros quantity xq Hq Hxq Hp. unfold print_item.
    rewrite (bind_Return _ _ _ _ _ Hparts).
    cbn [Py.enumerate Py.enumerate_from for_each print_part Nat.eqb
         Py.format_ljust].
    rewrite (bind_assoc _ _ _ t).
    rewrite (bind_lift_Return _ _ _ _ eq_refl).
    unfold bind, lift, Py.getitem, Py.format_f2. rewrite Hq, Hxq, Hp.
    reflexivity.
Qed.

Lemma X18_witness :
  Py.lookup "name" [("name", VStr "Scarf")] = Some (VStr "Scarf")
  /\ "Scarf" <> ""
  /\ print_item ideal_world bixolon unpriced_item []
     = (Raise (Exn KeyError "'quantity'"), []).
Proof.
  assert (Hnm : "Scarf" <> "") by discriminate.
  split; [reflexivity | split; [exact Hnm |]].
  exact (proj1 (X18_item_without_numbers ideal_world bixolon
                  [("name", VStr "Scarf")] "Scarf" [] eq_refl Hnm) eq_refl).
Defined.

(* ===================================================================== *)
(** * The receipt of a whole job *)
(* ===================================================================== *)

(** ** Block by block, with a printer that answers every call *)

Section Layout.

Variable w : world.
Variable p : usb_printer.
Hypothesis Hprinter : printer_never_fails w p.
Variable kvs : list (string * value).

Lemma print_header_layout t :
  print_header w p (VDict kvs) t
  = (Return tt,
     (t ++ map (EvPrinter p)
             [ CallSet (Some AlignCenter) (Some true);
               CallText (Py.str (py_repr w)
                           (supplied_or (Py.lookup "company_name" kvs)
                              (VStr "STAGMENFASHION")) ++ PyStr.newline);
               CallSet None (Some false) ])%list).
Proof.
  cbv beta iota zeta delta
    [print_header text bind lift method Py.get supplied_or CONFIG
     default_company name].
  destruct (Py.lookup "company_name" kvs); run_printer Hprinter;
    repeat rewrite <- app_assoc; reflexivity.
Qed.

Lemma print_contact_layout numbers t :
  Py.iter (phone_numbers_of kvs) = Return numbers ->
  print_contact w p (VDict kvs) t
  = (Return tt,
     (t ++ map (EvPrinter p)
             (map (fun number =>
                     CallText (Py.str (py_repr w) number ++ PyStr.newline))
                numbers))%list).
Proof.
  intros Hiter. unfold print_contact.
  assert (Hget : Py.get (VDict kvs) "phone_numbers"
                   (VList (map VStr (phones (default_company (CONFIG w)))))
                 = Return (phone_numbers_of kvs)).
  { unfold Py.get, phone_numbers_of, supplied_or.
    destruct (Py.lookup "phone_numbers" kvs); reflexivity. }
  rewrite (bind_lift_Return _ _ _ _ Hget).
  rewrite (bind_lift_Return _ _ _ _ Hiter).
  rewrite map_map. apply for_each_rows.
  intros x t1 _. apply text_ok, Hprinter.
Qed.

Lemma print_address_layout t :
  print_address w p (VDict kvs) t
  = (Return tt,
     (t ++ map (EvPrinter p)
             [ CallText (Py.str (py_repr w)
                           (supplied_or (Py.lookup "address" kvs)
                              (VStr "Kondotty")) ++ PyStr.newline);
               CallText ("GSTIN: "
                         ++ Py.str (py_repr w)
                              (supplied_or (Py.lookup "gstin" kvs)
                                 (VStr "32MMRPS3804DIZS"))
                         ++ PyStr.newline) ])%list).
Proof.
  cbv beta iota zeta delta
    [print_address text bind lift method Py.get supplied_or CONFIG
     default_company address gstin].
  destruct (Py.lookup "address" kvs); destruct (Py.lookup "gstin" kvs);
    run_printer Hprinter; repeat rewrite <- app_assoc; reflexivity.
Qed.

Lemma print_item_printed item rows t :
  printed_item item rows ->
  print_item w p item t
  = (Return tt, (t ++ map (EvPrinter p) (map CallText rows))%list).
Proof.
  intros [(item_name & Hname & Hlen & ->) | (nm & numbers & _ & Hitem & ->)].
  - unfold print_item, name_parts.
    rewrite bind_assoc. rewrite (bind_lift_Return _ _ _ _ Hname).
    rewrite bind_assoc. rewrite (bind_lift_Return _ _ _ _ Hlen).
    cbn. rewrite app_nil_r. reflexivity.
  - rewrite map_map. apply print_item_rows; assumption.
Qed.

Lemma for_each_items_printed items rows t :
  Forall2 printed_item items rows ->
  for_each items (print_item w p) t
  = (Return tt,
     (t ++ map (EvPrinter p) (map CallText (List.concat rows)))%list).
Proof.
  intros Hall. revert t.
  induction Hall as [| item rows1 items rows Hitem _ IH]; intros t.
  - simpl. rewrite app_nil_r. reflexivity.
  - cbn [for_each List.concat].
    rewrite (bind_Return _ _ _ _ _ (print_item_printed item _ t Hitem)).
    rewrite IH. rewrite !map_app, app_assoc. reflexivity.
Qed.

Lemma print_items_layout items_value items rows t :
  Py.lookup "items" kvs = Some items_value ->
  Py.iter items_value = Return items ->
  Forall2 printed_item items rows ->
  print_items w p (VDict kvs) t
  = (Return tt,
     (t ++ map (EvPrinter p) (map CallText (List.concat rows)))%list).
Proof.
  intros Hitems Hiter Hall. unfold print_items, Py.getitem. rewrite Hitems.
  rewrite (bind_lift_Return _ _ _ _ eq_refl).
  rewrite (bind_lift_Return _ _ _ _ Hiter).
  apply for_each_items_printed. exact Hall.
Qed.

Lemma print_totals_layout subtotal total xs xd xt t :
  Py.lookup "subtotal" kvs = Some subtotal ->
  Py.float_for_format subtotal = Return xs ->
  Py.float_for_format
    (supplied_or (Py.lookup "discount" kvs) (VFloat (S754_zero false)))
  = Return xd ->
  Py.lookup "total" kvs = Some total ->
  Py.float_for_format total = Return xt ->
  print_totals w p (VDict kvs) t
  = (Return tt,
     (t ++ map (EvPrinter p)
             [ CallText ("Subtotal:           "
                         ++ PyStr.rjust 12 (PyNum.format_2f xs)
                         ++ PyStr.newline);
               CallText ("Discount:           "
                         ++ PyStr.rjust 12 (PyNum.format_2f xd)
                         ++ PyStr.newline);
               CallSet None (Some true);
               CallText ("GRAND TOTAL:        "
                         ++ PyStr.rjust 12 (PyNum.format_2f xt)
                         ++ PyStr.newline);
               CallSet None (Some false) ])%list).
Proof.
  intros Hsub Hxs Hxd Htot Hxt.
  assert (Hget : Py.get (VDict kvs) "discount" (VFloat (S754_zero false))
                 = Return (supplied_or (Py.lookup "discount" kvs)
                             (VFloat (S754_zero false)))).
  { unfold Py.get, supplied_or.
    destruct (Py.lookup "discount" kvs); reflexivity. }
  unfold print_totals, Py.getitem. rewrite Hsub, Htot.
  rewrite (bind_lift_Return _ _ _ _ eq_refl).
  unfold Py.format_f2 at 1. rewrite Hxs.
  rewrite (bind_lift_Return _ _ _ _ eq_refl).
  rewrite (bind_Return _ _ _ _ _ (text_ok _ _ _ _ Hprinter)).
  rewrite (bind_lift_Return _ _ _ _ Hget).
  unfold Py.format_f2 at 1. rewrite Hxd.
  rewrite (bind_lift_Return _ _ _ _ eq_refl).
  rewrite (bind_Return _ _ _ _ _ (text_ok _ _ _ _ Hprinter)).
  rewrite (bind_Return _ _ _ _ _ (method_ok _ _ _ _ (Hprinter _ _))).
  rewrite (bind_lift_Return _ _ _ _ eq_refl).
  unfold Py.format_f2 at 1. rewrite Hxt.
  rewrite (bind_lift_Return _ _ _ _ eq_refl).
  rewrite (bind_Return _ _ _ _ _ (text_ok _ _ _ _ Hprinter)).
  rewrite (method_ok _ _ _ _ (Hprinter _ _)).
  repeat rewrite <- app_assoc. reflexivity.
Qed.

Lemma print_terms_layout t :
  print_terms w p t
  = (Return tt,
     (t ++ map (EvPrinter p)
             [ CallText ("* NO REFUND." ++ PyStr.newline);
               CallText ("* Returns accepted within 7 days with receipt."
                         ++ PyStr.newline);
               CallText ("* No Product Will Be Replaced Without Bill."
                         ++ PyStr.newline);
               CallText ("* Please Check Your Bill Before Leaving The Shop."
                         ++ PyStr.newline) ])%list).
Proof.
  unfold print_terms.
  rewrite (for_each_rows p terms _ (fun term => term ++ PyStr.newline)).
  - reflexivity.
  - intros x t1 _. apply text_ok, Hprinter.
Qed.

Lemma print_invoice_number_layout number t :
  Py.lookup "invoice_number" kvs = Some number ->
  print_invoice_number w p (VDict kvs) t
  = (Return tt,
     (t ++ map (EvPrinter p)
             [ CallSet (Some AlignCenter) None;
               CallText (Py.str (py_repr w) number ++ PyStr.newline) ])%list).
Proof.
  intros Hn.
  cbv beta iota zeta delta
    [print_invoice_number text bind lift method Py.getitem].
  rewrite Hn. run_printer Hprinter. repeat rewrite <- app_assoc. reflexivity.
Qed.

Lemma print_barcode_layout number buffer img t :
  Py.lookup "invoice_number" kvs = Some number ->
  barcode_code128 w number = Return buffer ->
  Image_open w buffer = Return img ->
  print_barcode w p (VDict kvs) t
  = (Return tt,
     (t ++ map (EvPrinter p) [CallImage img; CallText PyStr.newline])%list).
Proof.
  intros Hn Hbuffer Himg. unfold print_barcode, generate_barcode, Py.getitem.
  rewrite Hn. rewrite (bind_lift_Return _ _ _ _ eq_refl).
  rewrite bind_assoc.
  rewrite (bind_lift_Return _ _ _ _ Hbuffer).
  rewrite (bind_lift_Return _ _ _ _ Himg).
  rewrite (bind_Return _ _ _ _ _ (method_ok _ _ _ _ (Hprinter _ _))).
  rewrite (text_ok _ _ _ _ Hprinter). rewrite <- app_assoc. reflexivity.
Qed.

Lemma print_qr_code_layout buffer img t :
  qrcode_png w (website_of kvs) = Return buffer ->
  Image_open w buffer = Return img ->
  print_qr_code w p (VDict kvs) t
  = (Return tt,
     (t ++ map (EvPrinter p) [CallImage img; CallText PyStr.newline])%list).
Proof.
  intros Hbuffer Himg. unfold print_qr_code, generate_qr_code.
  assert (Hget : Py.get (VDict kvs) "website_url"
                   (VStr (website (default_company (CONFIG w))))
                 = Return (website_of kvs)).
  { unfold Py.get, website_of, supplied_or.
    destruct (Py.lookup "website_url" kvs); reflexivity. }
  rewrite (bind_lift_Return _ _ _ _ Hget).
  rewrite bind_assoc.
  rewrite (bind_lift_Return _ _ _ _ Hbuffer).
  rewrite (bind_lift_Return _ _ _ _ Himg).
  rewrite (bind_Return _ _ _ _ _ (method_ok _ _ _ _ (Hprinter _ _))).
  rewrite (text_ok _ _ _ _ Hprinter). rewrite <- app_assoc. reflexivity.
Qed.

Lemma print_footer_layout t :
  print_footer w p t
  = (Return tt,
     (t ++ map (EvPrinter p)
             [ CallSet (Some AlignCenter) None;
               CallText ("ENJOY FROM EVERYWHERE" ++ PyStr.newline);
               CallText ("THANK YOU FOR WATCHING!" ++ PyStr.newline) ])%list).
Proof.
  cbv beta iota zeta delta [print_footer text bind method].
  run_printer Hprinter. repeat rewrite <- app_assoc. reflexivity.
Qed.

Lemma rule_layout t :
  text w p divider t
  = (Return tt,
     (t ++ map (EvPrinter p)
             [CallText ("--------------------------------" ++ PyStr.newline)])%list).
Proof. apply text_ok, Hprinter. Qed.

Lemma print_table_header_layout t :
  print_table_header w p t
  = (Return tt,
     (t ++ map (EvPrinter p)
             [CallText ("Item                 Qty   Price   Total"
                        ++ PyStr.newline)])%list).
Proof. apply text_ok, Hprinter. Qed.

(** The whole body: for a request whose fields can be printed, the calls
    are those of its receipt, and the body returns the success pair. *)
Lemma print_receipt_layout calls t :
  receipt_of w kvs calls ->
  print_receipt w p (VDict kvs) t
  = (Return (true, "Invoice printed successfully"),
     (t ++ map (EvPrinter p) calls)%list).
Proof.
  intros (numbers & number & date & customer & items_value & items & rows
          & xs & xd & xt & barcode_img & qr_buffer & qr_img
          & Hiter & Hfields & Hitems & Hitems_iter & Hall & Hqr & Hqimg & ->).
  destruct Hfields
    as (Hn & Hd & Hc & (subtotal & Hsub & Hxs) & Hxd & (total & Htot & Hxt)
        & (buffer & Hbar & Hbimg)).
  unfold print_receipt.
  rewrite (bind_Return _ _ _ _ _ (print_header_layout _)).
  rewrite (bind_Return _ _ _ _ _ (print_contact_layout _ _ Hiter)).
  rewrite (bind_Return _ _ _ _ _ (print_address_layout _)).
  rewrite (bind_Return _ _ _ _ _ (rule_layout _)).
  rewrite (bind_Return _ _ _ _ _
             (print_invoice_info_layout w p Hprinter kvs _ _ _ _ Hn Hd Hc)).
  rewrite (bind_Return _ _ _ _ _ (rule_layout _)).
  rewrite (bind_Return _ _ _ _ _ (print_table_header_layout _)).
  rewrite (bind_Return _ _ _ _ _
             (print_items_layout _ _ _ _ Hitems Hitems_iter Hall)).
  rewrite (bind_Return _ _ _ _ _ (rule_layout _)).
  rewrite (bind_Return _ _ _ _ _
             (print_totals_layout _ _ _ _ _ _ Hsub Hxs Hxd Htot Hxt)).
  rewrite (bind_Return _ _ _ _ _ (rule_layout _)).
  rewrite (bind_Return _ _ _ _ _ (print_terms_layout _)).
  rewrite (bind_Return _ _ _ _ _ (rule_layout _)).
  rewrite (bind_Return _ _ _ _ _ (print_invoice_number_layout _ _ Hn)).
  rewrite (bind_Return _ _ _ _ _ (rule_layout _)).
  rewrite (bind_Return _ _ _ _ _ (print_barcode_layout _ _ _ _ Hn Hbar Hbimg)).
  rewrite (bind_Return _ _ _ _ _ (print_qr_code_layout _ _ _ Hqr Hqimg)).
  rewrite (bind_Return _ _ _ _ _ (print_footer_layout _)).
  rewrite (bind_Return _ _ _ _ _ (method_ok _ _ _ _ (Hprinter _ _))).
  unfold ret, receipt, time_slot. f_equal.
  change [EvPrinter p CallCut] with (map (EvPrinter p) [CallCut]).
  repeat rewrite <- app_assoc. f_equal.
  repeat rewrite <- map_app. f_equal.
  repeat rewrite <- app_assoc. reflexivity.
Qed.

End Layout.

(** ** A whole job *)

(** With the printer located, answering every call, and a request whose
    fields can be printed, the job prints the receipt of the request,
    releases the handle and returns the success pair. *)
Lemma print_invoice_layout w p kvs ti t0 calls :
  detect_printer w ti = (Return p, t0) ->
  printer_never_fails w p ->
  receipt_of w kvs calls ->
  print_invoice w (VDict kvs) ti
  = (Return (true, "Invoice printed successfully"),
     (t0 ++ map (EvPrinter p) (calls ++ [CallClose]))%list).
Proof.
  intros Hdetect Hprinter Hcalls.
  rewrite (print_invoice_located _ _ _ _ _ Hdetect).
  unfold try_finally, print_phase, try_except.
  rewrite (print_receipt_layout w p Hprinter kvs calls _ Hcalls).
  rewrite (method_ok _ _ _ _ (Hprinter _ _)).
  rewrite map_app, app_assoc. reflexivity.
Qed.

(** An item with a string name and numbers the format accepts prints its
    rows, also when the name is empty and there is no row. *)
Lemma well_formed_item_printed item nm numbers :
  well_formed_item item nm numbers ->
  printed_item item (item_rows nm numbers).
Proof.
  intros Hitem. destruct nm as [| c nm].
  - left. destruct Hitem as (_ & _ & _ & _ & _ & _ & Hname & _).
    exists (VStr ""). repeat split; [exact Hname].
  - right. exists (String c nm), numbers.
    split; [discriminate | split; [exact Hitem | reflexivity]].
Qed.

Lemma receipt_of_fields w kvs numbers number date customer items rows
  xs xd xt barcode_img qr_buffer qr_img :
  Py.iter (phone_numbers_of kvs) = Return numbers ->
  qrcode_png w (website_of kvs) = Return qr_buffer ->
  Image_open w qr_buffer = Return qr_img ->
  required_fields_printable w kvs number date customer xs xd xt barcode_img ->
  Py.lookup "items" kvs = Some (VList items) ->
  Forall2 printed_item items rows ->
  receipt_of w kvs
    (receipt w
       (supplied_or (Py.lookup "company_name" kvs) (VStr "STAGMENFASHION"))
       numbers
       (supplied_or (Py.lookup "address" kvs) (VStr "Kondotty"))
       (supplied_or (Py.lookup "gstin" kvs) (VStr "32MMRPS3804DIZS"))
       number date (time_slot w kvs) customer (List.concat rows)
       xs xd xt barcode_img qr_img).
Proof.
  intros Hiter Hqr Hqimg Hfields Hitems Hall.
  exists numbers, number, date, customer, (VList items), items, rows,
    xs, xd, xt, barcode_img, qr_buffer, qr_img.
  split; [exact Hiter |]. split; [exact Hfields |].
  split; [exact Hitems |]. split; [reflexivity |].
  split; [exact Hall |]. split; [exact Hqr |].
  split; [exact Hqimg | reflexivity].
Qed.

Lemma shirt_item_printed : printed_item shirt_item [shirt_row].
Proof.
  apply (well_formed_item_printed shirt_item "Shirt" "2.00  500.00 1000.00").
  exists (VInt 2), (VFloat (PyNum.float_of 500 0)),
    (VFloat (PyNum.float_of 1000 0)),
    (PyNum.float_of 2 0), (PyNum.float_of 500 0), (PyNum.float_of 1000 0).
  repeat split; vm_compute; reflexivity.
Qed.

Lemma item_rows_long nm numbers :
  (0 < String.length nm)%nat ->
  item_rows nm numbers
  = (PyStr.ljust 20 (PyStr.slice (20 * 0) 20 nm) ++ numbers ++ PyStr.newline)
    :: map (fun k => PyStr.ljust 20 (PyStr.slice (20 * k) 20 nm)
                     ++ PyStr.newline)
         (seq 1 ((String.length nm + 19) / 20 - 1)).
Proof.
  intros Hlen. unfold item_rows, chunks_of.
  rewrite (div20_step (String.length nm)) by lia.
  cbn [seq map Nat.sub]. rewrite Nat.sub_0_r, map_map. reflexivity.
Qed.

Lemma format_2f_finite_two_decimals x :
  is_finite x = true ->
  exists s int_part frac,
    PyNum.format_2f x = PyNum.sign_str s ++ int_part ++ "." ++ frac
    /\ PyStr.two_digits frac = true.
Proof.
  destruct x as [s | s | | s m e]; try discriminate; intros _.
  - exists s, "0", "00". split; reflexivity.
  - destruct (format_2f_two_decimals s m e) as (int_part & frac & E & D).
    exists s, int_part, frac. split; assumption.
Qed.

(** ** The rows of a long name on the receipt *)

(** C1. Take a job in which the printer is located and answers every call
    and the fields of the request can be printed, and an item of the request
    whose name is a string of length [L > 20] and whose quantity, price and
    product [quantity * price] are numbers the [f] format accepts (the items
    before and after it being items the loop gets through as well). Then [print_invoice]
    succeeds, and its calls are those of the receipt in which, after the rows
    of the items before and ahead of the rows of the items after, that item
    has [ceil(L/20)] rows. The first row is the first 20 characters of the
    name padded on the right to 20 columns, followed by the quantity (two
    decimals, right-aligned in 4 columns), the price and the line total (two
    decimals, right-aligned in 8 columns each). Each further row is the next
    20 characters of the name alone, padded to 20 columns. The name field of
    every row is exactly 20 columns wide, and a number that is finite is
    written as a sign, its integer digits, a point and two decimal digits. *)
Theorem C1_long_name_rows_on_receipt :
  forall (w : world) (p : usb_printer) (kvs : list (string * value))
         (ti t0 : list event) (numbers : list value)
         (number date customer : value)
         (items_before items_after : list value)
         (rows_before rows_after : list (list string))
         (item : value) (nm : string) (quantity price total : value)
         (xq xp xt xs xd xg : spec_float)
         (barcode_img : image) (qr_buffer : string) (qr_img : image),
    detect_printer w ti = (Return p, t0) ->
    printer_never_fails w p ->
    Py.iter (phone_numbers_of kvs) = Return numbers ->
    qrcode_png w (website_of kvs) = Return qr_buffer ->
    Image_open w qr_buffer = Return qr_img ->
    required_fields_printable w kvs number date customer xs xd xg barcode_img ->
    Py.lookup "items" kvs = Some (VList (items_before ++ item :: items_after)) ->
    Forall2 printed_item items_before rows_before ->
    Forall2 printed_item items_after rows_after ->
    Py.getitem item "name" = Return (VStr nm) ->
    (20 < String.length nm)%nat ->
    Py.getitem item "quantity" = Return quantity ->
    Py.getitem item "price" = Return price ->
    Py.float_for_format quantity = Return xq ->
    Py.float_for_format price = Return xp ->
    Py.mul quantity price = Return total ->
    Py.float_for_format total = Return xt ->
    let chunk := fun k => PyStr.ljust 20 (PyStr.slice (20 * k) 20 nm) in
    let rows :=
      (chunk 0%nat
       ++ PyStr.rjust 4 (PyNum.format_2f xq)
       ++ PyStr.rjust 8 (PyNum.format_2f xp)
       ++ PyStr.rjust 8 (PyNum.format_2f xt)
       ++ PyStr.newline)
      :: map (fun k => chunk k ++ PyStr.newline)
           (seq 1 ((String.length nm + 19) / 20 - 1)) in
    print_invoice w (VDict kvs) ti
    = (Return (true, "Invoice printed successfully"),
       (t0 ++ map (EvPrinter p)
                (receipt w
                   (supplied_or (Py.lookup "company_name" kvs)
                      (VStr "STAGMENFASHION"))
                   numbers
                   (supplied_or (Py.lookup "address" kvs) (VStr "Kondotty"))
                   (supplied_or (Py.lookup "gstin" kvs)
                      (VStr "32MMRPS3804DIZS"))
                   number date (time_slot w kvs) customer
                   (List.concat rows_before ++ rows
                    ++ List.concat rows_after)
                   xs xd xg barcode_img qr_img
                 ++ [CallClose]))%list)
    /\ List.length rows = ((String.length nm + 19) / 20)%nat
    /\ (forall k, String.length (chunk k) = 20%nat)
    /\ (forall x, In x [xq; xp; xt] -> is_finite x = true ->
        exists s int_part frac,
          PyNum.format_2f x = PyNum.sign_str s ++ int_part ++ "." ++ frac
          /\ PyStr.two_digits frac = true).
Proof.
  intros w p kvs ti t0 numbers number date customer items_before items_after
    rows_before rows_after item nm quantity price total xq xp xt xs xd xg
    barcode_img qr_buffer qr_img Hdetect Hprinter Hiter Hqr Hqimg Hfields
    Hitems Hbefore Hafter Hname Hlen Hq Hp Hxq Hxp Hmul Hxt chunk rows.
  set (cols := PyStr.rjust 4 (PyNum.format_2f xq)
               ++ PyStr.rjust 8 (PyNum.format_2f xp)
               ++ PyStr.rjust 8 (PyNum.format_2f xt)).
  assert (Hitem : well_formed_item item nm cols).
  { exists quantity, price, total, xq, xp, xt. repeat split; assumption. }
  assert (Hrows : item_rows nm cols = rows).
  { rewrite item_rows_long by lia. subst rows chunk cols.
    rewrite !string_app_assoc. reflexivity. }
  split; [| split; [| split]].
  - rewrite (print_invoice_layout w p kvs ti t0 _ Hdetect Hprinter
               (receipt_of_fields w kvs numbers number date customer
                  (items_before ++ item :: items_after)
                  (rows_before ++ item_rows nm cols :: rows_after)
                  xs xd xg barcode_img qr_buffer qr_img
                  Hiter Hqr Hqimg Hfields Hitems
                  (Forall2_app Hbefore
                     (Forall2_cons _ _ (well_formed_item_printed _ _ _ Hitem)
                        Hafter)))).
    rewrite concat_app. cbn [List.concat]. rewrite Hrows. reflexivity.
  - subst rows. cbn [List.length]. rewrite length_map, length_seq.
    rewrite (div20_step (String.length nm)) by lia. lia.
  - intros k. apply chunk_width.
  - intros x _. apply format_2f_finite_two_decimals.
Qed.

Lemma C1_witness :
  detect_printer ideal_world []
  = (Return bixolon,
     [EvUsb 0x0483 0x5743;
      EvLog INFO "Found printer with vendor 0483, product 5743"])
  /\ (20 < String.length long_name)%nat
  /\ print_invoice ideal_world (VDict two_items_fields) []
     = (Return (true, "Invoice printed successfully"),
        ([EvUsb 0x0483 0x5743;
          EvLog INFO "Found printer with vendor 0483, product 5743"]
         ++ map (EvPrinter bixolon)
              (receipt ideal_world (VStr "STAGMENFASHION")
                 [VStr "+917736444674"; VStr "+918943888200"]
                 (VStr "Kondotty") (VStr "32MMRPS3804DIZS")
                 (VStr "INV-1001") (VStr "2024-01-01") [] (VStr "Jane")
                 [ shirt_row;
                   ("Premium Cotton Forma2.00  500.00 1000.00" ++ PyStr.newline)%string;
                   ("l Shirt Slim Fit Nav" ++ PyStr.newline)%string;
                   ("y Blue              " ++ PyStr.newline)%string ]
                 (PyNum.float_of 1000 0) (S754_zero false)
                 (PyNum.float_of 1000 0)
                 (PILImage "code128:INV-1001")
                 (PILImage "qr:https://stagmenfashion.com")
               ++ [CallClose]))%list).
Proof.
  assert (Hlen : (20 < String.length long_name)%nat) by (vm_compute; lia).
  split; [reflexivity | split; [exact Hlen |]].
  assert (Hall : Forall2 printed_item [shirt_item] [[shirt_row]])
    by (constructor; [exact shirt_item_printed | constructor]).
  assert (Hfields : required_fields_printable ideal_world two_items_fields
                      (VStr "INV-1001") (VStr "2024-01-01") (VStr "Jane")
                      (PyNum.float_of 1000 0) (S754_zero false)
                      (PyNum.float_of 1000 0) (PILImage "code128:INV-1001")).
  { repeat split; try reflexivity.
    - eexists; split; reflexivity.
    - eexists; split; reflexivity.
    - eexists; split; reflexivity. }
  destruct (C1_long_name_rows_on_receipt ideal_world bixolon two_items_fields
              [] _ [VStr "+917736444674"; VStr "+918943888200"]
              (VStr "INV-1001") (VStr "2024-01-01") (VStr "Jane")
              [shirt_item] [] [[shirt_row]] []
              long_item long_name (VInt 2) (VFloat (PyNum.float_of 500 0))
              (VFloat (PyNum.float_of 1000 0))
              (PyNum.float_of 2 0) (PyNum.float_of 500 0)
              (PyNum.float_of 1000 0)
              (PyNum.float_of 1000 0) (S754_zero false) (PyNum.float_of 1000 0)
              (PILImage "code128:INV-1001") "qr:https://stagmenfashion.com"
              (PILImage "qr:https://stagmenfashion.com")
              eq_refl (ideal_printer_never_fails bixolon) eq_refl eq_refl
              eq_refl Hfields eq_refl
              Hall (Forall2_nil _)
              eq_refl Hlen eq_refl eq_refl eq_refl eq_refl eq_refl eq_refl)
    as (Hrun & _).
  rewrite Hrun. vm_compute. reflexivity.
Defined.

(** ** The company lines of the receipt *)

(** C7. Take a job in which the printer is located and answers every call
    and the required fields of the request can be printed. Each of the five
    company values is resolved on its own: the entry of the request under
    [company_name], [phone_numbers], [address], [gstin] or [website_url]
    when the request has it, and the field of the default company profile
    otherwise, whatever the other four entries are. [print_invoice] succeeds
    and its calls are those of the receipt with the company name in the
    header line, one line for each phone number, the address line, the
    [GSTIN: ] line and the QR image made from the website; with none of the
    five entries in the request these are the fields of the default profile,
    whose values are spelled out. *)
Theorem C7_company_lines_on_receipt :
  forall (w : world) (p : usb_printer) (kvs : list (string * value))
         (ti t0 : list event) (numbers : list value)
         (number date customer : value) (items : list value)
         (rows : list (list string)) (xs xd xt : spec_float)
         (barcode_img : image) (qr_buffer : string) (qr_img : image),
    detect_printer w ti = (Return p, t0) ->
    printer_never_fails w p ->
    required_fields_printable w kvs number date customer xs xd xt barcode_img ->
    Py.lookup "items" kvs = Some (VList items) ->
    Forall2 printed_item items rows ->
    let profile := default_company (CONFIG w) in
    let company_name :=
      supplied_or (Py.lookup "company_name" kvs) (VStr (name profile)) in
    let phone_numbers :=
      supplied_or (Py.lookup "phone_numbers" kvs)
        (VList (map VStr (phones profile))) in
    let address_value :=
      supplied_or (Py.lookup "address" kvs) (VStr (address profile)) in
    let gstin_value :=
      supplied_or (Py.lookup "gstin" kvs) (VStr (gstin profile)) in
    let website_url :=
      supplied_or (Py.lookup "website_url" kvs) (VStr (website profile)) in
    Py.iter phone_numbers = Return numbers ->
    qrcode_png w website_url = Return qr_buffer ->
    Image_open w qr_buffer = Return qr_img ->
    profile
    = {| name := "STAGMENFASHION";
         phones := ["+917736444674"; "+918943888200"];
         address := "Kondotty";
         gstin := "32MMRPS3804DIZS";
         website := "https://stagmenfashion.com" |}
    /\ print_invoice w (VDict kvs) ti
       = (Return (true, "Invoice printed successfully"),
          (t0 ++ map (EvPrinter p)
                   (receipt w company_name numbers address_value gstin_value
                      number date (time_slot w kvs) customer
                      (List.concat rows)
                      xs xd xt barcode_img qr_img
                    ++ [CallClose]))%list).
Proof.
  intros w p kvs ti t0 numbers number date customer items rows xs xd xt
    barcode_img qr_buffer qr_img Hdetect Hprinter Hfields Hitems Hall
    profile company_name phone_numbers address_value gstin_value website_url
    Hiter Hqr Hqimg.
  split; [reflexivity |].
  exact (print_invoice_layout w p kvs ti t0 _ Hdetect Hprinter
           (receipt_of_fields w kvs numbers number date customer items rows
              xs xd xt barcode_img qr_buffer qr_img
              Hiter Hqr Hqimg Hfields Hitems Hall)).
Qed.

Lemma C7_witness :
  detect_printer ideal_world []
  = (Return bixolon,
     [EvUsb 0x0483 0x5743;
      EvLog INFO "Found printer with vendor 0483, product 5743"])
  /\ print_invoice ideal_world (VDict example_fields) []
     = (Return (true, "Invoice printed successfully"),
        ([EvUsb 0x0483 0x5743;
          EvLog INFO "Found printer with vendor 0483, product 5743"]
         ++ map (EvPrinter bixolon)
              (receipt ideal_world (VStr "STAGMENFASHION")
                 [VStr "+917736444674"; VStr "+918943888200"]
                 (VStr "Kondotty") (VStr "32MMRPS3804DIZS")
                 (VStr "INV-1001") (VStr "2024-01-01") [] (VStr "Jane")
                 [shirt_row]
                 (PyNum.float_of 1000 0) (S754_zero false)
                 (PyNum.float_of 1000 0)
                 (PILImage "code128:INV-1001")
                 (PILImage "qr:https://stagmenfashion.com")
               ++ [CallClose]))%list)
  /\ print_invoice ideal_world (VDict own_gstin_fields) []
     = (Return (true, "Invoice printed successfully"),
        ([EvUsb 0x0483 0x5743;
          EvLog INFO "Found printer with vendor 0483, product 5743"]
         ++ map (EvPrinter bixolon)
              (receipt ideal_world (VStr "STAGMENFASHION")
                 [VStr "+917736444674"; VStr "+918943888200"]
                 (VStr "Kondotty") (VStr "29ABCDE1234F1Z5")
                 (VStr "INV-1001") (VStr "2024-01-01") [] (VStr "Jane")
                 [shirt_row]
                 (PyNum.float_of 1000 0) (S754_zero false)
                 (PyNum.float_of 1000 0)
                 (PILImage "code128:INV-1001")
                 (PILImage "qr:https://stagmenfashion.com")
               ++ [CallClose]))%list).
Proof.
  assert (Hall : Forall2 printed_item [shirt_item] [[shirt_row]])
    by (constructor; [exact shirt_item_printed | constructor]).
  assert (Hfields : forall kvs,
            kvs = example_fields \/ kvs = own_gstin_fields ->
            required_fields_printable ideal_world kvs
              (VStr "INV-1001") (VStr "2024-01-01") (VStr "Jane")
              (PyNum.float_of 1000 0) (S754_zero false)
              (PyNum.float_of 1000 0) (PILImage "code128:INV-1001")).
  { intros kvs [-> | ->]; repeat split; try reflexivity;
      eexists; split; reflexivity. }
  split; [reflexivity | split].
  - destruct (C7_company_lines_on_receipt ideal_world bixolon example_fields
                [] _ [VStr "+917736444674"; VStr "+918943888200"]
                (VStr "INV-1001") (VStr "2024-01-01") (VStr "Jane")
                [shirt_item] [[shirt_row]]
                (PyNum.float_of 1000 0) (S754_zero false)
                (PyNum.float_of 1000 0)
                (PILImage "code128:INV-1001") "qr:https://stagmenfashion.com"
                (PILImage "qr:https://stagmenfashion.com")
                eq_refl (ideal_printer_never_fails bixolon)
                (Hfields _ (or_introl eq_refl)) eq_refl
                Hall
                eq_refl eq_refl eq_refl)
      as (_ & Hrun).
    rewrite Hrun. vm_compute. reflexivity.
  - destruct (C7_company_lines_on_receipt ideal_world bixolon own_gstin_fields
                [] _ [VStr "+917736444674"; VStr "+918943888200"]
                (VStr "INV-1001") (VStr "2024-01-01") (VStr "Jane")
                [shirt_item] [[shirt_row]]
                (PyNum.float_of 1000 0) (S754_zero false)
                (PyNum.float_of 1000 0)
                (PILImage "code128:INV-1001") "qr:https://stagmenfashion.com"
                (PILImage "qr:https://stagmenfashion.com")
                eq_refl (ideal_printer_never_fails bixolon)
                (Hfields _ (or_intror eq_refl)) eq_refl
                Hall
                eq_refl eq_refl eq_refl)
      as (_ & Hrun).
    rewrite Hrun. vm_compute. reflexivity.
Defined.

(** ** The time line of the receipt *)

(** C9 (as the code has it). Take a job in which the printer is located and
    answers every call and the fields of the request can be printed. Then
    [print_invoice] succeeds and its calls are those of the receipt in which
    the line [Time: <t>] stands between the [Date: ] line and the
    [Customer: ] line exactly when the request has the entry [invoice_time]
    with a value [t] that Python takes as true; when the entry is absent, or
    there with the empty string (or [None], [False], a zero, an empty list
    or object), nothing is printed between these two lines. Every other
    call of the receipt, the [Invoice #: ], [Date: ] and [Customer: ] lines
    among them, is the same in either case. *)
Theorem C9_time_line_on_receipt :
  forall (w : world) (p : usb_printer) (kvs : list (string * value))
         (ti t0 : list event) (numbers : list value)
         (number date customer : value) (items : list value)
         (rows : list (list string)) (xs xd xt : spec_float)
         (barcode_img : image) (qr_buffer : string) (qr_img : image),
    detect_printer w ti = (Return p, t0) ->
    printer_never_fails w p ->
    Py.iter (phone_numbers_of kvs) = Return numbers ->
    qrcode_png w (website_of kvs) = Return qr_buffer ->
    Image_open w qr_buffer = Return qr_img ->
    required_fields_printable w kvs number date customer xs xd xt barcode_img ->
    Py.lookup "items" kvs = Some (VList items) ->
    Forall2 printed_item items rows ->
    let between_date_and_customer :=
      match Py.lookup "invoice_time" kvs with
      | Some time =>
          if Py.truth time
          then [CallText ("Time: " ++ Py.str (py_repr w) time ++ PyStr.newline)]
          else []
      | None => []
      end in
    print_invoice w (VDict kvs) ti
    = (Return (true, "Invoice printed successfully"),
       (t0 ++ map (EvPrinter p)
                (receipt w
                   (supplied_or (Py.lookup "company_name" kvs)
                      (VStr "STAGMENFASHION"))
                   numbers
                   (supplied_or (Py.lookup "address" kvs) (VStr "Kondotty"))
                   (supplied_or (Py.lookup "gstin" kvs)
                      (VStr "32MMRPS3804DIZS"))
                   number date between_date_and_customer customer
                   (List.concat rows)
                   xs xd xt barcode_img qr_img
                 ++ [CallClose]))%list).
Proof.
  intros w p kvs ti t0 numbers number date customer items rows xs xd xt
    barcode_img qr_buffer qr_img Hdetect Hprinter Hiter Hqr Hqimg Hfields
    Hitems Hall between_date_and_customer.
  exact (print_invoice_layout w p kvs ti t0 _ Hdetect Hprinter
           (receipt_of_fields w kvs numbers number date customer items rows
              xs xd xt barcode_img qr_buffer qr_img
              Hiter Hqr Hqimg Hfields Hitems Hall)).
Qed.

Lemma C9_witness :
  detect_printer ideal_world []
  = (Return bixolon,
     [EvUsb 0x0483 0x5743;
      EvLog INFO "Found printer with vendor 0483, product 5743"])
  /\ print_invoice ideal_world (VDict timed_fields) []
     = (Return (true, "Invoice printed successfully"),
        ([EvUsb 0x0483 0x5743;
          EvLog INFO "Found printer with vendor 0483, product 5743"]
         ++ map (EvPrinter bixolon)
              (receipt ideal_world (VStr "STAGMENFASHION")
                 [VStr "+917736444674"; VStr "+918943888200"]
                 (VStr "Kondotty") (VStr "32MMRPS3804DIZS")
                 (VStr "INV-1001") (VStr "2024-01-01")
                 [CallText ("Time: 10:30" ++ PyStr.newline)%string]
                 (VStr "Jane") [shirt_row]
                 (PyNum.float_of 1000 0) (S754_zero false)
                 (PyNum.float_of 1000 0)
                 (PILImage "code128:INV-1001")
                 (PILImage "qr:https://stagmenfashion.com")
               ++ [CallClose]))%list)
  /\ print_invoice ideal_world (VDict empty_time_fields) []
     = (Return (true, "Invoice printed successfully"),
        ([EvUsb 0x0483 0x5743;
          EvLog INFO "Found printer with vendor 0483, product 5743"]
         ++ map (EvPrinter bixolon)
              (receipt ideal_world (VStr "STAGMENFASHION")
                 [VStr "+917736444674"; VStr "+918943888200"]
                 (VStr "Kondotty") (VStr "32MMRPS3804DIZS")
                 (VStr "INV-1001") (VStr "2024-01-01")
                 []
                 (VStr "Jane") [shirt_row]
                 (PyNum.float_of 1000 0) (S754_zero false)
                 (PyNum.float_of 1000 0)
                 (PILImage "code128:INV-1001")
                 (PILImage "qr:https://stagmenfashion.com")
               ++ [CallClose]))%list)
  /\ print_invoice ideal_world (VDict example_fields) []
     = (Return (true, "Invoice printed successfully"),
        ([EvUsb 0x0483 0x5743;
          EvLog INFO "Found printer with vendor 0483, product 5743"]
         ++ map (EvPrinter bixolon)
              (receipt ideal_world (VStr "STAGMENFASHION")
                 [VStr "+917736444674"; VStr "+918943888200"]
                 (VStr "Kondotty") (VStr "32MMRPS3804DIZS")
                 (VStr "INV-1001") (VStr "2024-01-01")
                 []
                 (VStr "Jane") [shirt_row]
                 (PyNum.float_of 1000 0) (S754_zero false)
                 (PyNum.float_of 1000 0)
                 (PILImage "code128:INV-1001")
                 (PILImage "qr:https://stagmenfashion.com")
               ++ [CallClose]))%list).
Proof.
  assert (Hall : Forall2 printed_item [shirt_item] [[shirt_row]])
    by (constructor; [exact shirt_item_printed | constructor]).
  assert (Hfields : forall kvs,
            kvs = timed_fields \/ kvs = empty_time_fields
            \/ kvs = example_fields ->
            required_fields_printable ideal_world kvs
              (VStr "INV-1001") (VStr "2024-01-01") (VStr "Jane")
              (PyNum.float_of 1000 0) (S754_zero false)
              (PyNum.float_of 1000 0) (PILImage "code128:INV-1001")).
  { intros kvs [-> | [-> | ->]]; repeat split; try reflexivity;
      eexists; split; reflexivity. }
  split; [reflexivity | split; [| split]].
  - rewrite (C9_time_line_on_receipt ideal_world bixolon timed_fields
               [] _ [VStr "+917736444674"; VStr "+918943888200"]
               (VStr "INV-1001") (VStr "2024-01-01") (VStr "Jane")
               [shirt_item] [[shirt_row]]
               (PyNum.float_of 1000 0) (S754_zero false)
               (PyNum.float_of 1000 0)
               (PILImage "code128:INV-1001") "qr:https://stagmenfashion.com"
               (PILImage "qr:https://stagmenfashion.com")
               eq_refl (ideal_printer_never_fails bixolon) eq_refl eq_refl
               eq_refl (Hfields _ (or_introl eq_refl)) eq_refl Hall).
    vm_compute. reflexivity.
  - rewrite (C9_time_line_on_receipt ideal_world bixolon empty_time_fields
               [] _ [VStr "+917736444674"; VStr "+918943888200"]
               (VStr "INV-1001") (VStr "2024-01-01") (VStr "Jane")
               [shirt_item] [[shirt_row]]
               (PyNum.float_of 1000 0) (S754_zero false)
               (PyNum.float_of 1000 0)
               (PILImage "code128:INV-1001") "qr:https://stagmenfashion.com"
               (PILImage "qr:https://stagmenfashion.com")
               eq_refl (ideal_printer_never_fails bixolon) eq_refl eq_refl
               eq_refl (Hfields _ (or_intror (or_introl eq_refl))) eq_refl Hall).
    vm_compute. reflexivity.
  - rewrite (C9_time_line_on_receipt ideal_world bixolon example_fields
               [] _ [VStr "+917736444674"; VStr "+918943888200"]
               (VStr "INV-1001") (VStr "2024-01-01") (VStr "Jane")
               [shirt_item] [[shirt_row]]
               (PyNum.float_of 1000 0) (S754_zero false)
               (PyNum.float_of 1000 0)
               (PILImage "code128:INV-1001") "qr:https://stagmenfashion.com"
               (PILImage "qr:https://stagmenfashion.com")
               eq_refl (ideal_printer_never_fails bixolon) eq_refl eq_refl
               eq_refl (Hfields _ (or_intror (or_intror eq_refl))) eq_refl Hall).
    vm_compute. reflexivity.
Defined.

(** ** When no printer is located *)

(** X8. When [detect_printer] ends with an error [e], the job calls no
    printer method at all, not even [close]: the events of the location are
    opens and log lines only. For a [USBNotFoundError] the job adds one
    event, the ERROR line ["Printer detection failed: " + str(e)], and
    returns [(False, str(e))]; for an error of any other class it adds
    nothing and the error leaves [print_invoice] as it is. *)
Theorem X8_detection_failure :
  forall (w : world) (data : value) (ti t0 : list event) (e : exn),
    detect_printer w ti = (Raise e, t0) ->
    print_invoice w data ti
    = (if is_USBNotFoundError e
       then (Return (false, exn_str e),
             (t0 ++ [EvLog ERROR ("Printer detection failed: " ++ exn_str e)])%list)
       else (Raise e, t0))
    /\ exists evs, t0 = (ti ++ evs)%list /\ filter is_printer_event evs = [].
Proof.
  intros w data ti t0 e Hdetect. split.
  - unfold print_invoice, try_except, bind at 1 2. rewrite Hdetect.
    destruct (is_USBNotFoundError e); reflexivity.
  - destruct (detect_printer_no_printer_call w ti) as (evs & E & F).
    rewrite Hdetect in E. exists evs. split; [exact E | exact F].
Qed.

Lemma X8_witness :
  (detect_printer unplugged_world []
   = (Raise (Exn USBNotFoundError
               "USB device not found (No supported USB printer found)"),
      [EvUsb 0x0483 0x5743; EvUsb 0x04b8 0x0202; EvUsb 0x067b 0x2305])
   /\ print_invoice unplugged_world example_invoice []
      = (Return (false, "USB device not found (No supported USB printer found)"),
         [EvUsb 0x0483 0x5743; EvUsb 0x04b8 0x0202; EvUsb 0x067b 0x2305;
          EvLog ERROR
            "Printer detection failed: USB device not found (No supported USB printer found)"]))
  /\ (detect_printer access_denied_world []
      = (Raise access_denied_error, [EvUsb 0x0483 0x5743; EvUsb 0x04b8 0x0202])
      /\ print_invoice access_denied_world example_invoice []
         = (Raise access_denied_error,
            [EvUsb 0x0483 0x5743; EvUsb 0x04b8 0x0202])).
Proof.
  split; (split; [reflexivity |]).
  - exact (proj1 (X8_detection_failure unplugged_world example_invoice [] _ _
                    eq_refl)).
  - exact (proj1 (X8_detection_failure access_denied_world example_invoice []
                    _ _ eq_refl)).
Defined.

(** ** From a result back to the calls *)

Lemma lift_inv {A : Type} (o : outcome A) t r t' :
  lift o t = (r, t') -> o = r /\ t' = t.
Proof. unfold lift. intros H. injection H as <- <-. split; reflexivity. Qed.

Lemma ret_inv {A : Type} (a b : A) t t' :
  ret a t = (Return b, t') -> b = a /\ t' = t.
Proof. unfold ret. intros H. injection H as <- <-. split; reflexivity. Qed.

Lemma get_inv data k d v :
  Py.get data k d = Return v ->
  exists kvs, data = VDict kvs /\ v = supplied_or (Py.lookup k kvs) d.
Proof.
  destruct data as [| b | z | x | s | l | kvs]; try discriminate.
  intros H. exists kvs. split; [reflexivity |].
  unfold Py.get in H. unfold supplied_or.
  destruct (Py.lookup k kvs); injection H as <-; reflexivity.
Qed.

Lemma get_dict kvs k d :
  Py.get (VDict kvs) k d = Return (supplied_or (Py.lookup k kvs) d).
Proof. unfold Py.get, supplied_or. destruct (Py.lookup k kvs); reflexivity. Qed.

Lemma getitem_dict_inv kvs k v :
  Py.getitem (VDict kvs) k = Return v -> Py.lookup k kvs = Some v.
Proof.
  unfold Py.getitem. destruct (Py.lookup k kvs); intros H;
    [injection H as <-; reflexivity | discriminate H].
Qed.

Lemma format_f2_inv n v s :
  Py.format_f2 n v = Return s ->
  exists x, Py.float_for_format v = Return x
            /\ s = PyStr.rjust n (PyNum.format_2f x).
Proof.
  unfold Py.format_f2. destruct (Py.float_for_format v) as [x | e]; intros H;
    [injection H as <-; exists x; split; reflexivity | discriminate H].
Qed.

Lemma for_each_rows_inv {A : Type} (p : usb_printer) (l : list A)
  (body : A -> M unit) (row : A -> string) t t' :
  (forall x t1 t2, In x l -> body x t1 = (Return tt, t2) ->
     t2 = (t1 ++ [EvPrinter p (CallText (row x))])%list) ->
  for_each l body t = (Return tt, t') ->
  t' = (t ++ map (EvPrinter p) (map (fun x => CallText (row x)) l))%list.
Proof.
  revert t. induction l as [| x l IH]; intros t Hbody H.
  - apply ret_inv in H. destruct H as [_ ->]. simpl. rewrite app_nil_r.
    reflexivity.
  - cbn [for_each] in H. apply bind_inv_Return in H.
    destruct H as ([] & t1 & Hx & H).
    apply Hbody in Hx; [| left; reflexivity]. subst t1.
    apply IH in H; [| intros y ta tb Hin; apply Hbody; right; exact Hin].
    subst t'. cbn [map]. rewrite <- app_assoc. reflexivity.
Qed.

Lemma for_each_text_inv w p {A : Type} (l : list A) (row : A -> string)
  t u t' :
  for_each l (fun x => text w p (row x)) t = (Return u, t') ->
  t' = (t ++ map (EvPrinter p) (map (fun x => CallText (row x)) l))%list.
Proof.
  destruct u. apply for_each_rows_inv.
  intros x t1 t2 _ H. exact (method_trace _ _ _ _ _ _ H).
Qed.

Ltac inv_step :=
  match goal with
  | u : unit |- _ => destruct u
  | H : for_each _ (fun _ => text _ _ _) _ = (Return _, _) |- _ =>
      apply for_each_text_inv in H; subst
  | H : bind _ _ _ = (Return _, _) |- _ =>
      apply bind_inv_Return in H; destruct H as (? & ? & ? & H); cbv beta in H
  | H : lift _ _ = (_, _) |- _ => apply lift_inv in H; destruct H as [H ->]
  | H : ret _ _ = (Return _, _) |- _ =>
      apply ret_inv in H; destruct H as [? ?]; subst
  | H : method _ _ _ _ = (_, _) |- _ => apply method_trace in H; subst
  | H : text _ _ _ _ = (_, _) |- _ => apply method_trace in H; subst
  | H : Py.get (VDict _) _ _ = Return _ |- _ =>
      rewrite get_dict in H; injection H as <-
  | H : Py.getitem (VDict _) _ = Return _ |- _ => apply getitem_dict_inv in H
  | H : Py.format_f2 _ _ = Return _ |- _ =>
      apply format_f2_inv in H; destruct H as (? & H & ->)
  | H1 : Py.lookup ?k ?kvs = Some ?a, H2 : Py.lookup ?k ?kvs = Some ?b |- _ =>
      assert (b = a) by congruence; subst b; clear H2
  | H : generate_barcode _ _ _ = (_, _) |- _ => unfold generate_barcode in H
  | H : generate_qr_code _ _ _ = (_, _) |- _ => unfold generate_qr_code in H
  | H : (_, _) = (_, _) |- _ => discriminate H
  | H : Raise _ = Return _ |- _ => discriminate H
  end.

Ltac inv_run := repeat inv_step.

Section LayoutInv.

Variable w : world.
Variable p : usb_printer.

Lemma print_part_first_inv item part t t' :
  print_part w p item (0%nat, part) t = (Return tt, t') ->
  exists s_part numbers,
    Py.format_ljust (py_repr w) 20 part = Return s_part
    /\ (exists quantity price total xq xp xt,
          Py.getitem item "quantity" = Return quantity
          /\ Py.getitem item "price" = Return price
          /\ Py.float_for_format quantity = Return xq
          /\ Py.float_for_format price = Return xp
          /\ Py.mul quantity price = Return total
          /\ Py.float_for_format total = Return xt
          /\ numbers = PyStr.rjust 4 (PyNum.format_2f xq)
                       ++ PyStr.rjust 8 (PyNum.format_2f xp)
                       ++ PyStr.rjust 8 (PyNum.format_2f xt))
    /\ t' = (t ++ [EvPrinter p (CallText (s_part ++ numbers ++ PyStr.newline))])%list.
Proof.
  intros H. unfold print_part in H. cbv beta iota delta [Nat.eqb] in H.
  inv_run.
  match goal with
  | Hq : Py.getitem item "quantity" = Return ?q,
    Hq' : Py.getitem item "quantity" = Return ?q' |- _ =>
      assert (q' = q) by congruence; subst q'; clear Hq'
  end.
  match goal with
  | Hp : Py.getitem item "price" = Return ?q,
    Hp' : Py.getitem item "price" = Return ?q' |- _ =>
      assert (q' = q) by congruence; subst q'; clear Hp'
  end.
  do 2 eexists. split; [eassumption | split].
  - do 6 eexists. repeat split; eassumption || reflexivity.
  - rewrite !string_app_assoc. reflexivity.
Qed.

Lemma print_part_next_inv item k part t t' :
  k <> 0%nat ->
  print_part w p item (k, part) t = (Return tt, t') ->
  exists s_part,
    Py.format_ljust (py_repr w) 20 part = Return s_part
    /\ t' = (t ++ [EvPrinter p (CallText (s_part ++ PyStr.newline))])%list.
Proof.
  intros Hk H. unfold print_part in H.
  destruct (Nat.eqb_spec k 0) as [-> | _]; [contradiction |].
  inv_run. eexists. split; [eassumption | reflexivity].
Qed.

Lemma print_item_inv item t t' :
  print_item w p item t = (Return tt, t') ->
  exists rows,
    printed_item item rows
    /\ t' = (t ++ map (EvPrinter p) (map CallText rows))%list.
Proof.
  intros H. unfold print_item in H.
  apply bind_inv_Return in H. destruct H as (parts & t1 & Hparts & H).
  pose proof Hparts as Hparts'. unfold name_parts in Hparts'.
  apply bind_inv_Return in Hparts'.
  destruct Hparts' as (item_name & ta & Hname & Hparts').
  apply lift_inv in Hname. destruct Hname as [Hname ->].
  apply bind_inv_Return in Hparts'.
  destruct Hparts' as (n & ta & Hlen & Hcomp).
  apply lift_inv in Hlen. destruct Hlen as [Hlen ->].
  destruct n as [| n].
  - (* a name of length 0: no part, nothing printed *)
    apply ret_inv in Hcomp. destruct Hcomp as [-> ->].
    apply ret_inv in H. destruct H as [_ ->].
    exists []. split; [| simpl; rewrite app_nil_r; reflexivity].
    left. exists item_name. repeat split; assumption.
  - (* at least one part: the first one is formatted *)
    unfold Py.range_step in Hcomp.
    cbn [Py.range_from Nat.ltb Nat.leb comprehension] in Hcomp.
    apply bind_inv_Return in Hcomp. destruct Hcomp as (y & tb & Hy & Hcomp).
    apply bind_inv_Return in Hy. destruct Hy as (item_name' & tc & Hn' & Hy).
    apply lift_inv in Hn'. destruct Hn' as [Hn' ->].
    rewrite Hname in Hn'. injection Hn' as <-.
    apply lift_inv in Hy. destruct Hy as [Hy ->].
    apply bind_inv_Return in Hcomp. destruct Hcomp as (ys & td & _ & Hcomp).
    apply ret_inv in Hcomp. destruct Hcomp as [-> ->].
    pose proof H as Hfirst. cbn [Py.enumerate Py.enumerate_from for_each] in Hfirst.
    apply bind_inv_Return in Hfirst. destruct Hfirst as ([] & te & Hfirst & _).
    apply print_part_first_inv in Hfirst.
    destruct Hfirst as (s_part & numbers & Hformat & Hnumbers & _).
    destruct item_name as [| b | z | x | nm | l | kvs]; try discriminate Hlen.
    + (* a string *)
      assert (Hnm : nm <> "").
      { intros ->. discriminate Hlen. }
      assert (Hpos : (0 < String.length nm)%nat).
      { destruct nm; [contradiction | simpl; lia]. }
      assert (Hl : y :: ys
                   = map (fun k => VStr (PyStr.slice (20 * k) 20 nm))
                       (seq 0 ((String.length nm + 19) / 20))
                   /\ td = t).
      { pose proof (name_parts_str item nm t Hname) as E.
        rewrite Hparts in E. split; congruence. }
      destruct Hl as [Hl ->].
      exists (item_rows nm numbers). split.
      * right. exists nm, numbers. split; [exact Hnm | split; [| reflexivity]].
        destruct Hnumbers as (quantity & price & total & xq & xp & xt
                              & Hq & Hp & Hxq & Hxp & Hmul & Hxt & E).
        exists quantity, price, total, xq, xp, xt. repeat split; assumption.
      * rewrite Hl in H. unfold Py.enumerate in H.
        rewrite enumerate_from_map_seq in H.
        set (row := fun ip : nat * value =>
               match ip with
               | (k, VStr s) =>
                   if (k =? 0)%nat
                   then PyStr.ljust 20 s ++ numbers ++ PyStr.newline
                   else PyStr.ljust 20 s ++ PyStr.newline
               | _ => ""
               end).
        apply (for_each_rows_inv p _ _ row) in H.
        -- rewrite H. f_equal. f_equal. unfold item_rows, chunks_of.
           destruct ((String.length nm + 19) / 20)%nat as [| c]; [reflexivity |].
           cbn [seq map]. f_equal. rewrite !map_map.
           apply map_ext_in. intros k Hk. apply in_seq in Hk. unfold row.
           destruct (Nat.eqb_spec k 0); [lia | reflexivity].
        -- intros [k part] t1 t2 Hin Hrun. apply in_map_iff in Hin.
           destruct Hin as (k' & Heq & _). inversion Heq; subst k' part.
           unfold row. destruct (Nat.eqb_spec k 0) as [-> | Hk].
           ++ apply print_part_first_inv in Hrun.
              destruct Hrun as (s_part' & numbers' & Hformat' & Hnumbers' & ->).
              cbn [Py.format_ljust] in Hformat'. injection Hformat' as <-.
              assert (numbers' = numbers).
              { destruct Hnumbers as (q1 & p1 & m1 & xq1 & xp1 & xt1
                                      & Hq1 & Hp1 & Hxq1 & Hxp1 & Hm1 & Hxt1 & E1).
                destruct Hnumbers' as (q2 & p2 & m2 & xq2 & xp2 & xt2
                                       & Hq2 & Hp2 & Hxq2 & Hxp2 & Hm2 & Hxt2 & E2).
                assert (q2 = q1) by congruence. subst q2.
                assert (p2 = p1) by congruence. subst p2.
                assert (m2 = m1) by congruence. subst m2.
                assert (xq2 = xq1) by congruence.
                assert (xp2 = xp1) by congruence.
                assert (xt2 = xt1) by congruence.
                subst. reflexivity. }
              subst numbers'. reflexivity.
           ++ apply (print_part_next_inv _ _ _ _ _ Hk) in Hrun.
              destruct Hrun as (s_part' & Hformat' & ->).
              cbn [Py.format_ljust] in Hformat'. injection Hformat' as <-.
              reflexivity.
    + (* a list: its first part is a list, which has no format *)
      cbn [Py.slice] in Hy. injection Hy as <-. discriminate Hformat.
    + (* an object: it cannot be sliced *)
      discriminate Hy.
Qed.

Lemma for_each_items_inv items t t' :
  for_each items (print_item w p) t = (Return tt, t') ->
  exists rows,
    Forall2 printed_item items rows
    /\ t' = (t ++ map (EvPrinter p) (map CallText (List.concat rows)))%list.
Proof.
  revert t. induction items as [| item items IH]; intros t H.
  - apply ret_inv in H. destruct H as [_ ->].
    exists []. split; [constructor | simpl; rewrite app_nil_r; reflexivity].
  - cbn [for_each] in H. apply bind_inv_Return in H.
    destruct H as ([] & t1 & Hitem & H).
    apply print_item_inv in Hitem. destruct Hitem as (rows1 & Hrows1 & ->).
    apply IH in H. destruct H as (rows & Hrows & ->).
    exists (rows1 :: rows). split; [constructor; assumption |].
    cbn [List.concat]. rewrite !map_app, app_assoc. reflexivity.
Qed.

Lemma time_branch_inv kvs t u t' :
  (if Py.truth (supplied_or (Py.lookup "invoice_time" kvs) VNone)
   then
     time <- lift (Py.getitem (VDict kvs) "invoice_time") ;;
     text w p ("Time: " ++ Py.str (py_repr w) time ++ PyStr.newline)
   else ret tt) t = (Return u, t') ->
  t' = (t ++ map (EvPrinter p) (time_slot w kvs))%list.
Proof.
  unfold time_slot, time_line, supplied_or, Py.getitem.
  destruct (Py.lookup "invoice_time" kvs) as [time |].
  - destruct (Py.truth time); intros H; inv_run.
    + match goal with E : Return _ = Return _ |- _ => injection E as <- end.
      reflexivity.
    + rewrite app_nil_r. reflexivity.
  - cbn [Py.truth]. intros H. inv_run. rewrite app_nil_r. reflexivity.
Qed.

Lemma print_receipt_inv data t r t' :
  print_receipt w p data t = (Return r, t') ->
  r = (true, "Invoice printed successfully")
  /\ exists kvs calls,
       data = VDict kvs
       /\ receipt_of w kvs calls
       /\ t' = (t ++ map (EvPrinter p) calls)%list.
Proof.
  intros H. unfold print_receipt in H.
  (* the header: the request is an object *)
  apply bind_inv_Return in H. destruct H as ([] & t1 & Hheader & H).
  unfold print_header in Hheader.
  apply bind_inv_Return in Hheader. destruct Hheader as ([] & ta & Hset & Hheader).
  apply method_trace in Hset. subst ta.
  apply bind_inv_Return in Hheader.
  destruct Hheader as (company_name & ta & Hget & Hheader).
  apply lift_inv in Hget. destruct Hget as [Hget ->].
  apply get_inv in Hget. destruct Hget as (kvs & -> & ->).
  unfold print_contact, print_address, print_invoice_info, print_table_header,
    print_items, print_totals, print_terms, print_invoice_number,
    print_barcode, print_qr_code, print_footer in H.
  inv_run.
  repeat match goal with
  | H : (if Py.truth _ then _ else _) _ = (Return _, _) |- _ =>
      apply time_branch_inv in H; subst
  | H : for_each _ (print_item _ _) _ = (Return _, _) |- _ =>
      apply for_each_items_inv in H; destruct H as (? & ? & ->)
  end.
  inv_run.
  split; [reflexivity |].
  exists kvs. eexists. split; [reflexivity | split].
  - unfold receipt_of. do 13 eexists.
    split; [eassumption |].
    split.
    { unfold required_fields_printable.
      split; [eassumption |]. split; [eassumption |].
      split; [eassumption |].
      split; [eexists; split; eassumption |].
      split; [eassumption |].
      split; [eexists; split; eassumption |].
      eexists; split; eassumption. }
    split; [eassumption |]. split; [eassumption |].
    split; [eassumption |]. split; [eassumption |].
    split; [eassumption | reflexivity].
  - unfold receipt, terms. rewrite !map_app. cbn [map].
    repeat rewrite <- app_assoc. reflexivity.
Qed.

End LayoutInv.

Lemma check_required_trace data fields t r t' :
  check_required data fields t = (r, t') -> t' = t.
Proof.
  induction fields as [| field fields IH]; cbn [check_required].
  - unfold ret. intros H. injection H as _ <-. reflexivity.
  - unfold bind, lift. destruct (Py.contains field data) as [present | e].
    + destruct present; cbv beta iota delta [negb].
      * exact IH.
      * unfold ret. intros H. injection H as _ <-. reflexivity.
    + intros H. injection H as _ <-. reflexivity.
Qed.

(** A job that returns success has located a printer, printed the receipt
    of its request on it and released it. *)
Lemma print_invoice_success_inv w data ti msg t' :
  print_invoice w data ti = (Return (true, msg), t') ->
  msg = "Invoice printed successfully"
  /\ exists kvs p t0 calls,
       data = VDict kvs
       /\ detect_printer w ti = (Return p, t0)
       /\ receipt_of w kvs calls
       /\ t' = (t0 ++ map (EvPrinter p) (calls ++ [CallClose]))%list.
Proof.
  intros H. destruct (detect_printer w ti) as [[p | e] t0] eqn:Hdetect.
  - rewrite (print_invoice_located _ _ _ _ _ Hdetect) in H.
    unfold try_finally in H.
    destruct (print_phase w p data t0) as [r t1] eqn:Hphase.
    destruct (method w p CallClose t1) as [[[] | e] t2] eqn:Hclose;
      [| discriminate H].
    injection H as -> <-. apply method_trace in Hclose. subst t2.
    unfold print_phase, try_except in Hphase.
    destruct (print_receipt w p data t0) as [[r | e] t3] eqn:Hreceipt.
    + injection Hphase as -> ->.
      apply print_receipt_inv in Hreceipt.
      destruct Hreceipt as (Hr & kvs & calls & -> & Hcalls & ->).
      injection Hr as ->. split; [reflexivity |].
      exists kvs, p, t0, calls. repeat split; try assumption.
      rewrite map_app, app_assoc. reflexivity.
    + cbv beta iota delta [is_Exception bind logger ret] in Hphase.
      discriminate Hphase.
  - unfold print_invoice, try_except, bind at 1 2 in H. rewrite Hdetect in H.
    destruct (is_USBNotFoundError e);
      cbv beta iota delta [bind logger ret] in H; discriminate H.
Qed.

(** ** What a success means *)

(** X9. Whenever the handler answers, the status is 200 exactly when the
    answer says [success]; and an answer says [success] only when the whole
    receipt went out. Its message is then ["Invoice printed successfully"],
    the body of the request is an object, no printer call is made before the
    printer is located, and from there on the events of the request are the
    calls of the receipt laid out for the fields of the request, in order and
    up to the cut, followed by the release of the handle and nothing else. *)
Theorem X9_success_means_receipt_printed :
  forall (w : world) (req : request) (t t' : list event) (resp : response),
    handle_print w req t = (Return resp, t') ->
    (success resp = true <-> status_code resp = 200)
    /\ (success resp = true ->
        message resp = "Invoice printed successfully"
        /\ exists kvs p evs calls,
             get_json req = Return (VDict kvs)
             /\ filter is_printer_event evs = []
             /\ receipt_of w kvs calls
             /\ t' = (t ++ evs ++ map (EvPrinter p) (calls ++ [CallClose]))%list).
Proof.
  intros w req t t' resp H. unfold handle_print in H.
  apply bind_inv_Return in H. destruct H as (authorized & t1 & Htoken & H).
  destruct authorized; cbv beta iota delta [negb] in H;
    [| unfold ret in H; injection H as <- _;
       split; [split; discriminate | discriminate]].
  destruct (is_json req); cbv beta iota delta [negb] in H;
    [| unfold ret in H; injection H as <- _;
       split; [split; discriminate | discriminate]].
  apply bind_inv_Return in H. destruct H as (data & t2 & Hbody & H).
  apply lift_inv in Hbody. destruct Hbody as [Hbody ->].
  apply bind_inv_Return in H. destruct H as (missing & t3 & Hcheck & H).
  destruct missing as [r |].
  - unfold ret in H. injection H as <- _.
    destruct (check_required_refusal _ _ _ _ _ Hcheck) as [Hs Hc].
    rewrite Hs, Hc. split; [split; discriminate | discriminate].
  - apply check_required_trace in Hcheck. subst t3.
    apply bind_inv_Return in H. destruct H as ([ok msg] & t4 & Hprint & H).
    unfold ret in H. injection H as <- <-. cbn [success message status_code].
    destruct ok; [| split; [split; discriminate | discriminate]].
    split; [split; reflexivity |]. intros _.
    apply print_invoice_success_inv in Hprint.
    destruct Hprint as (-> & kvs & p & t0 & calls & -> & Hdetect & Hcalls & ->).
    split; [reflexivity |].
    destruct (validate_token_result w req t) as (evs1 & Hrun & Hquiet1).
    rewrite Htoken in Hrun. injection Hrun as _ ->.
    destruct (detect_printer_no_printer_call w (t ++ evs1)%list)
      as (evs2 & Hext & Hquiet2).
    rewrite Hdetect in Hext. cbn [snd] in Hext. subst t0.
    exists kvs, p, (evs1 ++ evs2)%list, calls.
    split; [exact Hbody | split; [| split; [exact Hcalls |]]].
    + rewrite filter_printer_event_app, Hquiet2.
      rewrite (device_quiet_no_printer_call _ Hquiet1). reflexivity.
    + rewrite <- !app_assoc. reflexivity.
Qed.

Lemma X9_witness :
  handle_print ideal_world (authorized_request example_invoice) []
  = (Return (Response true "Invoice printed successfully" 200),
     snd (handle_print ideal_world (authorized_request example_invoice) []))
  /\ exists kvs p evs calls,
       get_json (authorized_request example_invoice) = Return (VDict kvs)
       /\ filter is_printer_event evs = []
       /\ receipt_of ideal_world kvs calls
       /\ snd (handle_print ideal_world (authorized_request example_invoice) [])
          = ([] ++ evs ++ map (EvPrinter p) (calls ++ [CallClose]))%list.
Proof.
  assert (Hrun : handle_print ideal_world (authorized_request example_invoice) []
                 = (Return (Response true "Invoice printed successfully" 200),
                    snd (handle_print ideal_world
                           (authorized_request example_invoice) [])))
    by (vm_compute; reflexivity).
  split; [exact Hrun |].
  destruct (X9_success_means_receipt_printed _ _ _ _ _ Hrun) as [_ Hshape].
  exact (proj2 (Hshape eq_refl)).
Defined.
